(** * Pharmacy inventory and sales tracker: domain rules

    Shallow embedding of the domain-rule layer of the application:
    - [utils.ts]: [isExpired], [isLowStock], [isNearExpiry],
      [getMedicineStatus], [calculateMetrics], [generateId];
    - [App.tsx]: the store handlers [handleAddMedicine],
      [handleUpdateMedicine], [handleDeleteMedicine], [handleSell];
    - [components/SalesTable.tsx]: [availableMedicines], [handleSubmit];
    - [components/InventoryTable.tsx]: [handleSubmit].

    Numbers.  A TypeScript [number] that holds a stock count (the result of
    [parseInt] on a numeric form field) is an integer of [Z]; one that holds
    a currency amount (the result of [parseFloat]) is an exact rational of
    [Q].  Rounding of binary floating point and the [NaN] that [parseInt]
    and [parseFloat] give on a non-numeric string are outside the model: the
    handlers are applied to well-typed numeric input.  Since the code adds
    amounts in floating point, what is stated of a sum of amounts is which
    terms it adds, as exact amounts; nothing is concluded from adding the
    same amounts in another order.

    Time.  [new Date(s).getTime()] and [d.toISOString()] are built-ins of
    the platform; they are taken as the class [DateBuiltins].  The wall
    clock and [Math.random()] are read from an explicit [Env]. *)

From Stdlib Require Import ZArith QArith Qminmax List String Ascii Bool Lia.
From Stdlib Require Import Permutation Sorted Lqa NArith Nnat.
Import ListNotations.

Local Open Scope Z_scope.

(** ** The platform *)

(** [Date_parse s] is [new Date(s).getTime()] in milliseconds since the
    epoch, [None] standing for the [NaN] of an invalid date;
    [Date_toISOString t] is [new Date(t).toISOString()]. *)
Class DateBuiltins : Type := {
  Date_parse : string -> option Z;
  Date_toISOString : Z -> string
}.

(** What a handler reads from the outside during one event turn:
    [now] is [Date.now()] (also [new Date().getTime()]), and [random36] is
    [Math.random().toString(36)], a string of the form [0.xxxxx]. *)
Record Env : Type := mkEnv {
  now : Z;
  random36 : string
}.

(** The built-ins that depend on the locale: [toLowerCase s] is
    [s.toLowerCase()], [localeCompare a b] is [a.localeCompare(b)], and
    [toLocaleDateString s] is [new Date(s).toLocaleDateString()]. *)
Class LocaleBuiltins : Type := {
  toLowerCase : string -> string;
  localeCompare : string -> string -> Z;
  toLocaleDateString : string -> string
}.

(** [1000 * 60 * 60 * 24] *)
Definition msPerDay : Z := 1000 * 60 * 60 * 24.

(** [Math.ceil(a / b)] for an integer [a] and a positive integer [b]. *)
Definition ceilDiv (a b : Z) : Z := - ((- a) / b).

(** ** types.ts *)

Module Medicine.
Record t : Type := mk {
  id : string;
  name : string;
  supplier : string;
  price : Q;
  quantity : Z;
  expiryDate : string;
  plu : string;
  category : string
}.

(** [{ ...med, quantity: q }] *)
Definition withQuantity (med : t) (q : Z) : t :=
  {| id := id med; name := name med; supplier := supplier med;
     price := price med; quantity := q; expiryDate := expiryDate med;
     plu := plu med; category := category med |}.
End Medicine.

(** [Omit<Medicine, 'id'>] *)
Module MedicineData.
Record t : Type := mk {
  name : string;
  supplier : string;
  price : Q;
  quantity : Z;
  expiryDate : string;
  plu : string;
  category : string
}.

(** [{ ...medicineData, id }] *)
Definition withId (medicineData : t) (id : string) : Medicine.t :=
  {| Medicine.id := id; Medicine.name := name medicineData;
     Medicine.supplier := supplier medicineData;
     Medicine.price := price medicineData;
     Medicine.quantity := quantity medicineData;
     Medicine.expiryDate := expiryDate medicineData;
     Medicine.plu := plu medicineData;
     Medicine.category := category medicineData |}.
End MedicineData.

Module Sale.
Record t : Type := mk {
  id : string;
  customerName : string;
  medicineId : string;
  medicineName : string;
  quantity : Z;
  price : Q;
  totalAmount : Q;
  dateTime : string
}.
End Sale.

(** [Omit<Sale, 'id' | 'dateTime'>] *)
Module SaleData.
Record t : Type := mk {
  customerName : string;
  medicineId : string;
  medicineName : string;
  quantity : Z;
  price : Q;
  totalAmount : Q
}.

(** [{ ...saleData, id, dateTime }] *)
Definition withIdAndDateTime (saleData : t) (id dateTime : string) : Sale.t :=
  {| Sale.id := id; Sale.customerName := customerName saleData;
     Sale.medicineId := medicineId saleData;
     Sale.medicineName := medicineName saleData;
     Sale.quantity := quantity saleData; Sale.price := price saleData;
     Sale.totalAmount := totalAmount saleData; Sale.dateTime := dateTime |}.
End SaleData.

Module DashboardMetrics.
Record t : Type := mk {
  totalInventoryValue : Q;
  totalSales : Q;
  lowStockItems : nat;
  expiredItems : nat
}.
End DashboardMetrics.

(** ** Built-in operations on strings, arrays and maps *)

Module Js.

(** [s.includes(t)] *)
Fixpoint includes (s t : string) : bool :=
  if String.prefix t s then true
  else match s with
       | EmptyString => false
       | String _ s' => includes s' t
       end.

(** A string used as a condition: only the empty string is falsy. *)
Definition truthy (s : string) : bool := negb (String.eqb s "").

(** [Array.prototype.sort(compareFn)]: the sort is stable, and an element
    moves behind another one only when [compareFn] of the two is positive.
    For a consistent [compareFn] this is the one order the language
    allows. *)
Fixpoint insert {A : Type} (compareFn : A -> A -> Q) (x : A) (sorted : list A) : list A :=
  match sorted with
  | [] => [x]
  | y :: rest =>
      if Qle_bool (compareFn x y) 0 then x :: y :: rest
      else y :: insert compareFn x rest
  end.

Definition sort {A : Type} (compareFn : A -> A -> Q) (l : list A) : list A :=
  fold_right (insert compareFn) [] l.

(** [l.slice(0, n)] *)
Definition sliceFirst {A : Type} (n : nat) (l : list A) : list A := firstn n l.

(** [l.slice(-n)] *)
Definition sliceLast {A : Type} (n : nat) (l : list A) : list A :=
  skipn (List.length l - n) l.

(** [Map<string, number>], its entries in insertion order. *)
Definition Map : Type := list (string * Q).

Fixpoint mapGet (m : Map) (k : string) : option Q :=
  match m with
  | [] => None
  | (k', v) :: m' => if String.eqb k' k then Some v else mapGet m' k
  end.

(** [m.set(k, v)]: a key that is present keeps its place. *)
Fixpoint mapSet (m : Map) (k : string) (v : Q) : Map :=
  match m with
  | [] => [(k, v)]
  | (k', v') :: m' =>
      if String.eqb k' k then (k, v) :: m' else (k', v') :: mapSet m' k v
  end.

(** [v || 0] for the result of [Map.get]: [undefined] and zero give 0. *)
Definition orZero (v : option Q) : Q :=
  match v with
  | Some x => if Qeq_bool x 0 then 0%Q else x
  | None => 0%Q
  end.

(** [Math.max(...values, 1)] *)
Definition maxWithOne (values : list Q) : Q := fold_right Qmax 1%Q values.

End Js.

(** ** utils.ts *)

Module Utils.

(** [new Date(expiryDate) < new Date()]; a comparison with [NaN] is
    false. *)
Definition isExpired `{DateBuiltins} (env : Env) (expiryDate : string) : bool :=
  match Date_parse expiryDate with
  | Some expiry => expiry <? now env
  | None => false
  end.

Definition isLowStock (quantity : Z) : bool := quantity <? 5.

(** [diffDays] of [isNearExpiry]; [None] when the date is invalid. *)
Definition diffDays `{DateBuiltins} (env : Env) (expiryDate : string) : option Z :=
  match Date_parse expiryDate with
  | Some expiry =>
      let diffTime := expiry - now env in
      Some (ceilDiv diffTime msPerDay)
  | None => None
  end.

Definition isNearExpiry `{DateBuiltins} (env : Env) (expiryDate : string)
    (daysThreshold : Z) : bool :=
  match diffDays env expiryDate with
  | Some d => (0 <? d) && (d <=? daysThreshold)
  | None => false
  end.

(** The default value of [daysThreshold]. *)
Definition defaultDaysThreshold : Z := 90.

Definition getMedicineStatus `{DateBuiltins} (env : Env) (medicine : Medicine.t) : string :=
  if isExpired env (Medicine.expiryDate medicine) then "Expired"%string
  else if isLowStock (Medicine.quantity medicine) then "Low Stock"%string
  else "In Stock"%string.

Definition calculateMetrics `{DateBuiltins} (env : Env)
    (medicines : list Medicine.t) (sales : list Sale.t) : DashboardMetrics.t :=
  let totalInventoryValue :=
    fold_left
      (fun sum med => (sum + Medicine.price med * inject_Z (Medicine.quantity med))%Q)
      medicines 0%Q in
  let totalSales :=
    fold_left (fun sum sale => (sum + Sale.totalAmount sale)%Q) sales 0%Q in
  let lowStockItems :=
    List.length (filter
              (fun med => isLowStock (Medicine.quantity med)
                          && negb (isExpired env (Medicine.expiryDate med)))
              medicines) in
  let expiredItems :=
    List.length (filter (fun med => isExpired env (Medicine.expiryDate med)) medicines) in
  {| DashboardMetrics.totalInventoryValue := totalInventoryValue;
     DashboardMetrics.totalSales := totalSales;
     DashboardMetrics.lowStockItems := lowStockItems;
     DashboardMetrics.expiredItems := expiredItems |}.

(** One digit of [Number.prototype.toString(36)]. *)
Definition digit36 (d : N) : ascii :=
  if (d <? 10)%N then ascii_of_N (48 + d) else ascii_of_N (97 + (d - 10)).

Fixpoint toString36_aux (fuel : nat) (n : N) (acc : string) : string :=
  match fuel with
  | O => acc
  | S fuel' =>
      let acc' := String (digit36 (n mod 36)) acc in
      if (n / 36 =? 0)%N then acc' else toString36_aux fuel' (n / 36)%N acc'
  end.

(** [n.toString(36)] for a non-negative integer [n]; the number of binary
    digits of [n] bounds the number of its digits in base 36. *)
Definition toString36 (n : Z) : string :=
  let m := Z.to_N n in
  toString36_aux (S (N.to_nat (N.log2 m))) m EmptyString.

(** [s.substr(2)] *)
Definition substr2 (s : string) : string :=
  substring 2 (String.length s - 2) s.

(** [Date.now().toString(36) + Math.random().toString(36).substr(2)] *)
Definition generateId (env : Env) : string :=
  (toString36 (now env) ++ substr2 (random36 env))%string.

End Utils.

(** ** The page state

    [App] holds the catalog and the sales history with [useState]; every
    handler runs to completion in one event turn and replaces them.  The
    calls of [alert] are kept as a trace, oldest first. *)

Inductive Alert : Type :=
| ErrorInsufficientStock
    (** ['Error: Insufficient stock'] ([handleSell]) *)
| SaleCompleted (totalAmount : Q)
    (** ['Sale completed successfully!\nTotal: $' + totalAmount.toFixed(2)]
        ([handleSell]) *)
| PleaseSelectMedicine
    (** ['Please select a medicine'] ([SalesTable.handleSubmit]) *)
| InsufficientStockAvailable (available : Z)
    (** ['Insufficient stock. Available: ' + medicine.quantity]
        ([SalesTable.handleSubmit]) *)
| QuantityMustBePositive
    (** ['Quantity must be greater than 0'] ([SalesTable.handleSubmit]) *).

Record AppState : Type := mkAppState {
  medicines : list Medicine.t;
  sales : list Sale.t;
  alerts : list Alert
}.

Definition setMedicines (ms : list Medicine.t) (st : AppState) : AppState :=
  {| medicines := ms; sales := sales st; alerts := alerts st |}.

Definition setSales (ss : list Sale.t) (st : AppState) : AppState :=
  {| medicines := medicines st; sales := ss; alerts := alerts st |}.

Definition alert (a : Alert) (st : AppState) : AppState :=
  {| medicines := medicines st; sales := sales st; alerts := alerts st ++ [a] |}.

(** [medicines.find(m => m.id === id)] *)
Definition findMedicine (id : string) (ms : list Medicine.t) : option Medicine.t :=
  find (fun m => String.eqb (Medicine.id m) id) ms.

(** ** components/SalesTable.tsx *)

(** The form of the sale dialog; [quantity] is [parseInt(formData.quantity)]. *)
Module SaleForm.
Record t : Type := mk {
  customerName : string;
  medicineId : string;
  quantity : Z
}.
End SaleForm.

Module SalesTable.

Definition availableMedicines `{DateBuiltins} (env : Env)
    (medicines : list Medicine.t) : list Medicine.t :=
  filter (fun med => negb (Utils.isExpired env (Medicine.expiryDate med))
                     && (0 <? Medicine.quantity med))
         medicines.

(** [handleSubmit] with the props [medicines] and [onSell]; the reset of
    the dialog's own form fields after [onSell] is local to the component
    and left out. *)
Definition handleSubmit (medicines : list Medicine.t)
    (onSell : SaleData.t -> AppState -> AppState)
    (formData : SaleForm.t) (st : AppState) : AppState :=
  match findMedicine (SaleForm.medicineId formData) medicines with
  | None => alert PleaseSelectMedicine st
  | Some medicine =>
      let quantity := SaleForm.quantity formData in
      if Medicine.quantity medicine <? quantity then
        alert (InsufficientStockAvailable (Medicine.quantity medicine)) st
      else if quantity <=? 0 then
        alert QuantityMustBePositive st
      else
        let saleData :=
          {| SaleData.customerName := SaleForm.customerName formData;
             SaleData.medicineId := Medicine.id medicine;
             SaleData.medicineName := Medicine.name medicine;
             SaleData.quantity := quantity;
             SaleData.price := Medicine.price medicine;
             SaleData.totalAmount :=
               (Medicine.price medicine * inject_Z quantity)%Q |} in
        onSell saleData st
  end.

Definition filteredSales `{LocaleBuiltins} (sales : list Sale.t)
    (searchTerm : string) : list Sale.t :=
  if negb (Js.truthy searchTerm) then sales
  else
    filter
      (fun sale =>
         Js.includes (toLowerCase (Sale.customerName sale)) (toLowerCase searchTerm)
         || Js.includes (toLowerCase (Sale.medicineName sale)) (toLowerCase searchTerm))
      sales.

End SalesTable.

(** ** components/InventoryTable.tsx *)

Module InventoryTable.

(** [handleSubmit] with the props [onAdd] and [onUpdate]; [medicineData]
    is the form with [price] and [quantity] parsed, and [editingMedicine]
    is the medicine under edit, if any. *)
Definition handleSubmit
    (onAdd : MedicineData.t -> AppState -> AppState)
    (onUpdate : string -> MedicineData.t -> AppState -> AppState)
    (editingMedicine : option Medicine.t)
    (medicineData : MedicineData.t) (st : AppState) : AppState :=
  match editingMedicine with
  | Some m => onUpdate (Medicine.id m) medicineData st
  | None => onAdd medicineData st
  end.

(** [keyof Medicine] *)
Inductive SortField : Type :=
| by_id | by_name | by_supplier | by_price | by_quantity | by_expiryDate
| by_plu | by_category.

Inductive SortDirection : Type := asc | desc.

(** A value read from a medicine: a string or a number. *)
Inductive FieldValue : Type :=
| StringValue (s : string)
| NumberValue (x : Q).

(** [medicine[sortField]] *)
Definition fieldOf (sortField : SortField) (med : Medicine.t) : FieldValue :=
  match sortField with
  | by_id => StringValue (Medicine.id med)
  | by_name => StringValue (Medicine.name med)
  | by_supplier => StringValue (Medicine.supplier med)
  | by_price => NumberValue (Medicine.price med)
  | by_quantity => NumberValue (inject_Z (Medicine.quantity med))
  | by_expiryDate => StringValue (Medicine.expiryDate med)
  | by_plu => StringValue (Medicine.plu med)
  | by_category => StringValue (Medicine.category med)
  end.

(** The text search of the inventory. *)
Definition matchesSearch `{LocaleBuiltins} (searchTerm : string) (med : Medicine.t) : bool :=
  Js.includes (toLowerCase (Medicine.name med)) (toLowerCase searchTerm)
  || Js.includes (toLowerCase (Medicine.supplier med)) (toLowerCase searchTerm)
  || Js.includes (toLowerCase (Medicine.plu med)) (toLowerCase searchTerm)
  || Js.includes (toLowerCase (Medicine.category med)) (toLowerCase searchTerm).

(** The comparison function of the sort.  Both values come from the same
    field, so they are two strings or two numbers; the difference of a
    string and a number would be [NaN], which the sort takes as 0. *)
Definition compareRows `{LocaleBuiltins} (sortField : SortField)
    (sortDirection : SortDirection) (a b : Medicine.t) : Q :=
  let aVal := fieldOf sortField a in
  let bVal := fieldOf sortField b in
  let multiplier := match sortDirection with asc => 1 | desc => -1 end in
  match aVal, bVal with
  | StringValue x, StringValue y => inject_Z (localeCompare x y * multiplier)
  | NumberValue x, NumberValue y => ((x - y) * inject_Z multiplier)%Q
  | _, _ => 0%Q
  end.

(** [filteredMedicines]: the rows of the table, and the content of the
    array [medicines] afterwards.  [filter] makes a new array and [sort]
    works in place, so that without a filter it is the array of the caller
    that is sorted. *)
Definition filteredMedicines `{DateBuiltins} `{LocaleBuiltins} (env : Env)
    (medicines : list Medicine.t) (searchTerm : string) (sortField : SortField)
    (sortDirection : SortDirection) (showExpiredOnly : bool)
    : list Medicine.t * list Medicine.t :=
  let filtered := medicines in
  let filtered :=
    if showExpiredOnly
    then filter (fun med => Utils.isExpired env (Medicine.expiryDate med)) filtered
    else filtered in
  let filtered :=
    if Js.truthy searchTerm then filter (matchesSearch searchTerm) filtered
    else filtered in
  let sorted := Js.sort (compareRows sortField sortDirection) filtered in
  (sorted, if showExpiredOnly || Js.truthy searchTerm then medicines else sorted).

(** [handleSort], on the pair of [sortField] and [sortDirection]. *)
Definition SortField_eqb (a b : SortField) : bool :=
  match a, b with
  | by_id, by_id | by_name, by_name | by_supplier, by_supplier
  | by_price, by_price | by_quantity, by_quantity
  | by_expiryDate, by_expiryDate | by_plu, by_plu | by_category, by_category => true
  | _, _ => false
  end.

Definition handleSort (field : SortField) (state : SortField * SortDirection)
    : SortField * SortDirection :=
  let (sortField, sortDirection) := state in
  if SortField_eqb sortField field then
    (sortField, match sortDirection with asc => desc | desc => asc end)
  else (field, asc).

Definition getStatusColor (status : string) : string :=
  if String.eqb status "Expired" then "bg-red-100 text-red-700 border-red-200"%string
  else if String.eqb status "Low Stock"
       then "bg-amber-100 text-amber-700 border-amber-200"%string
       else "bg-green-100 text-green-700 border-green-200"%string.

End InventoryTable.

(** ** components/Charts.tsx *)

Module Charts.

(** The [forEach] of [salesByDay]: the amounts of the sales, added up by
    day. *)
Definition salesMap `{LocaleBuiltins} (sales : list Sale.t) : Js.Map :=
  fold_left
    (fun salesMap sale =>
       let date := toLocaleDateString (Sale.dateTime sale) in
       Js.mapSet salesMap date
         (Js.orZero (Js.mapGet salesMap date) + Sale.totalAmount sale)%Q)
    sales [].

(** [new Date(a).getTime() - new Date(b).getTime()]; it is [NaN] when a
    date is invalid, which the sort takes as 0. *)
Definition byDate `{DateBuiltins} (a b : string) : Q :=
  match Date_parse a, Date_parse b with
  | Some x, Some y => inject_Z (x - y)
  | _, _ => 0%Q
  end.

Definition salesByDay `{DateBuiltins} `{LocaleBuiltins} (sales : list Sale.t)
    : list (string * Q) :=
  Js.sliceLast 7 (Js.sort (fun a b => byDate (fst a) (fst b)) (salesMap sales)).

Definition nearExpiryProducts `{DateBuiltins} (env : Env)
    (medicines : list Medicine.t) : list Medicine.t :=
  Js.sliceFirst 10
    (Js.sort (fun a b => byDate (Medicine.expiryDate a) (Medicine.expiryDate b))
       (filter
          (fun med =>
             Utils.isNearExpiry env (Medicine.expiryDate med) Utils.defaultDaysThreshold
             && (0 <? Medicine.quantity med))
          medicines)).

(** The [forEach] of [inventoryByCategory]: the value of the stock, added
    up by category. *)
Definition categoryMap (medicines : list Medicine.t) : Js.Map :=
  fold_left
    (fun categoryMap med =>
       let currentValue :=
         (Js.orZero (Js.mapGet categoryMap (Medicine.category med))
          + Medicine.price med * inject_Z (Medicine.quantity med))%Q in
       Js.mapSet categoryMap (Medicine.category med) currentValue)
    medicines [].

Definition inventoryByCategory (medicines : list Medicine.t) : list (string * Q) :=
  Js.sliceFirst 8 (Js.sort (fun a b => (snd b - snd a)%Q) (categoryMap medicines)).

Definition maxSales `{DateBuiltins} `{LocaleBuiltins} (sales : list Sale.t) : Q :=
  Js.maxWithOne (map snd (salesByDay sales)).

Definition maxInventory (medicines : list Medicine.t) : Q :=
  Js.maxWithOne (map snd (inventoryByCategory medicines)).

(** [(amount / max) * 100], the width of a bar in percent. *)
Definition barWidth (amount max : Q) : Q := (amount / max * 100)%Q.

End Charts.

(** ** App.tsx *)

Module App.

Definition handleAddMedicine (env : Env) (medicineData : MedicineData.t)
    (st : AppState) : AppState :=
  let newMedicine := MedicineData.withId medicineData (Utils.generateId env) in
  setMedicines (medicines st ++ [newMedicine]) st.

Definition handleUpdateMedicine (id : string) (medicineData : MedicineData.t)
    (st : AppState) : AppState :=
  setMedicines
    (map (fun med => if String.eqb (Medicine.id med) id
                     then MedicineData.withId medicineData id else med)
         (medicines st))
    st.

Definition handleDeleteMedicine (id : string) (st : AppState) : AppState :=
  setMedicines
    (filter (fun med => negb (String.eqb (Medicine.id med) id)) (medicines st))
    st.

(** The catalog after a sale: every entry whose id is the sold one loses
    [quantity] units. *)
Definition decrementStock (medicineId : string) (quantity : Z)
    (ms : list Medicine.t) : list Medicine.t :=
  map (fun med => if String.eqb (Medicine.id med) medicineId
                  then Medicine.withQuantity med (Medicine.quantity med - quantity)
                  else med)
      ms.

Definition handleSell `{DateBuiltins} (env : Env) (saleData : SaleData.t)
    (st : AppState) : AppState :=
  match findMedicine (SaleData.medicineId saleData) (medicines st) with
  | None => alert ErrorInsufficientStock st
  | Some medicine =>
      if Medicine.quantity medicine <? SaleData.quantity saleData then
        alert ErrorInsufficientStock st
      else
        let newSale :=
          SaleData.withIdAndDateTime saleData
            (Utils.generateId env) (Date_toISOString (now env)) in
        alert (SaleCompleted (SaleData.totalAmount saleData))
          (setMedicines
             (decrementStock (SaleData.medicineId saleData)
                (SaleData.quantity saleData) (medicines st))
             (setSales (newSale :: sales st) st))
  end.

(** [<SalesTable medicines={medicines} sales={sales} onSell={handleSell} />]:
    the sale dialog submitted against the current page state. *)
Definition submitSale `{DateBuiltins} (env : Env) (formData : SaleForm.t)
    (st : AppState) : AppState :=
  SalesTable.handleSubmit (medicines st) (handleSell env) formData st.

(** [<InventoryTable onAdd={handleAddMedicine}
      onUpdate={handleUpdateMedicine} onDelete={handleDeleteMedicine} />]:
    the medicine dialog submitted against the current page state. *)
Definition submitMedicine (env : Env) (editingMedicine : option Medicine.t)
    (medicineData : MedicineData.t) (st : AppState) : AppState :=
  InventoryTable.handleSubmit (handleAddMedicine env) handleUpdateMedicine
    editingMedicine medicineData st.

(** The two lists that [App] derives at each render. *)
Definition lowStockItems `{DateBuiltins} (env : Env) (st : AppState) : list Medicine.t :=
  filter (fun med => Utils.isLowStock (Medicine.quantity med)
                     && negb (Utils.isExpired env (Medicine.expiryDate med)))
         (medicines st).

Definition expiredItems `{DateBuiltins} (env : Env) (st : AppState) : list Medicine.t :=
  filter (fun med => Utils.isExpired env (Medicine.expiryDate med)) (medicines st).

(** The lines of the alert shown when the page opens. *)
Inductive StartupMessage : Type :=
| LowInStock (count : nat)    (** [count + ' item(s) are low in stock'] *)
| HaveExpired (count : nat)   (** [count + ' item(s) have expired'] *).

(** The effect run once when the page opens: the messages of the alert it
    shows, if it shows one, and [showAlert] afterwards. *)
Definition startupEffect `{DateBuiltins} (env : Env) (showAlert : bool) (st : AppState)
    : option (list StartupMessage) * bool :=
  let low := List.length (lowStockItems env st) in
  let expired := List.length (expiredItems env st) in
  if showAlert && ((0 <? low)%nat || (0 <? expired)%nat) then
    let messages := [] in
    let messages := if (0 <? low)%nat then messages ++ [LowInStock low] else messages in
    let messages :=
      if (0 <? expired)%nat then messages ++ [HaveExpired expired] else messages in
    (Some messages, false)
  else (None, showAlert).

(** The inventory view rendered on the page state: the rows shown, and the
    state with the array [medicines] as the table leaves it. *)
Definition renderInventory `{DateBuiltins} `{LocaleBuiltins} (env : Env)
    (searchTerm : string) (sortField : InventoryTable.SortField)
    (sortDirection : InventoryTable.SortDirection) (showExpiredOnly : bool)
    (st : AppState) : list Medicine.t * AppState :=
  let (rows, array) :=
    InventoryTable.filteredMedicines env (medicines st) searchTerm sortField
      sortDirection showExpiredOnly in
  (rows, setMedicines array st).

(** The user actions that change the catalog or the sales history:
    the three catalog handlers, [handleSell] called with any sale data,
    and the sale dialog, which is how the page calls it. *)
Inductive Action : Type :=
| AddMedicine (medicineData : MedicineData.t)
| UpdateMedicine (id : string) (medicineData : MedicineData.t)
| DeleteMedicine (id : string)
| Sell (saleData : SaleData.t)
| SubmitSale (formData : SaleForm.t).

Definition step `{DateBuiltins} (env : Env) (a : Action) (st : AppState) : AppState :=
  match a with
  | AddMedicine medicineData => handleAddMedicine env medicineData st
  | UpdateMedicine id medicineData => handleUpdateMedicine id medicineData st
  | DeleteMedicine id => handleDeleteMedicine id st
  | Sell saleData => handleSell env saleData st
  | SubmitSale formData => submitSale env formData st
  end.

(** A session: the actions of successive event turns, each with what the
    handler reads from the outside during its turn. *)
Fixpoint run `{DateBuiltins} (turns : list (Env * Action)) (st : AppState) : AppState :=
  match turns with
  | [] => st
  | (env, a) :: turns' => run turns' (step env a st)
  end.

End App.

(** ** Vocabulary of the properties *)

(** The failure kinds of a sale request, and the alert by which the code
    reports each of them. *)
Inductive SaleError : Type := NotFound | InsufficientStock | InvalidQuantity.

Definition errorOfAlert (a : Alert) : option SaleError :=
  match a with
  | PleaseSelectMedicine => Some NotFound
  | InsufficientStockAvailable _ => Some InsufficientStock
  | ErrorInsufficientStock => Some InsufficientStock
  | QuantityMustBePositive => Some InvalidQuantity
  | SaleCompleted _ => None
  end.

(** The handler that took [st] to [st'] raised exactly the alert [a]. *)
Definition raised (a : Alert) (st st' : AppState) : Prop :=
  alerts st' = alerts st ++ [a].

(** The handler that took [st] to [st'] reported the failure [e]. *)
Definition failsWith (e : SaleError) (st st' : AppState) : Prop :=
  exists a, raised a st st' /\ errorOfAlert a = Some e.

(** No effect on the store: same catalog, same sales history. *)
Definition unchanged (st st' : AppState) : Prop :=
  medicines st' = medicines st /\ sales st' = sales st.

(** Every medicine of the catalog has a non-negative stock and price. *)
Definition medicineOk (m : Medicine.t) : Prop :=
  0 <= Medicine.quantity m /\ (0 <= Medicine.price m)%Q.

Definition catalogInvariant (st : AppState) : Prop :=
  Forall medicineOk (medicines st).

(** The sum of a list of amounts. *)
Fixpoint sumQ (l : list Q) : Q :=
  match l with
  | [] => 0%Q
  | x :: l' => (x + sumQ l')%Q
  end.

(** The number of elements of a list that satisfy a test. *)
Fixpoint countIf {A : Type} (p : A -> bool) (l : list A) : nat :=
  match l with
  | [] => O
  | x :: l' => if p x then S (countIf p l') else countIf p l'
  end.

(** The value of a stock entry, as [calculateMetrics] adds it up. *)
Definition stockValue (med : Medicine.t) : Q :=
  (Medicine.price med * inject_Z (Medicine.quantity med))%Q.

(** [t] occurs in [s] as a run of consecutive characters. *)
Definition containsString (s t : string) : Prop :=
  exists pre post, s = (pre ++ t ++ post)%string.

(** A comparison of strings that orders them consistently: turning the
    arguments round turns the sign round, and "not after" is transitive. *)
Definition consistentCompare (compare : string -> string -> Z) : Prop :=
  (forall a b, compare a b <= 0 <-> 0 <= compare b a)
  /\ (forall a b c, compare a b <= 0 -> compare b c <= 0 -> compare a c <= 0).

(** What the sort of the inventory needs from the platform: nothing for a
    field of numbers, a consistent [localeCompare] for a field of
    strings. *)
Definition fieldConsistent `{LocaleBuiltins} (f : InventoryTable.SortField) : Prop :=
  match f with
  | InventoryTable.by_price | InventoryTable.by_quantity => True
  | _ => consistentCompare localeCompare
  end.

(** A comparison function orders the elements with property [P]
    consistently. *)
Definition consistentOn {A : Type} (P : A -> Prop) (cmp : A -> A -> Q) : Prop :=
  (forall a b, P a -> P b -> (cmp a b <= 0)%Q \/ (cmp b a <= 0)%Q)
  /\ (forall a b c, P a -> P b -> P c ->
                    (cmp a b <= 0)%Q -> (cmp b c <= 0)%Q -> (cmp a c <= 0)%Q).

(** The loop shared by the two grouped charts: the values of the elements
    of [l], added up by key into the map [m]. *)
Definition accumulate {A : Type} (key : A -> string) (value : A -> Q)
    (l : list A) (m : Js.Map) : Js.Map :=
  fold_left
    (fun m x => Js.mapSet m (key x) (Js.orZero (Js.mapGet m (key x)) + value x)%Q)
    l m.

(** The elements of [l] filed under the key [k]. *)
Definition withKey {A : Type} (key : A -> string) (k : string) (l : list A) : list A :=
  filter (fun x => String.eqb (key x) k) l.

(** The day under which the sales chart files a sale. *)
Definition dayOf `{LocaleBuiltins} (sale : Sale.t) : string :=
  toLocaleDateString (Sale.dateTime sale).

(** The date [a] is valid and not after the valid date [b]. *)
Definition notAfter `{DateBuiltins} (a b : string) : Prop :=
  exists x y, Date_parse a = Some x /\ Date_parse b = Some y /\ x <= y.

(** The date is valid. *)
Definition validDate `{DateBuiltins} (a : string) : Prop :=
  exists x, Date_parse a = Some x.

(** The test of [nearExpiryProducts]. *)
Definition nearAndInStock `{DateBuiltins} (env : Env) (med : Medicine.t) : bool :=
  Utils.isNearExpiry env (Medicine.expiryDate med) Utils.defaultDaysThreshold
  && (0 <? Medicine.quantity med).

(** The value of a digit of base 36, and the number that a string of such
    digits writes. *)
Definition digitValue36 (c : ascii) : N :=
  let n := N_of_ascii c in
  if (n <? 58)%N then (n - 48)%N else (n - 87)%N.

Fixpoint decode36_from (acc : N) (s : string) : N :=
  match s with
  | EmptyString => acc
  | String c s' => decode36_from (acc * 36 + digitValue36 c)%N s'
  end.

Definition decode36 (s : string) : N := decode36_from 0%N s.

(** A character among [0-9a-z]. *)
Definition isDigit36 (c : ascii) : bool :=
  let n := N_of_ascii c in
  ((48 <=? n) && (n <=? 57) || (97 <=? n) && (n <=? 122))%N.

Fixpoint allDigits36 (s : string) : bool :=
  match s with
  | EmptyString => true
  | String c s' => isDigit36 c && allDigits36 s'
  end.

(** A sale record as the sale dialog builds it. *)
Definition saleOk (sale : Sale.t) : Prop :=
  Sale.totalAmount sale = (Sale.price sale * inject_Z (Sale.quantity sale))%Q
  /\ 0 < Sale.quantity sale.

(** An action that the page itself can perform: [handleSell] is reached
    through the sale dialog only. *)
Definition isPageAction (a : App.Action) : bool :=
  match a with
  | App.Sell _ => false
  | _ => true
  end.

(** The sum of a list of whole numbers. *)
Fixpoint sumZ (l : list Z) : Z :=
  match l with
  | [] => 0
  | x :: l' => x + sumZ l'
  end.

(** The units in stock over the whole catalog, and the units sold over the
    whole sales history. *)
Definition unitsInStock (ms : list Medicine.t) : Z := sumZ (map Medicine.quantity ms).

Definition unitsSold (ss : list Sale.t) : Z := sumZ (map Sale.quantity ss).

(** The test of [lowStockItems]. *)
Definition lowAndNotExpired `{DateBuiltins} (env : Env) (med : Medicine.t) : bool :=
  Utils.isLowStock (Medicine.quantity med)
  && negb (Utils.isExpired env (Medicine.expiryDate med)).

(** The ids of the catalog are pairwise distinct. *)
Definition uniqueIds (st : AppState) : Prop :=
  NoDup (map Medicine.id (medicines st)).

(** The data submitted for a new or edited medicine has a non-negative
    stock and price. *)
Definition medicineDataOk (d : MedicineData.t) : Prop :=
  0 <= MedicineData.quantity d /\ (0 <= MedicineData.price d)%Q.

(** What an action needs for the catalog to stay within
    [catalogInvariant]: the handlers of add and edit store the submitted
    data as it is, and a sale lowers every entry that carries the sold
    id. *)
Definition actionOk (st : AppState) (a : App.Action) : Prop :=
  match a with
  | App.AddMedicine d => medicineDataOk d
  | App.UpdateMedicine _ d => medicineDataOk d
  | App.DeleteMedicine _ => True
  | App.Sell _ => uniqueIds st
  | App.SubmitSale _ => uniqueIds st
  end.

(** A catalog edit, as opposed to a sale. *)
Definition isCatalogEdit (a : App.Action) : bool :=
  match a with
  | App.AddMedicine _ | App.UpdateMedicine _ _ | App.DeleteMedicine _ => true
  | App.Sell _ | App.SubmitSale _ => false
  end.

(** The sale data that [handleSubmit] builds from the form and the medicine
    it resolved. *)
Definition saleDataOf (formData : SaleForm.t) (m : Medicine.t) : SaleData.t :=
  {| SaleData.customerName := SaleForm.customerName formData;
     SaleData.medicineId := Medicine.id m;
     SaleData.medicineName := Medicine.name m;
     SaleData.quantity := SaleForm.quantity formData;
     SaleData.price := Medicine.price m;
     SaleData.totalAmount := (Medicine.price m * inject_Z (SaleForm.quantity formData))%Q |}.

(** [ms] is the instant [days] whole days after the clock of [env]. *)
Definition daysAhead (env : Env) (days : Z) : Z := now env + days * msPerDay.

(** ** A concrete platform and sample data *)

(** A platform that knows three dates of 1970, for running the handlers. *)
Definition sampleParse (s : string) : option Z :=
  if String.eqb s "1970-01-01" then Some 0
  else if String.eqb s "1970-04-01" then Some (90 * msPerDay)
  else if String.eqb s "1970-04-02" then Some (91 * msPerDay)
  else None.

#[local] Instance sampleDates : DateBuiltins :=
  {| Date_parse := sampleParse;
     Date_toISOString := fun _ => "1970-01-01T00:00:00.000Z"%string |}.

(** The clock at the epoch, and one second after it. *)
Definition envEpoch : Env := {| now := 0; random36 := "0.4fzyo82mvyr" |}.
Definition envLater : Env := {| now := 1000; random36 := "0.4fzyo82mvyr" |}.

(** The medicine of the scenarios: price 10.00, three units in stock. *)
Definition aspirin : Medicine.t :=
  {| Medicine.id := "m1"; Medicine.name := "Aspirin";
     Medicine.supplier := "Acme"; Medicine.price := 10;
     Medicine.quantity := 3; Medicine.expiryDate := "1970-04-01";
     Medicine.plu := "PLU1"; Medicine.category := "Pain" |}.

(** An expired medicine that is also low in stock: two units, expiry at the
    epoch. *)
Definition expiredSyrup : Medicine.t :=
  {| Medicine.id := "m2"; Medicine.name := "Syrup";
     Medicine.supplier := "Acme"; Medicine.price := 4;
     Medicine.quantity := 2; Medicine.expiryDate := "1970-01-01";
     Medicine.plu := "PLU2"; Medicine.category := "Cough" |}.

(** A medicine that is neither expired nor low in stock at the epoch. *)
Definition bandage : Medicine.t :=
  {| Medicine.id := "m3"; Medicine.name := "Bandage";
     Medicine.supplier := "Acme"; Medicine.price := 3 # 2;
     Medicine.quantity := 5; Medicine.expiryDate := "1970-04-02";
     Medicine.plu := "PLU4"; Medicine.category := "Care" |}.

(** A second entry that carries the id of the aspirin, with one unit. *)
Definition aspirinTwin : Medicine.t :=
  Medicine.withQuantity aspirin 1.

Definition twinState : AppState :=
  {| medicines := [aspirin; aspirinTwin]; sales := []; alerts := [] |}.

(** Sale data with a negative quantity, which only a caller other than the
    sale dialog could pass to [handleSell]. *)
Definition sellMinusOne : SaleData.t :=
  {| SaleData.customerName := "Ann"; SaleData.medicineId := "m1";
     SaleData.medicineName := "Aspirin"; SaleData.quantity := -1;
     SaleData.price := 10; SaleData.totalAmount := -10 |}.

Definition sampleState : AppState :=
  {| medicines := [aspirin; expiredSyrup]; sales := []; alerts := [] |}.

Definition emptyState : AppState :=
  {| medicines := []; sales := []; alerts := [] |}.

(** Sale dialogs for the aspirin: the whole stock, one unit too many, and
    no unit at all; and one that names no medicine. *)
Definition sellThree : SaleForm.t :=
  {| SaleForm.customerName := "Ann"; SaleForm.medicineId := "m1";
     SaleForm.quantity := 3 |}.

Definition sellFour : SaleForm.t :=
  {| SaleForm.customerName := "Ann"; SaleForm.medicineId := "m1";
     SaleForm.quantity := 4 |}.

Definition sellZero : SaleForm.t :=
  {| SaleForm.customerName := "Ann"; SaleForm.medicineId := "m1";
     SaleForm.quantity := 0 |}.

Definition sellNothingSelected : SaleForm.t :=
  {| SaleForm.customerName := "Ann"; SaleForm.medicineId := "";
     SaleForm.quantity := 0 |}.

(** A sale dialog for one unit of the aspirin. *)
Definition sellOne : SaleForm.t :=
  {| SaleForm.customerName := "Ann"; SaleForm.medicineId := "m1";
     SaleForm.quantity := 1 |}.

(** The clock from 36^7 up to 36^8 milliseconds, from 25 June 1972 to
    25 May 2059: the instants that [toString(36)] writes with eight
    digits. *)
Definition eightDigitClock (env : Env) : Prop := 36 ^ 7 <= now env < 36 ^ 8.

(** Sale data for one unit of the expired syrup, as [handleSubmit] would
    build it. *)
Definition sellSyrup : SaleData.t :=
  {| SaleData.customerName := "Bob"; SaleData.medicineId := "m2";
     SaleData.medicineName := "Syrup"; SaleData.quantity := 1;
     SaleData.price := 4; SaleData.totalAmount := 4 |}.

(** Medicine data with a negative stock, as the medicine dialog accepts
    it. *)
Definition negativeStock : MedicineData.t :=
  {| MedicineData.name := "Gauze"; MedicineData.supplier := "Acme";
     MedicineData.price := 2; MedicineData.quantity := -5;
     MedicineData.expiryDate := "1970-04-01"; MedicineData.plu := "PLU3";
     MedicineData.category := "Care" |}.

(** A locale for running the views: lower case of the letters A-Z,
    comparison of strings by their characters, and the day of an ISO
    timestamp as its first ten characters. *)
Definition sampleLowerChar (c : ascii) : ascii :=
  let n := N_of_ascii c in
  if ((65 <=? n) && (n <=? 90))%N then ascii_of_N (n + 32) else c.

Fixpoint sampleLower (s : string) : string :=
  match s with
  | EmptyString => EmptyString
  | String c s' => String (sampleLowerChar c) (sampleLower s')
  end.

Definition sampleCompare (a b : string) : Z :=
  match String.compare a b with
  | Lt => -1
  | Eq => 0
  | Gt => 1
  end.

#[local] Instance sampleLocale : LocaleBuiltins :=
  {| toLowerCase := sampleLower;
     localeCompare := sampleCompare;
     toLocaleDateString := fun s => substring 0 10 s |}.

(** Two sales of the first of January 1970 and one of the first of April. *)
Definition saleOn (id dateTime : string) (quantity : Z) : Sale.t :=
  {| Sale.id := id; Sale.customerName := "Ann"; Sale.medicineId := "m1";
     Sale.medicineName := "Aspirin"; Sale.quantity := quantity; Sale.price := 10;
     Sale.totalAmount := 10 * inject_Z quantity; Sale.dateTime := dateTime |}.

Definition sampleSales : list Sale.t :=
  [ saleOn "s3" "1970-04-01T09:00:00.000Z" 1;
    saleOn "s2" "1970-01-01T15:00:00.000Z" 2;
    saleOn "s1" "1970-01-01T08:00:00.000Z" 3 ].

(** The clock in November 2023, read twice in the same millisecond. *)
Definition envToday : Env := {| now := 1700000000000; random36 := "0.4fzyo82mvyr" |}.
Definition envTodayAgain : Env := {| now := 1700000000000; random36 := "0.4fzyo82mvyr" |}.

(** Case analysis on the tests of the sale handlers. *)
Ltac sale_cases :=
  repeat match goal with
    | |- context [match findMedicine ?i ?l with _ => _ end] =>
        destruct (findMedicine i l) eqn:?
    | |- context [if ?b then _ else _] => destruct b eqn:?
    end.

(** ** Domain predicates *)

Example toString36_35 : Utils.toString36 35 = "z"%string.
Proof. reflexivity. Qed.

Example toString36_36 : Utils.toString36 36 = "10"%string.
Proof. reflexivity. Qed.

Example toString36_clock : Utils.toString36 1700000000000 = "loyw3v28"%string.
Proof. vm_compute. reflexivity. Qed.

Section DomainPredicates.
Context `{DateBuiltins}.

Lemma ceilDiv_bounds (a b : Z) :
  0 < b -> (ceilDiv a b - 1) * b < a <= ceilDiv a b * b.
Proof.
  intros Hb. unfold ceilDiv.
  pose proof (Z.div_mod (- a) b ltac:(lia)) as Hdm.
  pose proof (Z.mod_pos_bound (- a) b Hb) as Hm.
  nia.
Qed.

Lemma ceilDiv_unique (a b k : Z) :
  0 < b -> (k - 1) * b < a <= k * b -> ceilDiv a b = k.
Proof.
  intros Hb Hk. pose proof (ceilDiv_bounds a b Hb) as Hc. nia.
Qed.

Lemma ceilDiv_pos_iff (a b : Z) : 0 < b -> (0 < ceilDiv a b <-> 0 < a).
Proof.
  intros Hb. pose proof (ceilDiv_bounds a b Hb). split; intros; nia.
Qed.

Lemma ceilDiv_le_iff (a b t : Z) : 0 < b -> (ceilDiv a b <= t <-> a <= t * b).
Proof.
  intros Hb. pose proof (ceilDiv_bounds a b Hb). split; intros; nia.
Qed.

Lemma ceilDiv_mul (k b : Z) : 0 < b -> ceilDiv (k * b) b = k.
Proof.
  intros Hb. apply ceilDiv_unique; lia.
Qed.

Lemma msPerDay_pos : 0 < msPerDay.
Proof. reflexivity. Qed.

Lemma isLowStock_iff (q : Z) : Utils.isLowStock q = true <-> q < 5.
Proof. unfold Utils.isLowStock. apply Z.ltb_lt. Qed.

Lemma isExpired_iff (env : Env) (d : string) :
  Utils.isExpired env d = true <-> exists ms, Date_parse d = Some ms /\ ms < now env.
Proof.
  unfold Utils.isExpired. destruct (Date_parse d) as [ms|].
  - rewrite Z.ltb_lt. split.
    + intros Hlt. exists ms. auto.
    + intros [ms' [E Hlt]]. injection E as ->. exact Hlt.
  - split; [discriminate | intros [ms [E _]]; discriminate].
Qed.

(** The window of [isNearExpiry] in milliseconds: a parsable date is near
    expiry exactly when it lies after the clock and at most [t] days after
    it. *)
Lemma isNearExpiry_window (env : Env) (d : string) (t ms : Z) :
  Date_parse d = Some ms ->
  (Utils.isNearExpiry env d t = true <-> now env < ms <= now env + t * msPerDay).
Proof.
  intros E. unfold Utils.isNearExpiry, Utils.diffDays. rewrite E. cbn zeta.
  rewrite andb_true_iff, Z.ltb_lt, Z.leb_le.
  rewrite (ceilDiv_pos_iff _ _ msPerDay_pos), (ceilDiv_le_iff _ _ _ msPerDay_pos).
  lia.
Qed.

End DomainPredicates.

Section StatusAndExpiry.
Context `{DateBuiltins}.

(** C6. [getMedicineStatus] is a strict priority order over three labels:
    it answers "Expired" whenever the expiry date is past, whatever the
    quantity (and only then); for a medicine that is not expired it answers
    "Low Stock" exactly when the quantity is below 5, and "In Stock"
    otherwise; no other label is ever returned. *)
Theorem getMedicineStatus_priority (env : Env) (m : Medicine.t) :
  let status := Utils.getMedicineStatus env m in
  let expired := Utils.isExpired env (Medicine.expiryDate m) in
  (expired = true -> status = "Expired"%string)
  /\ (expired = false ->
      (status = "Low Stock"%string <-> Medicine.quantity m < 5))
  /\ (expired = false -> 5 <= Medicine.quantity m -> status = "In Stock"%string)
  /\ (status = "Expired"%string \/ status = "Low Stock"%string
      \/ status = "In Stock"%string)
  /\ (status = "Expired"%string -> expired = true)
  /\ (Utils.isLowStock (Medicine.quantity m) = true <-> Medicine.quantity m < 5).
Proof.
  cbv zeta. unfold Utils.getMedicineStatus.
  pose proof (isLowStock_iff (Medicine.quantity m)) as Hlow.
  destruct (Utils.isExpired env (Medicine.expiryDate m)) eqn:Hexp.
  - repeat split; auto; try discriminate; try apply Hlow.
  - destruct (Utils.isLowStock (Medicine.quantity m)) eqn:Hq.
    + assert (Medicine.quantity m < 5) by (apply Hlow; reflexivity).
      repeat split; auto; try discriminate; try lia.
    + assert (~ Medicine.quantity m < 5)
        by (intros Hlt; apply Hlow in Hlt; discriminate).
      repeat split; auto; try discriminate; try lia; try apply Hlow.
Qed.

(** C7 (amended). [isNearExpiry d t] is true exactly when the day
    difference, the ceiling of (d - now) in whole days, is positive and at
    most [t]; it is false for a date in the past or exactly now, false for
    a date [t + 1] days ahead, and true for a date exactly [t] days ahead
    when [t] is at least one day. *)
Theorem isNearExpiry_characterisation (env : Env) (d : string) (t : Z) :
  (Utils.isNearExpiry env d t = true <->
   exists ms k, Date_parse d = Some ms
                /\ (k - 1) * msPerDay < ms - now env <= k * msPerDay
                /\ 0 < k <= t)
  /\ (forall ms, Date_parse d = Some ms -> ms <= now env ->
                 Utils.isNearExpiry env d t = false)
  /\ (forall ms, Date_parse d = Some ms -> ms = daysAhead env t -> 0 < t ->
                 Utils.isNearExpiry env d t = true)
  /\ (forall ms, Date_parse d = Some ms -> ms = daysAhead env (t + 1) ->
                 Utils.isNearExpiry env d t = false).
Proof.
  repeat split.
  - unfold Utils.isNearExpiry, Utils.diffDays.
    destruct (Date_parse d) as [ms|]; [| discriminate].
    cbn zeta. rewrite andb_true_iff, Z.ltb_lt, Z.leb_le. intros [Hpos Hle].
    exists ms, (ceilDiv (ms - now env) msPerDay).
    split; [reflexivity |]. split; [| lia].
    apply ceilDiv_bounds, msPerDay_pos.
  - intros [ms [k [E [Hk Hrange]]]].
    apply (isNearExpiry_window env d t ms E).
    pose proof msPerDay_pos. nia.
  - intros ms E Hpast.
    apply not_true_is_false. intros Hnear.
    apply (isNearExpiry_window env d t ms E) in Hnear. lia.
  - intros ms E -> Ht.
    apply (isNearExpiry_window env d t _ E).
    unfold daysAhead. pose proof msPerDay_pos. nia.
  - intros ms E ->.
    apply not_true_is_false. intros Hnear.
    apply (isNearExpiry_window env d t _ E) in Hnear.
    unfold daysAhead in Hnear. pose proof msPerDay_pos. nia.
Qed.

End StatusAndExpiry.

(** C6, on the samples: the expired syrup is "Expired" although it is also
    low in stock. *)
Lemma getMedicineStatus_priority_witness :
  Utils.isExpired envLater (Medicine.expiryDate expiredSyrup) = true
  /\ Utils.isLowStock (Medicine.quantity expiredSyrup) = true
  /\ Utils.getMedicineStatus envLater expiredSyrup = "Expired"%string.
Proof.
  split; [reflexivity |]. split; [reflexivity |].
  apply (proj1 (getMedicineStatus_priority envLater expiredSyrup)).
  reflexivity.
Defined.

(** C7, on the samples: with the clock at the epoch, the first of April 1970
    is exactly 90 days ahead and near expiry for the default threshold. *)
Lemma isNearExpiry_characterisation_witness :
  Date_parse "1970-04-01" = Some (daysAhead envEpoch Utils.defaultDaysThreshold)
  /\ 0 < Utils.defaultDaysThreshold
  /\ Utils.isNearExpiry envEpoch "1970-04-01" Utils.defaultDaysThreshold = true.
Proof.
  split; [reflexivity |]. split; [reflexivity |].
  apply (proj1 (proj2 (proj2
           (isNearExpiry_characterisation envEpoch "1970-04-01"
              Utils.defaultDaysThreshold)))
           (daysAhead envEpoch Utils.defaultDaysThreshold));
    reflexivity.
Defined.

(** C7 as stated fails for the threshold 0: the date exactly 0 days ahead
    is the clock itself, and it is not near expiry. *)
Lemma isNearExpiry_zero_threshold_counterexample :
  Date_parse "1970-01-01" = Some (daysAhead envEpoch 0)
  /\ Utils.isNearExpiry envEpoch "1970-01-01" 0 = false.
Proof. split; reflexivity. Qed.

(** ** Metrics *)

Section Metrics.
Context `{DateBuiltins}.

Lemma fold_left_sumQ {A : Type} (f : A -> Q) (l : list A) (a : Q) :
  (fold_left (fun sum x => sum + f x) l a == a + sumQ (map f l))%Q.
Proof.
  revert a. induction l as [| x l IH]; intros a; simpl.
  - symmetry. apply Qplus_0_r.
  - rewrite IH. symmetry. apply Qplus_assoc.
Qed.

Lemma length_filter_countIf {A : Type} (p : A -> bool) (l : list A) :
  List.length (filter p l) = countIf p l.
Proof.
  induction l as [| x l IH]; simpl; [reflexivity |].
  destruct (p x); simpl; congruence.
Qed.

Lemma countIf_disjoint {A : Type} (p q : A -> bool) (l : list A) :
  (forall x, p x = true -> q x = false) ->
  (countIf p l + countIf q l <= List.length l)%nat.
Proof.
  intros Hpq. induction l as [| x l IH]; simpl; [lia |].
  destruct (p x) eqn:Hp.
  - rewrite (Hpq x Hp). lia.
  - destruct (q x); lia.
Qed.

(** C8. [calculateMetrics] returns the sum of price x quantity over all
    medicines (none is filtered out), the sum of [totalAmount] over all
    sales, the number of medicines that are low in stock and not expired,
    and the number of expired medicines whatever their quantity; an expired
    medicine adds to [expiredItems] and never to [lowStockItems], so the two
    counts never count a medicine twice. *)
Theorem calculateMetrics_spec (env : Env) (ms : list Medicine.t) (ss : list Sale.t) :
  let metrics := Utils.calculateMetrics env ms ss in
  (DashboardMetrics.totalInventoryValue metrics ==
   sumQ (map (fun med => Medicine.price med * inject_Z (Medicine.quantity med)) ms))%Q
  /\ (DashboardMetrics.totalSales metrics == sumQ (map Sale.totalAmount ss))%Q
  /\ DashboardMetrics.lowStockItems metrics = countIf (lowAndNotExpired env) ms
  /\ DashboardMetrics.expiredItems metrics =
     countIf (fun med => Utils.isExpired env (Medicine.expiryDate med)) ms
  /\ (forall med,
        Utils.isExpired env (Medicine.expiryDate med) = true ->
        DashboardMetrics.lowStockItems (Utils.calculateMetrics env (med :: ms) ss)
        = DashboardMetrics.lowStockItems metrics
        /\ DashboardMetrics.expiredItems (Utils.calculateMetrics env (med :: ms) ss)
           = S (DashboardMetrics.expiredItems metrics))
  /\ (DashboardMetrics.lowStockItems metrics + DashboardMetrics.expiredItems metrics
      <= List.length ms)%nat.
Proof.
  cbv zeta. unfold Utils.calculateMetrics. cbn [DashboardMetrics.totalInventoryValue
    DashboardMetrics.totalSales DashboardMetrics.lowStockItems
    DashboardMetrics.expiredItems].
  split; [| split; [| split; [| split; [| split]]]].
  - rewrite (fold_left_sumQ
               (fun med => Medicine.price med * inject_Z (Medicine.quantity med))%Q).
    apply Qplus_0_l.
  - rewrite (fold_left_sumQ Sale.totalAmount). apply Qplus_0_l.
  - apply length_filter_countIf.
  - apply length_filter_countIf.
  - intros med Hexp. cbn [filter]. rewrite Hexp, andb_false_r. split; reflexivity.
  - rewrite !length_filter_countIf.
    apply (countIf_disjoint (lowAndNotExpired env)).
    intros x. unfold lowAndNotExpired. rewrite andb_true_iff, negb_true_iff. tauto.
Qed.

End Metrics.

(** C8, on the samples: the expired, low-stock syrup counts once, as
    expired. *)
Lemma calculateMetrics_spec_witness :
  Utils.isExpired envLater (Medicine.expiryDate expiredSyrup) = true
  /\ DashboardMetrics.lowStockItems (Utils.calculateMetrics envLater [expiredSyrup] []) = O
  /\ DashboardMetrics.expiredItems (Utils.calculateMetrics envLater [expiredSyrup] []) = 1%nat.
Proof.
  split; [reflexivity |].
  exact (proj1 (proj2 (proj2 (proj2 (proj2
           (calculateMetrics_spec envLater [] []))))) expiredSyrup eq_refl).
Defined.

(** ** The sale transaction *)

Section SaleTransaction.
Context `{DateBuiltins}.

Lemma findMedicine_some (id : string) (ms : list Medicine.t) (m : Medicine.t) :
  findMedicine id ms = Some m -> In m ms /\ Medicine.id m = id.
Proof.
  unfold findMedicine. intros Hf. apply find_some in Hf.
  destruct Hf as [Hin Heq]. apply String.eqb_eq in Heq. auto.
Qed.

Lemma findMedicine_own_id (id : string) (ms : list Medicine.t) (m : Medicine.t) :
  findMedicine id ms = Some m -> findMedicine (Medicine.id m) ms = Some m.
Proof.
  intros Hf. destruct (findMedicine_some _ _ _ Hf) as [_ ->]. exact Hf.
Qed.

Lemma findMedicine_decrementStock (id : string) (q : Z) (ms : list Medicine.t)
    (m : Medicine.t) :
  findMedicine id ms = Some m ->
  findMedicine id (App.decrementStock id q ms)
  = Some (Medicine.withQuantity m (Medicine.quantity m - q)).
Proof.
  unfold findMedicine, App.decrementStock.
  induction ms as [| x l IH]; simpl; [discriminate |].
  destruct (String.eqb (Medicine.id x) id) eqn:Hx; simpl.
  - rewrite Hx. intros [= ->]. reflexivity.
  - rewrite Hx. exact IH.
Qed.

Lemma decrementStock_other (id : string) (q : Z) (ms : list Medicine.t)
    (med : Medicine.t) :
  In med ms -> Medicine.id med <> id -> In med (App.decrementStock id q ms).
Proof.
  intros Hin Hne. unfold App.decrementStock. apply in_map_iff.
  exists med. split; [| exact Hin].
  destruct (String.eqb (Medicine.id med) id) eqn:E; [| reflexivity].
  apply String.eqb_eq in E. contradiction.
Qed.

Lemma decrementStock_length (id : string) (q : Z) (ms : list Medicine.t) :
  List.length (App.decrementStock id q ms) = List.length ms.
Proof. apply length_map. Qed.

(** [handleSell] commits when the medicine is found and the stock is not
    below the quantity sold. *)
Lemma handleSell_commit (env : Env) (sd : SaleData.t) (st : AppState) (m : Medicine.t) :
  findMedicine (SaleData.medicineId sd) (medicines st) = Some m ->
  SaleData.quantity sd <= Medicine.quantity m ->
  App.handleSell env sd st
  = {| medicines :=
         App.decrementStock (SaleData.medicineId sd) (SaleData.quantity sd)
           (medicines st);
       sales :=
         SaleData.withIdAndDateTime sd (Utils.generateId env)
           (Date_toISOString (now env)) :: sales st;
       alerts := alerts st ++ [SaleCompleted (SaleData.totalAmount sd)] |}.
Proof.
  intros Hf Hle. unfold App.handleSell. rewrite Hf.
  destruct (Z.ltb_spec (Medicine.quantity m) (SaleData.quantity sd)); [lia |].
  reflexivity.
Qed.

(** [handleSell] rejects, with one alert for both causes, when the medicine
    is missing or the stock is below the quantity sold. *)
Lemma handleSell_reject (env : Env) (sd : SaleData.t) (st : AppState) :
  (findMedicine (SaleData.medicineId sd) (medicines st) = None
   \/ exists m, findMedicine (SaleData.medicineId sd) (medicines st) = Some m
                /\ Medicine.quantity m < SaleData.quantity sd) ->
  App.handleSell env sd st = alert ErrorInsufficientStock st.
Proof.
  unfold App.handleSell. intros [Hf | [m [Hf Hlt]]]; rewrite Hf; [reflexivity |].
  destruct (Z.ltb_spec (Medicine.quantity m) (SaleData.quantity sd)); [| lia].
  reflexivity.
Qed.

(** The four outcomes of the sale dialog. *)
Lemma submitSale_not_found (env : Env) (f : SaleForm.t) (st : AppState) :
  findMedicine (SaleForm.medicineId f) (medicines st) = None ->
  App.submitSale env f st = alert PleaseSelectMedicine st.
Proof.
  intros Hf. unfold App.submitSale, SalesTable.handleSubmit. rewrite Hf. reflexivity.
Qed.

Lemma submitSale_insufficient (env : Env) (f : SaleForm.t) (st : AppState)
    (m : Medicine.t) :
  findMedicine (SaleForm.medicineId f) (medicines st) = Some m ->
  Medicine.quantity m < SaleForm.quantity f ->
  App.submitSale env f st
  = alert (InsufficientStockAvailable (Medicine.quantity m)) st.
Proof.
  intros Hf Hlt. unfold App.submitSale, SalesTable.handleSubmit. rewrite Hf.
  cbv zeta.
  destruct (Z.ltb_spec (Medicine.quantity m) (SaleForm.quantity f)); [| lia].
  reflexivity.
Qed.

Lemma submitSale_invalid (env : Env) (f : SaleForm.t) (st : AppState)
    (m : Medicine.t) :
  findMedicine (SaleForm.medicineId f) (medicines st) = Some m ->
  SaleForm.quantity f <= Medicine.quantity m ->
  SaleForm.quantity f <= 0 ->
  App.submitSale env f st = alert QuantityMustBePositive st.
Proof.
  intros Hf Hle Hq. unfold App.submitSale, SalesTable.handleSubmit. rewrite Hf.
  cbv zeta.
  destruct (Z.ltb_spec (Medicine.quantity m) (SaleForm.quantity f)); [lia |].
  destruct (Z.leb_spec (SaleForm.quantity f) 0); [| lia].
  reflexivity.
Qed.

Lemma submitSale_commit (env : Env) (f : SaleForm.t) (st : AppState)
    (m : Medicine.t) :
  findMedicine (SaleForm.medicineId f) (medicines st) = Some m ->
  0 < SaleForm.quantity f <= Medicine.quantity m ->
  App.submitSale env f st
  = {| medicines :=
         App.decrementStock (SaleForm.medicineId f) (SaleForm.quantity f)
           (medicines st);
       sales :=
         SaleData.withIdAndDateTime (saleDataOf f m) (Utils.generateId env)
           (Date_toISOString (now env)) :: sales st;
       alerts :=
         alerts st
         ++ [SaleCompleted (Medicine.price m * inject_Z (SaleForm.quantity f))%Q] |}.
Proof.
  intros Hf Hq. unfold App.submitSale, SalesTable.handleSubmit. rewrite Hf.
  cbv zeta.
  destruct (Z.ltb_spec (Medicine.quantity m) (SaleForm.quantity f)); [lia |].
  destruct (Z.leb_spec (SaleForm.quantity f) 0); [lia |].
  fold (saleDataOf f m).
  rewrite (handleSell_commit env (saleDataOf f m) st m).
  - cbn [saleDataOf SaleData.medicineId SaleData.quantity SaleData.totalAmount].
    destruct (findMedicine_some _ _ _ Hf) as [_ ->]. reflexivity.
  - cbn [saleDataOf SaleData.medicineId]. exact (findMedicine_own_id _ _ _ Hf).
  - cbn [saleDataOf SaleData.quantity]. lia.
Qed.

End SaleTransaction.

Section SaleClaims.
Context `{DateBuiltins}.

Lemma raised_inj (a b : Alert) (st st' : AppState) :
  raised a st st' -> raised b st st' -> a = b.
Proof.
  unfold raised. intros Ha Hb. rewrite Ha in Hb.
  apply app_inj_tail in Hb. destruct Hb as [_ Hb]. exact Hb.
Qed.

Lemma raised_alert (a : Alert) (st : AppState) : raised a st (alert a st).
Proof. reflexivity. Qed.

Lemma unchanged_alert (a : Alert) (st : AppState) : unchanged st (alert a st).
Proof. split; reflexivity. Qed.

Lemma failsWith_raised (e : SaleError) (a : Alert) (st st' : AppState) :
  raised a st st' -> (failsWith e st st' <-> errorOfAlert a = Some e).
Proof.
  intros Ha. split.
  - intros [b [Hb He]]. rewrite (raised_inj a b st st' Ha Hb). exact He.
  - intros He. exists a. auto.
Qed.

(** C1. When the medicine id of a sale request resolves to [m] and the
    requested quantity [q] satisfies 0 < q <= Q, where Q is the stock of
    [m], the sale commits: the catalog is the old one with the sold id
    lowered by [q], so that the id now resolves to [m] with quantity Q - q
    (0 when q = Q) and every other medicine is kept; exactly one record is
    put at the front of the sales history, and its [totalAmount] is
    [m.price * q]. *)
Theorem sale_commit_succeeds (env : Env) (f : SaleForm.t) (st : AppState)
    (m : Medicine.t) :
  findMedicine (SaleForm.medicineId f) (medicines st) = Some m ->
  0 < SaleForm.quantity f <= Medicine.quantity m ->
  let q := SaleForm.quantity f in
  let st' := App.submitSale env f st in
  raised (SaleCompleted (Medicine.price m * inject_Z q)%Q) st st'
  /\ findMedicine (SaleForm.medicineId f) (medicines st')
     = Some (Medicine.withQuantity m (Medicine.quantity m - q))
  /\ medicines st' = App.decrementStock (SaleForm.medicineId f) q (medicines st)
  /\ List.length (medicines st') = List.length (medicines st)
  /\ (forall med, In med (medicines st) ->
                  Medicine.id med <> SaleForm.medicineId f ->
                  In med (medicines st'))
  /\ (q = Medicine.quantity m ->
      findMedicine (SaleForm.medicineId f) (medicines st')
      = Some (Medicine.withQuantity m 0))
  /\ exists newSale,
       sales st' = newSale :: sales st
       /\ Sale.totalAmount newSale = (Medicine.price m * inject_Z q)%Q
       /\ Sale.quantity newSale = q
       /\ Sale.medicineId newSale = SaleForm.medicineId f
       /\ Sale.customerName newSale = SaleForm.customerName f.
Proof.
  intros Hf Hq. cbv zeta. rewrite (submitSale_commit env f st m Hf Hq).
  cbn [medicines sales alerts].
  pose proof (findMedicine_decrementStock _ (SaleForm.quantity f) _ _ Hf) as Hfind.
  split; [reflexivity |].
  split; [exact Hfind |].
  split; [reflexivity |].
  split; [apply decrementStock_length |].
  split; [intros med Hin Hne; apply decrementStock_other; assumption |].
  split.
  - intros Heq. rewrite Hfind. rewrite Heq, Z.sub_diag. reflexivity.
  - eexists. split; [reflexivity |].
    cbn. destruct (findMedicine_some _ _ _ Hf) as [_ Hid]. auto.
Qed.

End SaleClaims.

(** C1, on the scenario: price 10.00 and three units in stock; selling
    three leaves quantity 0. *)
Lemma sale_commit_succeeds_witness :
  findMedicine (SaleForm.medicineId sellThree) (medicines sampleState) = Some aspirin
  /\ 0 < SaleForm.quantity sellThree <= Medicine.quantity aspirin
  /\ findMedicine "m1" (medicines (App.submitSale envEpoch sellThree sampleState))
     = Some (Medicine.withQuantity aspirin 0).
Proof.
  split; [reflexivity |]. split; [vm_compute; split; [reflexivity | discriminate] |].
  apply (proj1 (proj2 (proj2 (proj2 (proj2 (proj2
           (sale_commit_succeeds envEpoch sellThree sampleState aspirin
              eq_refl (conj eq_refl (Z.le_refl 3)))))))));
    reflexivity.
Defined.

Section SaleFailures.
Context `{DateBuiltins}.

(** The alert of the sale dialog, by cases on the request. *)
Lemma submitSale_alert (env : Env) (f : SaleForm.t) (st : AppState) :
  exists a, raised a st (App.submitSale env f st)
    /\ match findMedicine (SaleForm.medicineId f) (medicines st) with
       | None => a = PleaseSelectMedicine
       | Some m =>
           if Medicine.quantity m <? SaleForm.quantity f
           then a = InsufficientStockAvailable (Medicine.quantity m)
           else if SaleForm.quantity f <=? 0 then a = QuantityMustBePositive
           else a = SaleCompleted (Medicine.price m * inject_Z (SaleForm.quantity f))%Q
       end.
Proof.
  destruct (findMedicine (SaleForm.medicineId f) (medicines st)) as [m|] eqn:Hf.
  - destruct (Z.ltb_spec (Medicine.quantity m) (SaleForm.quantity f)) as [Hlt | Hge].
    + rewrite (submitSale_insufficient env f st m Hf Hlt). eexists.
      split; [apply raised_alert | reflexivity].
    + destruct (Z.leb_spec (SaleForm.quantity f) 0) as [Hle | Hpos].
      * rewrite (submitSale_invalid env f st m Hf Hge Hle). eexists.
        split; [apply raised_alert | reflexivity].
      * rewrite (submitSale_commit env f st m Hf (conj Hpos Hge)). eexists.
        split; [reflexivity | reflexivity].
  - rewrite (submitSale_not_found env f st Hf). eexists.
    split; [apply raised_alert | reflexivity].
Qed.

(** C2. For a request whose medicine id resolves to [m] with stock Q, the
    sale fails with InsufficientStock if and only if the requested quantity
    exceeds Q, and then no sale is recorded and the catalog is unchanged;
    this holds for the sale dialog and for [handleSell] called with any
    sale data for that id. *)
Theorem insufficient_stock_iff (env : Env) (f : SaleForm.t) (st : AppState)
    (m : Medicine.t) :
  findMedicine (SaleForm.medicineId f) (medicines st) = Some m ->
  (failsWith InsufficientStock st (App.submitSale env f st)
   <-> Medicine.quantity m < SaleForm.quantity f)
  /\ (Medicine.quantity m < SaleForm.quantity f ->
      unchanged st (App.submitSale env f st)
      /\ findMedicine (SaleForm.medicineId f) (medicines (App.submitSale env f st))
         = Some m)
  /\ (forall sd : SaleData.t,
        SaleData.medicineId sd = SaleForm.medicineId f ->
        (failsWith InsufficientStock st (App.handleSell env sd st)
         <-> Medicine.quantity m < SaleData.quantity sd)
        /\ (Medicine.quantity m < SaleData.quantity sd ->
            unchanged st (App.handleSell env sd st))).
Proof.
  intros Hf. split; [| split].
  - destruct (submitSale_alert env f st) as [a [Ha Hcase]]. rewrite Hf in Hcase.
    rewrite (failsWith_raised _ a _ _ Ha).
    destruct (Z.ltb_spec (Medicine.quantity m) (SaleForm.quantity f)) as [Hlt | Hge].
    + subst a. split; [intros _; exact Hlt | reflexivity].
    + destruct (SaleForm.quantity f <=? 0); subst a;
        (split; [discriminate | lia]).
  - intros Hlt. rewrite (submitSale_insufficient env f st m Hf Hlt).
    split; [apply unchanged_alert | exact Hf].
  - intros sd Hid. rewrite <- Hid in Hf.
    destruct (Z.lt_ge_cases (Medicine.quantity m) (SaleData.quantity sd)) as [Hlt | Hge].
    + rewrite (handleSell_reject env sd st) by (right; exists m; auto).
      split; [| intros _; apply unchanged_alert].
      split; [intros _; exact Hlt |].
      intros _. exists ErrorInsufficientStock.
      split; [apply raised_alert | reflexivity].
    + split; [| lia].
      rewrite (failsWith_raised _ (SaleCompleted (SaleData.totalAmount sd))).
      * split; [discriminate | lia].
      * rewrite (handleSell_commit env sd st m Hf Hge). reflexivity.
Qed.

(** C3 (amended). A sale request with a quantity that is zero or negative
    always fails, with no sale recorded and the catalog unchanged.  The
    failure is InvalidQuantity when the medicine id resolves to a medicine
    whose stock is not below the requested quantity, which is every
    resolved medicine with a non-negative stock; when the id does not
    resolve, the failure is NotFound. *)
Theorem non_positive_quantity_rejected (env : Env) (f : SaleForm.t) (st : AppState) :
  SaleForm.quantity f <= 0 ->
  let st' := App.submitSale env f st in
  unchanged st st'
  /\ (exists e, failsWith e st st')
  /\ (forall m, findMedicine (SaleForm.medicineId f) (medicines st) = Some m ->
                SaleForm.quantity f <= Medicine.quantity m ->
                failsWith InvalidQuantity st st')
  /\ (forall m, findMedicine (SaleForm.medicineId f) (medicines st) = Some m ->
                0 <= Medicine.quantity m ->
                failsWith InvalidQuantity st st')
  /\ (findMedicine (SaleForm.medicineId f) (medicines st) = None ->
      failsWith NotFound st st').
Proof.
  intros Hq. cbv zeta.
  assert (Hinv : forall m,
             findMedicine (SaleForm.medicineId f) (medicines st) = Some m ->
             SaleForm.quantity f <= Medicine.quantity m ->
             failsWith InvalidQuantity st (App.submitSale env f st)).
  { intros m Hf Hle. rewrite (submitSale_invalid env f st m Hf Hle Hq).
    exists QuantityMustBePositive. split; [apply raised_alert | reflexivity]. }
  assert (Hnf : findMedicine (SaleForm.medicineId f) (medicines st) = None ->
                failsWith NotFound st (App.submitSale env f st)).
  { intros Hf. rewrite (submitSale_not_found env f st Hf).
    exists PleaseSelectMedicine. split; [apply raised_alert | reflexivity]. }
  split; [| split; [| split; [exact Hinv | split; [| exact Hnf]]]].
  - destruct (findMedicine (SaleForm.medicineId f) (medicines st)) as [m|] eqn:Hf.
    + destruct (Z.lt_ge_cases (Medicine.quantity m) (SaleForm.quantity f)) as [Hlt | Hge].
      * rewrite (submitSale_insufficient env f st m Hf Hlt). apply unchanged_alert.
      * rewrite (submitSale_invalid env f st m Hf Hge Hq). apply unchanged_alert.
    + rewrite (submitSale_not_found env f st Hf). apply unchanged_alert.
  - destruct (findMedicine (SaleForm.medicineId f) (medicines st)) as [m|] eqn:Hf.
    + destruct (Z.lt_ge_cases (Medicine.quantity m) (SaleForm.quantity f)) as [Hlt | Hge].
      * exists InsufficientStock.
        rewrite (submitSale_insufficient env f st m Hf Hlt).
        eexists. split; [apply raised_alert | reflexivity].
      * exists InvalidQuantity. apply (Hinv m eq_refl Hge).
    + exists NotFound. apply Hnf. reflexivity.
  - intros m Hf Hm. apply (Hinv m Hf). lia.
Qed.

(** C4. A sale request whose medicine id does not resolve fails with
    NotFound, a failure that is neither InsufficientStock nor
    InvalidQuantity, and the catalog and the sales history are unchanged;
    [handleSell] called with sale data for such an id leaves them unchanged
    as well. *)
Theorem unknown_medicine_not_found (env : Env) (f : SaleForm.t) (st : AppState) :
  findMedicine (SaleForm.medicineId f) (medicines st) = None ->
  let st' := App.submitSale env f st in
  failsWith NotFound st st'
  /\ ~ failsWith InsufficientStock st st'
  /\ ~ failsWith InvalidQuantity st st'
  /\ unchanged st st'
  /\ (forall sd : SaleData.t,
        SaleData.medicineId sd = SaleForm.medicineId f ->
        unchanged st (App.handleSell env sd st)).
Proof.
  intros Hf. cbv zeta. rewrite (submitSale_not_found env f st Hf).
  pose proof (raised_alert PleaseSelectMedicine st) as Ha.
  rewrite !(failsWith_raised _ _ _ _ Ha).
  split; [reflexivity |]. split; [discriminate |]. split; [discriminate |].
  split; [apply unchanged_alert |].
  intros sd Hid. rewrite <- Hid in Hf.
  rewrite (handleSell_reject env sd st) by (left; exact Hf).
  apply unchanged_alert.
Qed.

End SaleFailures.

(** C2, on the scenario: three units in stock, four requested. *)
Lemma insufficient_stock_iff_witness :
  findMedicine (SaleForm.medicineId sellFour) (medicines sampleState) = Some aspirin
  /\ failsWith InsufficientStock sampleState
       (App.submitSale envEpoch sellFour sampleState)
  /\ unchanged sampleState (App.submitSale envEpoch sellFour sampleState)
  /\ findMedicine "m1" (medicines (App.submitSale envEpoch sellFour sampleState))
     = Some aspirin.
Proof.
  pose (thm := insufficient_stock_iff envEpoch sellFour sampleState aspirin eq_refl).
  split; [reflexivity |].
  split; [apply (proj1 thm); reflexivity |].
  split; [apply (proj1 (proj2 thm)); reflexivity |].
  apply (proj1 (proj2 thm)); reflexivity.
Defined.

(** C3, on the scenario: no unit of the aspirin requested. *)
Lemma non_positive_quantity_rejected_witness :
  SaleForm.quantity sellZero <= 0
  /\ unchanged sampleState (App.submitSale envEpoch sellZero sampleState)
  /\ failsWith InvalidQuantity sampleState
       (App.submitSale envEpoch sellZero sampleState).
Proof.
  assert (Hq : SaleForm.quantity sellZero <= 0) by (vm_compute; discriminate).
  pose (thm := non_positive_quantity_rejected envEpoch sellZero sampleState Hq).
  split; [exact Hq |].
  split; [exact (proj1 thm) |].
  apply (proj1 (proj2 (proj2 thm)) aspirin); [reflexivity |].
  vm_compute; discriminate.
Defined.

(** C3 as stated fails when no medicine is selected: the request has
    quantity 0, and the failure is NotFound, not InvalidQuantity. *)
Lemma non_positive_quantity_counterexample :
  SaleForm.quantity sellNothingSelected <= 0
  /\ failsWith NotFound sampleState
       (App.submitSale envEpoch sellNothingSelected sampleState)
  /\ ~ failsWith InvalidQuantity sampleState
         (App.submitSale envEpoch sellNothingSelected sampleState).
Proof.
  assert (Ha : raised PleaseSelectMedicine sampleState
                 (App.submitSale envEpoch sellNothingSelected sampleState))
    by reflexivity.
  split; [vm_compute; discriminate |].
  rewrite !(failsWith_raised _ _ _ _ Ha).
  split; [reflexivity | discriminate].
Qed.

(** C4, on the samples: a request that names no medicine. *)
Lemma unknown_medicine_not_found_witness :
  findMedicine (SaleForm.medicineId sellNothingSelected) (medicines sampleState) = None
  /\ failsWith NotFound sampleState
       (App.submitSale envEpoch sellNothingSelected sampleState)
  /\ unchanged sampleState
       (App.submitSale envEpoch sellNothingSelected sampleState).
Proof.
  pose (thm := unknown_medicine_not_found envEpoch sellNothingSelected sampleState
                 eq_refl).
  split; [reflexivity |].
  split; [exact (proj1 thm) |].
  exact (proj1 (proj2 (proj2 (proj2 thm)))).
Defined.

(** ** The sale record and the history *)

Section SaleRecord.
Context `{DateBuiltins}.

(** The sales history only grows at its front. *)
Lemma sales_step (env : Env) (a : App.Action) (st : AppState) :
  exists newer, sales (App.step env a st) = newer ++ sales st.
Proof.
  destruct a; cbn [App.step];
    unfold App.submitSale, SalesTable.handleSubmit, App.handleSell;
    try (exists []; reflexivity);
    sale_cases;
    first [ exists []; reflexivity | eexists [_]; reflexivity ].
Qed.

Lemma sales_run (turns : list (Env * App.Action)) (st : AppState) :
  exists newer, sales (App.run turns st) = newer ++ sales st.
Proof.
  revert st. induction turns as [| [env a] turns IH]; intros st; cbn [App.run].
  - exists []. reflexivity.
  - destruct (IH (App.step env a st)) as [l2 E2].
    destruct (sales_step env a st) as [l1 E1].
    exists (l2 ++ l1). rewrite E2, E1. apply app_assoc.
Qed.

(** A catalog edit does not touch the sales history. *)
Lemma sales_catalog_edit (env : Env) (a : App.Action) (st : AppState) :
  isCatalogEdit a = true -> sales (App.step env a st) = sales st.
Proof. destruct a; intros E; try discriminate E; reflexivity. Qed.

Lemma sales_catalog_edits (turns : list (Env * App.Action)) (st : AppState) :
  Forall (fun t => isCatalogEdit (snd t) = true) turns ->
  sales (App.run turns st) = sales st.
Proof.
  intros Hall. revert st.
  induction Hall as [| [env a] turns Ha _ IH]; intros st; cbn [App.run].
  - reflexivity.
  - rewrite IH. apply sales_catalog_edit. exact Ha.
Qed.

(** The record of a successful sale: it is put at the front of the history
    and carries the name, the price and the id of the medicine resolved in
    the catalog of that instant, a positive quantity, [totalAmount] equal to
    its price times its quantity, the id drawn from [generateId] and the
    current time as [dateTime]; whatever catalog edits follow leave the
    history as it is, and whatever actions follow keep the record in it. *)
Lemma sale_record_snapshot (env : Env) (f : SaleForm.t) (st : AppState) (total : Q) :
  raised (SaleCompleted total) st (App.submitSale env f st) ->
  let st' := App.submitSale env f st in
  exists m newSale,
    findMedicine (SaleForm.medicineId f) (medicines st) = Some m
    /\ sales st' = newSale :: sales st
    /\ Sale.medicineName newSale = Medicine.name m
    /\ Sale.price newSale = Medicine.price m
    /\ Sale.medicineId newSale = Medicine.id m
    /\ Sale.quantity newSale = SaleForm.quantity f
    /\ 0 < Sale.quantity newSale
    /\ Sale.totalAmount newSale
       = (Sale.price newSale * inject_Z (Sale.quantity newSale))%Q
    /\ total = Sale.totalAmount newSale
    /\ Sale.id newSale = Utils.generateId env
    /\ Sale.dateTime newSale = Date_toISOString (now env)
    /\ (forall turns,
          Forall (fun t => isCatalogEdit (snd t) = true) turns ->
          sales (App.run turns st') = newSale :: sales st)
    /\ (forall turns, exists newer,
          sales (App.run turns st') = newer ++ newSale :: sales st).
Proof.
  intros Hraised. cbv zeta.
  destruct (submitSale_alert env f st) as [a [Ha Hcase]].
  pose proof (raised_inj _ _ _ _ Hraised Ha) as <-.
  destruct (findMedicine (SaleForm.medicineId f) (medicines st)) as [m|] eqn:Hf;
    [| discriminate Hcase].
  destruct (Z.ltb_spec (Medicine.quantity m) (SaleForm.quantity f)) as [Hlt | Hge];
    [discriminate Hcase |].
  destruct (Z.leb_spec (SaleForm.quantity f) 0) as [Hle | Hpos];
    [discriminate Hcase |].
  injection Hcase as ->.
  assert (Hsales : sales (App.submitSale env f st)
                   = SaleData.withIdAndDateTime (saleDataOf f m) (Utils.generateId env)
                       (Date_toISOString (now env)) :: sales st).
  { rewrite (submitSale_commit env f st m Hf (conj Hpos Hge)). reflexivity. }
  exists m. eexists. split; [reflexivity |].
  split; [exact Hsales |].
  cbn [SaleData.withIdAndDateTime saleDataOf Sale.medicineName Sale.price
       Sale.medicineId Sale.quantity Sale.totalAmount Sale.id Sale.dateTime
       SaleData.customerName SaleData.medicineId SaleData.medicineName
       SaleData.quantity SaleData.price SaleData.totalAmount].
  repeat (split; [first [reflexivity | exact Hpos] |]).
  split.
  - intros turns Hall. rewrite (sales_catalog_edits turns _ Hall). exact Hsales.
  - intros turns. destruct (sales_run turns (App.submitSale env f st)) as [newer E].
    exists newer. rewrite E, Hsales. reflexivity.
Qed.

End SaleRecord.

(** ** The catalog invariant *)

Section CatalogInvariant.
Context `{DateBuiltins}.

(** With pairwise distinct ids, the medicine that an id resolves to is the
    only entry that carries this id. *)
Lemma findMedicine_unique (id : string) (ms : list Medicine.t) (m med : Medicine.t) :
  NoDup (map Medicine.id ms) ->
  findMedicine id ms = Some m ->
  In med ms -> Medicine.id med = id -> med = m.
Proof.
  unfold findMedicine.
  induction ms as [| x l IH]; simpl; intros Hnd Hf Hin Hid; [contradiction |].
  inversion Hnd as [| ? ? Hnotin Hnd']; subst.
  destruct (String.eqb (Medicine.id x) (Medicine.id med)) eqn:Hx.
  - injection Hf as <-. destruct Hin as [-> | Hin]; [reflexivity |].
    apply String.eqb_eq in Hx. exfalso. apply Hnotin. rewrite Hx.
    apply in_map. exact Hin.
  - destruct Hin as [-> | Hin].
    + rewrite String.eqb_refl in Hx. discriminate.
    + apply IH; auto.
Qed.

Lemma medicineOk_withQuantity (m : Medicine.t) (q : Z) :
  medicineOk m -> 0 <= q -> medicineOk (Medicine.withQuantity m q).
Proof. intros [_ Hp] Hq. split; [exact Hq | exact Hp]. Qed.

Lemma decrementStock_ok (id : string) (q : Z) (ms : list Medicine.t) (m : Medicine.t) :
  NoDup (map Medicine.id ms) ->
  findMedicine id ms = Some m ->
  q <= Medicine.quantity m ->
  Forall medicineOk ms ->
  Forall medicineOk (App.decrementStock id q ms).
Proof.
  intros Hnd Hf Hq Hall. rewrite Forall_forall in *.
  intros y Hy. unfold App.decrementStock in Hy. apply in_map_iff in Hy.
  destruct Hy as [x [<- Hx]].
  destruct (String.eqb (Medicine.id x) id) eqn:E; [| auto].
  apply String.eqb_eq in E.
  rewrite (findMedicine_unique id ms m x Hnd Hf Hx E).
  apply medicineOk_withQuantity; [| lia].
  apply Hall. apply (findMedicine_some _ _ _ Hf).
Qed.

Lemma handleSell_invariant (env : Env) (sd : SaleData.t) (st : AppState) :
  catalogInvariant st -> uniqueIds st ->
  catalogInvariant (App.handleSell env sd st).
Proof.
  intros Hinv Hu. unfold catalogInvariant, App.handleSell.
  destruct (findMedicine (SaleData.medicineId sd) (medicines st)) as [m|] eqn:Hf;
    [| exact Hinv].
  destruct (Z.ltb_spec (Medicine.quantity m) (SaleData.quantity sd)); [exact Hinv |].
  cbn [medicines alert setMedicines setSales].
  apply (decrementStock_ok _ _ _ m); auto.
Qed.

(** The medicine dialog adds when no medicine is under edit and updates the
    edited one otherwise. *)
Lemma submitMedicine_step (env : Env) (editing : option Medicine.t)
    (d : MedicineData.t) (st : AppState) :
  App.submitMedicine env editing d st
  = App.step env
      (match editing with
       | Some m => App.UpdateMedicine (Medicine.id m) d
       | None => App.AddMedicine d
       end) st.
Proof. destruct editing; reflexivity. Qed.

(** C9 (amended). Starting from a catalog in which every medicine has a
    non-negative quantity and price: deleting a medicine keeps it so;
    adding or editing a medicine keeps it so when the submitted data has a
    non-negative quantity and price, which the handlers store without a
    check; committing a sale keeps it so when the ids of the catalog are
    pairwise distinct. *)
Theorem catalog_invariant_preserved (env : Env) (a : App.Action) (st : AppState) :
  catalogInvariant st ->
  actionOk st a ->
  catalogInvariant (App.step env a st).
Proof.
  intros Hinv Hok. destruct a as [d | id d | id | sd | f]; cbn [App.step actionOk] in *.
  - unfold catalogInvariant, App.handleAddMedicine. cbn [medicines setMedicines].
    apply Forall_app. split; [exact Hinv |].
    constructor; [exact Hok | constructor].
  - unfold catalogInvariant, App.handleUpdateMedicine. cbn [medicines setMedicines].
    unfold catalogInvariant in Hinv. rewrite Forall_forall in *.
    intros y Hy. apply in_map_iff in Hy. destruct Hy as [x [<- Hx]].
    destruct (String.eqb (Medicine.id x) id); [exact Hok | auto].
  - unfold catalogInvariant, App.handleDeleteMedicine. cbn [medicines setMedicines].
    unfold catalogInvariant in Hinv. rewrite Forall_forall in *.
    intros y Hy. apply filter_In in Hy. apply Hinv. apply Hy.
  - apply handleSell_invariant; assumption.
  - unfold App.submitSale, SalesTable.handleSubmit.
    destruct (findMedicine (SaleForm.medicineId f) (medicines st)) as [m|];
      [| exact Hinv].
    cbv zeta.
    destruct (Medicine.quantity m <? SaleForm.quantity f); [exact Hinv |].
    destruct (SaleForm.quantity f <=? 0); [exact Hinv |].
    apply handleSell_invariant; assumption.
Qed.

(** The ids stay pairwise distinct along the way, as long as the id drawn
    for a new medicine is not yet in the catalog. *)
Lemma decrementStock_ids (id : string) (q : Z) (ms : list Medicine.t) :
  map Medicine.id (App.decrementStock id q ms) = map Medicine.id ms.
Proof.
  unfold App.decrementStock. rewrite map_map. apply map_ext.
  intros x. destruct (String.eqb (Medicine.id x) id); reflexivity.
Qed.

Lemma NoDup_map_filter {A B : Type} (g : A -> B) (p : A -> bool) (l : list A) :
  NoDup (map g l) -> NoDup (map g (filter p l)).
Proof.
  induction l as [| x l IH]; simpl; intros Hnd; [constructor |].
  inversion Hnd as [| ? ? Hnotin Hnd']; subst.
  destruct (p x); simpl; [| auto].
  constructor; [| auto].
  intros Hin. apply Hnotin. apply in_map_iff in Hin.
  destruct Hin as [y [Hy Hin]]. apply filter_In in Hin.
  rewrite <- Hy. apply in_map. apply Hin.
Qed.

(** X25. Editing, deleting and selling keep the ids of the catalog pairwise
    distinct; adding keeps them so when the id drawn by [generateId] is not
    yet in the catalog. *)
Lemma uniqueIds_step (env : Env) (a : App.Action) (st : AppState) :
  uniqueIds st ->
  (forall d, a = App.AddMedicine d ->
             ~ In (Utils.generateId env) (map Medicine.id (medicines st))) ->
  uniqueIds (App.step env a st).
Proof.
  unfold uniqueIds. intros Hu Hfresh.
  destruct a as [d | id d | id | sd | f]; cbn [App.step].
  - unfold App.handleAddMedicine. cbn [medicines setMedicines].
    rewrite map_app. cbn [map MedicineData.withId Medicine.id].
    apply NoDup_app; [exact Hu | constructor; [intros [] | constructor] |].
    intros x Hin [<- | []]. exact (Hfresh d eq_refl Hin).
  - unfold App.handleUpdateMedicine. cbn [medicines setMedicines].
    rewrite map_map.
    rewrite (map_ext _ Medicine.id); [exact Hu |].
    intros x. destruct (String.eqb (Medicine.id x) id) eqn:E; [| reflexivity].
    apply String.eqb_eq in E. symmetry. exact E.
  - unfold App.handleDeleteMedicine. cbn [medicines setMedicines].
    apply NoDup_map_filter. exact Hu.
  - unfold App.handleSell. sale_cases; cbn [medicines alert setMedicines setSales];
      try exact Hu.
    rewrite decrementStock_ids. exact Hu.
  - unfold App.submitSale, SalesTable.handleSubmit, App.handleSell.
    sale_cases; cbn [medicines alert setMedicines setSales SaleData.medicineId];
      try exact Hu.
    rewrite decrementStock_ids. exact Hu.
Qed.

End CatalogInvariant.

(** C9, on the samples: selling the whole stock of aspirin keeps the
    invariant. *)
Lemma catalog_invariant_preserved_witness :
  catalogInvariant sampleState
  /\ actionOk sampleState (App.SubmitSale sellThree)
  /\ catalogInvariant (App.step envEpoch (App.SubmitSale sellThree) sampleState).
Proof.
  assert (Hinv : catalogInvariant sampleState).
  { repeat constructor; vm_compute; discriminate. }
  assert (Hok : actionOk sampleState (App.SubmitSale sellThree)).
  { repeat constructor; simpl; intuition discriminate. }
  split; [exact Hinv |]. split; [exact Hok |].
  exact (catalog_invariant_preserved envEpoch (App.SubmitSale sellThree) sampleState
           Hinv Hok).
Defined.

(** C9 as stated fails for adding a medicine: the handler stores a negative
    stock as it is submitted. *)
Lemma add_negative_stock_counterexample :
  catalogInvariant emptyState
  /\ ~ catalogInvariant (App.step envEpoch (App.AddMedicine negativeStock) emptyState).
Proof.
  split; [constructor |].
  intros Hinv. inversion Hinv as [| x l [Hq _] _]; subst.
  vm_compute in Hq. apply Hq. reflexivity.
Qed.

(** ** Expired medicines and the sale path *)

Lemma availableMedicines_not_expired (D : DateBuiltins) (env : Env)
    (ms : list Medicine.t) (m : Medicine.t) :
  In m (SalesTable.availableMedicines env ms) <->
  In m ms /\ Utils.isExpired env (Medicine.expiryDate m) = false
  /\ 0 < Medicine.quantity m.
Proof.
  unfold SalesTable.availableMedicines.
  rewrite filter_In, andb_true_iff, negb_true_iff, Z.ltb_lt. tauto.
Qed.

(** [handleSell] reads no expiry date: it gives the same state on every
    platform that prints the time of the sale alike, however the platform
    reads dates. *)
Lemma handleSell_parse_independent (D D' : DateBuiltins) (env : Env)
    (sd : SaleData.t) (st : AppState) :
  (forall t, @Date_toISOString D' t = @Date_toISOString D t) ->
  @App.handleSell D' env sd st = @App.handleSell D env sd st.
Proof.
  intros Hiso. unfold App.handleSell. rewrite Hiso. reflexivity.
Qed.

(** C10. The sale path has no expiry check: for sale data that refer to an
    expired medicine [m] with 0 < q <= Q, [handleSell] commits the sale, and
    so does the sale dialog, with the record, the stock and the alert of any
    other sale; the state it gives does not depend on how the platform reads
    expiry dates; the only place that leaves [m] out is the selection list
    [availableMedicines] of the dialog. *)
Theorem handleSell_ignores_expiry (D : DateBuiltins) (env : Env) (sd : SaleData.t)
    (st : AppState) (m : Medicine.t) :
  findMedicine (SaleData.medicineId sd) (medicines st) = Some m ->
  Utils.isExpired env (Medicine.expiryDate m) = true ->
  0 < SaleData.quantity sd <= Medicine.quantity m ->
  let st' := App.handleSell env sd st in
  raised (SaleCompleted (SaleData.totalAmount sd)) st st'
  /\ sales st'
     = SaleData.withIdAndDateTime sd (Utils.generateId env)
         (Date_toISOString (now env)) :: sales st
  /\ medicines st'
     = App.decrementStock (SaleData.medicineId sd) (SaleData.quantity sd) (medicines st)
  /\ findMedicine (SaleData.medicineId sd) (medicines st')
     = Some (Medicine.withQuantity m (Medicine.quantity m - SaleData.quantity sd))
  /\ (forall D' : DateBuiltins,
        (forall t, @Date_toISOString D' t = @Date_toISOString D t) ->
        @App.handleSell D' env sd st = st')
  /\ (forall f : SaleForm.t,
        SaleForm.medicineId f = SaleData.medicineId sd ->
        SaleForm.quantity f = SaleData.quantity sd ->
        App.submitSale env f st = App.handleSell env (saleDataOf f m) st
        /\ raised (SaleCompleted (Medicine.price m * inject_Z (SaleData.quantity sd))%Q)
             st (App.submitSale env f st))
  /\ In m (medicines st)
  /\ ~ In m (SalesTable.availableMedicines env (medicines st)).
Proof.
  intros Hf Hexp Hq. cbv zeta.
  rewrite (handleSell_commit env sd st m Hf (proj2 Hq)). cbn [medicines sales alerts].
  split; [reflexivity |]. split; [reflexivity |]. split; [reflexivity |].
  split; [apply findMedicine_decrementStock; exact Hf |].
  split.
  - intros D' Hiso. rewrite (handleSell_parse_independent D D' env sd st Hiso).
    apply (handleSell_commit env sd st m Hf (proj2 Hq)).
  - split.
    + intros f Hid Hqf. rewrite <- Hid in Hf. rewrite <- Hqf in Hq |- *.
      rewrite (submitSale_commit env f st m Hf Hq).
      split; [| reflexivity].
      rewrite (handleSell_commit env (saleDataOf f m) st m).
      * cbn [saleDataOf SaleData.medicineId SaleData.quantity SaleData.totalAmount].
        destruct (findMedicine_some _ _ _ Hf) as [_ ->]. reflexivity.
      * exact (findMedicine_own_id _ _ _ Hf).
      * cbn [saleDataOf SaleData.quantity]. lia.
    + split; [apply (findMedicine_some _ _ _ Hf) |].
      rewrite availableMedicines_not_expired. rewrite Hexp.
      intros [_ [Hno _]]. discriminate Hno.
Qed.

(** C10, on the samples: one unit of the expired syrup is sold. *)
Lemma handleSell_ignores_expiry_witness :
  findMedicine (SaleData.medicineId sellSyrup) (medicines sampleState) = Some expiredSyrup
  /\ Utils.isExpired envLater (Medicine.expiryDate expiredSyrup) = true
  /\ 0 < SaleData.quantity sellSyrup <= Medicine.quantity expiredSyrup
  /\ raised (SaleCompleted 4) sampleState (App.handleSell envLater sellSyrup sampleState)
  /\ ~ In expiredSyrup (SalesTable.availableMedicines envLater (medicines sampleState)).
Proof.
  assert (Hq : 0 < SaleData.quantity sellSyrup <= Medicine.quantity expiredSyrup)
    by (vm_compute; split; [reflexivity | discriminate]).
  pose (thm := handleSell_ignores_expiry sampleDates envLater sellSyrup sampleState
                 expiredSyrup eq_refl eq_refl Hq).
  split; [reflexivity |]. split; [reflexivity |]. split; [exact Hq |].
  split; [exact (proj1 thm) |].
  exact (proj2 (proj2 (proj2 (proj2 (proj2 (proj2 (proj2 thm))))))).
Defined.

(** ** The scenarios, run on the samples *)

Example scenario_sell_three :
  App.submitSale envEpoch sellThree sampleState
  = {| medicines := [Medicine.withQuantity aspirin 0; expiredSyrup];
       sales := [ {| Sale.id := "04fzyo82mvyr"; Sale.customerName := "Ann";
                     Sale.medicineId := "m1"; Sale.medicineName := "Aspirin";
                     Sale.quantity := 3; Sale.price := 10; Sale.totalAmount := 30;
                     Sale.dateTime := "1970-01-01T00:00:00.000Z" |} ];
       alerts := [SaleCompleted 30] |}.
Proof. reflexivity. Qed.

Example scenario_sell_four :
  App.submitSale envEpoch sellFour sampleState
  = alert (InsufficientStockAvailable 3) sampleState.
Proof. reflexivity. Qed.

Example scenario_sell_zero :
  App.submitSale envEpoch sellZero sampleState = alert QuantityMustBePositive sampleState.
Proof. reflexivity. Qed.

Example scenario_statuses :
  Utils.getMedicineStatus envLater expiredSyrup = "Expired"%string
  /\ Utils.getMedicineStatus envLater aspirin = "Low Stock"%string
  /\ Utils.getMedicineStatus envLater bandage = "In Stock"%string.
Proof. repeat split. Qed.

Example scenario_near_expiry :
  Utils.isNearExpiry envEpoch "1970-04-01" 90 = true
  /\ Utils.isNearExpiry envEpoch "1970-04-02" 90 = false
  /\ Utils.isNearExpiry envLater "1970-01-01" 90 = false.
Proof. repeat split. Qed.

Example scenario_metrics :
  Utils.calculateMetrics envLater [aspirin; expiredSyrup; bandage] []
  = {| DashboardMetrics.totalInventoryValue := 0 + 10 * 3 + 4 * 2 + (3 # 2) * 5;
       DashboardMetrics.totalSales := 0;
       DashboardMetrics.lowStockItems := 1;
       DashboardMetrics.expiredItems := 1 |}.
Proof. reflexivity. Qed.

(** [handleSell] has no test of its own on the sign of the quantity: called
    with a negative one it commits and raises the stock.  The sale dialog
    never calls it so. *)
Example handleSell_negative_quantity :
  App.handleSell envEpoch sellMinusOne sampleState
  = {| medicines := [Medicine.withQuantity aspirin 4; expiredSyrup];
       sales := [SaleData.withIdAndDateTime sellMinusOne "04fzyo82mvyr"
                   "1970-01-01T00:00:00.000Z"];
       alerts := [SaleCompleted (-10)] |}.
Proof. reflexivity. Qed.

(** A sale lowers every entry that carries the sold id: with two entries
    under one id, the second one falls below zero. *)
Example sale_with_duplicate_ids :
  catalogInvariant twinState
  /\ ~ uniqueIds twinState
  /\ medicines (App.submitSale envEpoch sellThree twinState)
     = [Medicine.withQuantity aspirin 0; Medicine.withQuantity aspirin (-2)].
Proof.
  split; [repeat constructor; vm_compute; discriminate |].
  split; [| reflexivity].
  intros Hnd. inversion Hnd as [| ? ? Hnotin _]; subst.
  apply Hnotin. left. reflexivity.
Qed.

(** The medicine dialog stores a negative stock as it is typed, for a new
    medicine and for an edited one. *)
Example medicine_dialog_negative_stock :
  map Medicine.quantity
    (medicines (App.submitMedicine envEpoch None negativeStock sampleState))
  = [3; 2; -5]
  /\ map Medicine.quantity
       (medicines (App.submitMedicine envEpoch (Some aspirin) negativeStock sampleState))
     = [-5; 2].
Proof. split; reflexivity. Qed.

(** ** The catalog handlers *)

Section CatalogHandlers.

Lemma findMedicine_app (id : string) (l1 l2 : list Medicine.t) :
  findMedicine id (l1 ++ l2)
  = match findMedicine id l1 with
    | Some m => Some m
    | None => findMedicine id l2
    end.
Proof.
  unfold findMedicine. induction l1 as [| x l IH]; simpl; [reflexivity |].
  destruct (String.eqb (Medicine.id x) id); [reflexivity | exact IH].
Qed.

Lemma findMedicine_none (id : string) (ms : list Medicine.t) :
  findMedicine id ms = None <-> forall med, In med ms -> Medicine.id med <> id.
Proof.
  unfold findMedicine. split.
  - intros Hf med Hin Hid.
    pose proof (find_none _ _ Hf med Hin) as Hno. cbv beta in Hno.
    rewrite Hid, String.eqb_refl in Hno. discriminate.
  - intros Hall. induction ms as [| x l IH]; simpl; [reflexivity |].
    destruct (String.eqb (Medicine.id x) id) eqn:E.
    + apply String.eqb_eq in E. exfalso. apply (Hall x); [left; reflexivity | exact E].
    + apply IH. intros med Hin. apply Hall. right. exact Hin.
Qed.

Lemma filter_keeps_all {A : Type} (p : A -> bool) (l : list A) :
  (forall x, In x l -> p x = true) -> filter p l = l.
Proof.
  induction l as [| x l IH]; simpl; intros Hall; [reflexivity |].
  rewrite (Hall x (or_introl eq_refl)). f_equal. apply IH.
  intros y Hy. apply Hall. right. exact Hy.
Qed.

Lemma appState_eta (st : AppState) :
  {| medicines := medicines st; sales := sales st; alerts := alerts st |} = st.
Proof. destruct st; reflexivity. Qed.

Lemma findMedicine_filter_other (id id' : string) (ms : list Medicine.t) :
  id' <> id ->
  findMedicine id' (filter (fun med => negb (String.eqb (Medicine.id med) id)) ms)
  = findMedicine id' ms.
Proof.
  intros Hne. unfold findMedicine.
  induction ms as [| x l IH]; simpl; [reflexivity |].
  destruct (String.eqb (Medicine.id x) id) eqn:E; simpl.
  - apply String.eqb_eq in E.
    assert (String.eqb (Medicine.id x) id' = false) as ->
        by (apply String.eqb_neq; congruence).
    exact IH.
  - destruct (String.eqb (Medicine.id x) id'); [reflexivity | exact IH].
Qed.

(** The catalog after [handleUpdateMedicine id d]. *)
Lemma findMedicine_update_same (id : string) (d : MedicineData.t)
    (ms : list Medicine.t) (m : Medicine.t) :
  findMedicine id ms = Some m ->
  findMedicine id
    (map (fun med => if String.eqb (Medicine.id med) id
                     then MedicineData.withId d id else med) ms)
  = Some (MedicineData.withId d id).
Proof.
  unfold findMedicine. induction ms as [| x l IH]; simpl; [discriminate |].
  destruct (String.eqb (Medicine.id x) id) eqn:E.
  - intros _. cbn [MedicineData.withId Medicine.id]. rewrite String.eqb_refl.
    reflexivity.
  - rewrite E. exact IH.
Qed.

Lemma findMedicine_update_other (id id' : string) (d : MedicineData.t)
    (ms : list Medicine.t) :
  id' <> id ->
  findMedicine id'
    (map (fun med => if String.eqb (Medicine.id med) id
                     then MedicineData.withId d id else med) ms)
  = findMedicine id' ms.
Proof.
  intros Hne. unfold findMedicine.
  induction ms as [| x l IH]; simpl; [reflexivity |].
  destruct (String.eqb (Medicine.id x) id) eqn:E.
  - apply String.eqb_eq in E. cbn [MedicineData.withId Medicine.id].
    assert (String.eqb id id' = false) as -> by (apply String.eqb_neq; congruence).
    assert (String.eqb (Medicine.id x) id' = false) as ->
        by (apply String.eqb_neq; congruence).
    exact IH.
  - destruct (String.eqb (Medicine.id x) id'); [reflexivity | exact IH].
Qed.

(** X1. After [handleDeleteMedicine id] the id resolves to nothing, the
    catalog is the old one without the entries of this id, the others in
    their order (a catalog [before ++ m :: after] with the id on [m] only
    becomes [before ++ after]),
    every other id resolves as before, and the sales history is untouched,
    also the records that refer to the deleted id; deleting an id that does
    not resolve changes nothing. *)
Theorem delete_removes_medicine (id : string) (st : AppState) :
  let st' := App.handleDeleteMedicine id st in
  findMedicine id (medicines st') = None
  /\ (forall med, In med (medicines st') <->
                  In med (medicines st) /\ Medicine.id med <> id)
  /\ (forall id', id' <> id ->
                  findMedicine id' (medicines st') = findMedicine id' (medicines st))
  /\ sales st' = sales st
  /\ alerts st' = alerts st
  /\ (findMedicine id (medicines st) = None -> st' = st)
  /\ medicines st'
     = filter (fun med => negb (String.eqb (Medicine.id med) id)) (medicines st)
  /\ (forall before m after,
        medicines st = before ++ m :: after ->
        Medicine.id m = id ->
        findMedicine id before = None -> findMedicine id after = None ->
        medicines st' = before ++ after).
Proof.
  cbv zeta. unfold App.handleDeleteMedicine, setMedicines. cbn [medicines sales alerts].
  assert (Hin : forall med,
             In med (filter (fun med => negb (String.eqb (Medicine.id med) id))
                       (medicines st))
             <-> In med (medicines st) /\ Medicine.id med <> id).
  { intros med. rewrite filter_In, negb_true_iff, String.eqb_neq. tauto. }
  assert (Hkeep : forall l, findMedicine id l = None ->
                    filter (fun med => negb (String.eqb (Medicine.id med) id)) l = l).
  { intros l Hnone. apply filter_keeps_all.
    intros x Hx. rewrite negb_true_iff, String.eqb_neq.
    exact (proj1 (findMedicine_none id l) Hnone x Hx). }
  split; [| split; [exact Hin | split; [| split; [| split; [| split; [| split]]]]]];
    try reflexivity.
  - apply findMedicine_none. intros med Hmed. apply Hin in Hmed. tauto.
  - intros id' Hne. apply findMedicine_filter_other. exact Hne.
  - intros Hnone. rewrite (Hkeep _ Hnone). apply appState_eta.
  - intros before m after Hsplit Hid Hbefore Hafter.
    rewrite Hsplit, filter_app. cbn [filter].
    rewrite Hid, String.eqb_refl. cbn [negb].
    rewrite (Hkeep _ Hbefore), (Hkeep _ Hafter). reflexivity.
Qed.

(** X2. [handleUpdateMedicine id d] keeps the ids of the catalog, in their
    order; an id that resolved now resolves to the submitted data under the
    same id; every other id resolves as before; an id that does not resolve
    changes nothing; the sales history is untouched. *)
Theorem update_replaces_medicine (id : string) (d : MedicineData.t) (st : AppState) :
  let st' := App.handleUpdateMedicine id d st in
  map Medicine.id (medicines st') = map Medicine.id (medicines st)
  /\ (forall m, findMedicine id (medicines st) = Some m ->
                findMedicine id (medicines st') = Some (MedicineData.withId d id))
  /\ (forall id', id' <> id ->
                  findMedicine id' (medicines st') = findMedicine id' (medicines st))
  /\ (findMedicine id (medicines st) = None -> st' = st)
  /\ sales st' = sales st.
Proof.
  cbv zeta. unfold App.handleUpdateMedicine, setMedicines. cbn [medicines sales alerts].
  split; [| split; [| split; [| split]]]; try reflexivity.
  - rewrite map_map. apply map_ext. intros x.
    destruct (String.eqb (Medicine.id x) id) eqn:E; [| reflexivity].
    apply String.eqb_eq in E. symmetry. exact E.
  - intros m Hf. apply (findMedicine_update_same id d _ m Hf).
  - intros id' Hne. apply findMedicine_update_other. exact Hne.
  - intros Hnone.
    assert (Hmap : map (fun med => if String.eqb (Medicine.id med) id
                                   then MedicineData.withId d id else med)
                     (medicines st) = medicines st).
    { rewrite <- (map_id (medicines st)) at 2. apply map_ext_in.
      intros x Hx.
      assert (String.eqb (Medicine.id x) id = false) as ->; [| reflexivity].
      apply String.eqb_neq.
      exact (proj1 (findMedicine_none id (medicines st)) Hnone x Hx). }
    rewrite Hmap. apply appState_eta.
Qed.

(** X3. Of two edits of the same id the last one wins, and edits of two
    different ids commute. *)
Theorem update_last_wins (id id' : string) (d1 d2 : MedicineData.t) (st : AppState) :
  App.handleUpdateMedicine id d2 (App.handleUpdateMedicine id d1 st)
  = App.handleUpdateMedicine id d2 st
  /\ (id <> id' ->
      App.handleUpdateMedicine id d1 (App.handleUpdateMedicine id' d2 st)
      = App.handleUpdateMedicine id' d2 (App.handleUpdateMedicine id d1 st)).
Proof.
  unfold App.handleUpdateMedicine, setMedicines. cbn [medicines sales alerts].
  split.
  - f_equal. rewrite map_map. apply map_ext. intros x.
    destruct (String.eqb (Medicine.id x) id) eqn:E.
    + cbn [MedicineData.withId Medicine.id]. rewrite String.eqb_refl. reflexivity.
    + rewrite E. reflexivity.
  - intros Hne. f_equal. rewrite !map_map. apply map_ext. intros x.
    destruct (String.eqb (Medicine.id x) id) eqn:E;
      destruct (String.eqb (Medicine.id x) id') eqn:E';
      cbn [MedicineData.withId Medicine.id];
      rewrite ?E, ?E', ?String.eqb_refl; try reflexivity.
    + apply String.eqb_eq in E, E'. congruence.
    + assert (String.eqb id id' = false) as ->; [| reflexivity].
      apply String.eqb_neq. congruence.
    + assert (String.eqb id' id = false) as ->; [| reflexivity].
      apply String.eqb_neq. congruence.
Qed.

(** X4. [handleAddMedicine] puts the new medicine, under the id drawn by
    [generateId], behind the catalog: every id that resolved keeps its
    medicine, also when the drawn id is already taken, in which case the
    new medicine cannot be reached by its id; a drawn id that is new
    resolves to the new medicine. *)
Theorem add_appends_medicine (env : Env) (d : MedicineData.t) (st : AppState) :
  let st' := App.handleAddMedicine env d st in
  let newMedicine := MedicineData.withId d (Utils.generateId env) in
  medicines st' = medicines st ++ [newMedicine]
  /\ (forall id m, findMedicine id (medicines st) = Some m ->
                   findMedicine id (medicines st') = Some m)
  /\ (findMedicine (Utils.generateId env) (medicines st) = None ->
      findMedicine (Utils.generateId env) (medicines st') = Some newMedicine)
  /\ (forall id, id <> Utils.generateId env ->
                 findMedicine id (medicines st') = findMedicine id (medicines st))
  /\ sales st' = sales st.
Proof.
  cbv zeta. unfold App.handleAddMedicine, setMedicines. cbn [medicines sales alerts].
  split; [reflexivity |].
  split; [| split; [| split; [| reflexivity]]].
  - intros id m Hf. rewrite findMedicine_app, Hf. reflexivity.
  - intros Hf. rewrite findMedicine_app, Hf. unfold findMedicine. simpl.
    rewrite String.eqb_refl. reflexivity.
  - intros id Hne. rewrite findMedicine_app.
    destruct (findMedicine id (medicines st)); [reflexivity |].
    unfold findMedicine. simpl.
    assert (String.eqb (Utils.generateId env) id = false) as ->; [| reflexivity].
    apply String.eqb_neq. congruence.
Qed.

(** X5. Adding a medicine under an id that is new and then deleting this id
    gives back the page state as it was. *)
Theorem add_then_delete_round_trip (env : Env) (d : MedicineData.t) (st : AppState) :
  findMedicine (Utils.generateId env) (medicines st) = None ->
  App.handleDeleteMedicine (Utils.generateId env) (App.handleAddMedicine env d st) = st.
Proof.
  intros Hnone.
  unfold App.handleDeleteMedicine, App.handleAddMedicine, setMedicines.
  cbn [medicines sales alerts].
  rewrite filter_app. cbn [filter MedicineData.withId Medicine.id].
  rewrite String.eqb_refl. cbn [negb]. rewrite app_nil_r.
  rewrite filter_keeps_all; [apply appState_eta |].
  intros x Hx. rewrite negb_true_iff, String.eqb_neq.
  exact (proj1 (findMedicine_none _ (medicines st)) Hnone x Hx).
Qed.

End CatalogHandlers.

(** ** Sales, counts and units *)

Section SalesAndMetrics.
Context `{DateBuiltins}.

Lemma countIf_permutation {A : Type} (p : A -> bool) (l l' : list A) :
  Permutation l l' -> countIf p l = countIf p l'.
Proof.
  induction 1 as [| x l l' _ IH | x y l | l l' l'' _ IH1 _ IH2]; simpl.
  - reflexivity.
  - rewrite IH. reflexivity.
  - destruct (p x), (p y); reflexivity.
  - congruence.
Qed.

(** The two counts of [calculateMetrics] on a permuted catalog. *)
Lemma counts_permutation (env : Env) (ms ms' : list Medicine.t) (ss ss' : list Sale.t) :
  Permutation ms ms' ->
  let a := Utils.calculateMetrics env ms ss in
  let b := Utils.calculateMetrics env ms' ss' in
  DashboardMetrics.lowStockItems a = DashboardMetrics.lowStockItems b
  /\ DashboardMetrics.expiredItems a = DashboardMetrics.expiredItems b.
Proof.
  intros Hm. cbv zeta. unfold Utils.calculateMetrics.
  cbn [DashboardMetrics.lowStockItems DashboardMetrics.expiredItems].
  rewrite !length_filter_countIf.
  split; apply countIf_permutation; exact Hm.
Qed.

(** X6. The two counts of [calculateMetrics], [lowStockItems] and
    [expiredItems], depend neither on the order of the catalog nor on the
    sales history.  (The two sums are left out: the code adds them up in
    floating point, from left to right.) *)
Theorem calculateMetrics_counts_order_independent (env : Env)
    (ms ms' : list Medicine.t) (ss ss' : list Sale.t) :
  Permutation ms ms' ->
  let a := Utils.calculateMetrics env ms ss in
  let b := Utils.calculateMetrics env ms' ss' in
  DashboardMetrics.lowStockItems a = DashboardMetrics.lowStockItems b
  /\ DashboardMetrics.expiredItems a = DashboardMetrics.expiredItems b.
Proof.
  intros Hm. cbv zeta. unfold Utils.calculateMetrics.
  cbn [DashboardMetrics.lowStockItems DashboardMetrics.expiredItems].
  rewrite !length_filter_countIf.
  pose proof (countIf_permutation (lowAndNotExpired env) _ _ Hm) as Hlow.
  pose proof (countIf_permutation
                (fun med => Utils.isExpired env (Medicine.expiryDate med)) _ _ Hm)
    as Hexpired.
  split; [exact Hlow | exact Hexpired].
Qed.

Lemma decrementStock_absent (id : string) (q : Z) (ms : list Medicine.t) :
  ~ In id (map Medicine.id ms) -> App.decrementStock id q ms = ms.
Proof.
  intros Hnotin. unfold App.decrementStock.
  rewrite <- (map_id ms) at 2. apply map_ext_in. intros x Hx.
  destruct (String.eqb (Medicine.id x) id) eqn:E; [| reflexivity].
  apply String.eqb_eq in E. exfalso. apply Hnotin. rewrite <- E.
  apply in_map. exact Hx.
Qed.

(** With pairwise distinct ids, a sale takes the units sold out of the
    stock of the catalog. *)
Lemma unitsInStock_decrementStock (id : string) (q : Z) (ms : list Medicine.t)
    (m : Medicine.t) :
  NoDup (map Medicine.id ms) ->
  findMedicine id ms = Some m ->
  unitsInStock (App.decrementStock id q ms) = unitsInStock ms - q.
Proof.
  unfold findMedicine, unitsInStock.
  induction ms as [| x l IH]; intros Hnd Hf; [discriminate Hf |].
  inversion Hnd as [| ? ? Hnotin Hnd']; subst.
  cbn [find] in Hf. cbn [App.decrementStock map].
  destruct (String.eqb (Medicine.id x) id) eqn:E.
  - injection Hf as <-. apply String.eqb_eq in E. subst id.
    fold (App.decrementStock (Medicine.id x) q l).
    rewrite (decrementStock_absent _ q l Hnotin).
    cbn [sumZ Medicine.withQuantity Medicine.quantity]. lia.
  - fold (App.decrementStock id q l). cbn [sumZ].
    rewrite (IH Hnd' Hf). lia.
Qed.

Lemma countIf_decrementStock (p : Medicine.t -> bool) (id : string) (q : Z)
    (ms : list Medicine.t) :
  (forall med q', p (Medicine.withQuantity med q') = p med) ->
  countIf p (App.decrementStock id q ms) = countIf p ms.
Proof.
  intros Hp. unfold App.decrementStock.
  induction ms as [| x l IH]; simpl; [reflexivity |].
  destruct (String.eqb (Medicine.id x) id); rewrite ?Hp, IH; reflexivity.
Qed.

Lemma countIf_decrementStock_le (p : Medicine.t -> bool) (id : string) (q : Z)
    (ms : list Medicine.t) :
  (forall med, p med = true ->
               p (Medicine.withQuantity med (Medicine.quantity med - q)) = true) ->
  (countIf p ms <= countIf p (App.decrementStock id q ms))%nat.
Proof.
  intros Hp. unfold App.decrementStock.
  induction ms as [| x l IH]; simpl; [lia |].
  destruct (String.eqb (Medicine.id x) id).
  - destruct (p x) eqn:Hx.
    + rewrite (Hp x Hx). lia.
    + destruct (p (Medicine.withQuantity x (Medicine.quantity x - q))); lia.
  - destruct (p x); lia.
Qed.

(** X7. With pairwise distinct ids, a committed sale moves the units sold
    from the stock to the history: the units in stock over the whole catalog
    fall by exactly the quantity sold, the units sold over the whole history
    rise by it, and their sum stays the same.  [expiredItems] does not
    change, and [lowStockItems] does not fall. *)
Theorem sale_conserves_units (env clock : Env) (f : SaleForm.t) (st : AppState)
    (m : Medicine.t) :
  uniqueIds st ->
  findMedicine (SaleForm.medicineId f) (medicines st) = Some m ->
  0 < SaleForm.quantity f <= Medicine.quantity m ->
  let st' := App.submitSale env f st in
  let before := Utils.calculateMetrics clock (medicines st) (sales st) in
  let after := Utils.calculateMetrics clock (medicines st') (sales st') in
  unitsInStock (medicines st') = unitsInStock (medicines st) - SaleForm.quantity f
  /\ unitsSold (sales st') = unitsSold (sales st) + SaleForm.quantity f
  /\ unitsInStock (medicines st') + unitsSold (sales st')
     = unitsInStock (medicines st) + unitsSold (sales st)
  /\ DashboardMetrics.expiredItems after = DashboardMetrics.expiredItems before
  /\ (DashboardMetrics.lowStockItems before <= DashboardMetrics.lowStockItems after)%nat.
Proof.
  intros Hu Hf Hq. cbv zeta.
  rewrite (submitSale_commit env f st m Hf Hq). cbn [medicines sales].
  pose proof (unitsInStock_decrementStock _ (SaleForm.quantity f) _ m Hu Hf) as Hstock.
  assert (Hsold : unitsSold
                    (SaleData.withIdAndDateTime (saleDataOf f m) (Utils.generateId env)
                       (Date_toISOString (now env)) :: sales st)
                  = unitsSold (sales st) + SaleForm.quantity f).
  { unfold unitsSold. cbn [map sumZ SaleData.withIdAndDateTime saleDataOf
                           Sale.quantity SaleData.quantity]. lia. }
  split; [exact Hstock |]. split; [exact Hsold |]. split; [lia |].
  unfold Utils.calculateMetrics.
  cbn [DashboardMetrics.lowStockItems DashboardMetrics.expiredItems].
  rewrite !length_filter_countIf. split.
  - apply countIf_decrementStock. intros med q'. reflexivity.
  - apply countIf_decrementStock_le. intros med Hmed.
    cbn [Medicine.withQuantity Medicine.quantity Medicine.expiryDate].
    apply andb_true_iff in Hmed. destruct Hmed as [Hlow Hfresh].
    rewrite Hfresh, andb_true_r.
    unfold Utils.isLowStock in *. apply Z.ltb_lt in Hlow. apply Z.ltb_lt. lia.
Qed.

End SalesAndMetrics.

(** ** The selection list of the sale dialog *)

Section SelectionList.
Context `{DateBuiltins}.

Lemma findMedicine_in_unique (ms : list Medicine.t) (m : Medicine.t) :
  NoDup (map Medicine.id ms) -> In m ms -> findMedicine (Medicine.id m) ms = Some m.
Proof.
  unfold findMedicine. induction ms as [| x l IH]; intros Hnd Hin; [contradiction |].
  inversion Hnd as [| ? ? Hnotin Hnd']; subst. cbn [find].
  destruct (String.eqb (Medicine.id x) (Medicine.id m)) eqn:E.
  - destruct Hin as [-> | Hin]; [reflexivity |].
    apply String.eqb_eq in E. exfalso. apply Hnotin. rewrite E.
    apply in_map. exact Hin.
  - destruct Hin as [-> | Hin]; [rewrite String.eqb_refl in E; discriminate |].
    apply IH; assumption.
Qed.

Lemma in_decrementStock_sold (id : string) (q : Z) (ms : list Medicine.t)
    (m med : Medicine.t) :
  NoDup (map Medicine.id ms) ->
  findMedicine id ms = Some m ->
  In med (App.decrementStock id q ms) -> Medicine.id med = id ->
  med = Medicine.withQuantity m (Medicine.quantity m - q).
Proof.
  intros Hnd Hf Hin Hid. unfold App.decrementStock in Hin.
  apply in_map_iff in Hin. destruct Hin as [x [Hx Hin]].
  destruct (String.eqb (Medicine.id x) id) eqn:E.
  - apply String.eqb_eq in E.
    rewrite (findMedicine_unique id ms m x Hnd Hf Hin E) in Hx. symmetry. exact Hx.
  - apply String.eqb_neq in E. subst med. contradiction.
Qed.

(** X8. With pairwise distinct ids, every medicine offered by the selection
    list of the sale dialog can be sold, in any quantity from one unit up to
    its stock; once its whole stock is sold, no entry with its id is
    offered any more, and after a smaller sale it is still offered, with
    the stock that is left. *)
Theorem listed_medicine_sellable (env clock : Env) (f : SaleForm.t) (st : AppState)
    (m : Medicine.t) :
  uniqueIds st ->
  In m (SalesTable.availableMedicines clock (medicines st)) ->
  SaleForm.medicineId f = Medicine.id m ->
  0 < SaleForm.quantity f <= Medicine.quantity m ->
  let q := SaleForm.quantity f in
  let st' := App.submitSale env f st in
  0 < Medicine.quantity m
  /\ raised (SaleCompleted (Medicine.price m * inject_Z q)%Q) st st'
  /\ (q = Medicine.quantity m ->
      forall clock' med,
        In med (SalesTable.availableMedicines clock' (medicines st')) ->
        Medicine.id med <> Medicine.id m)
  /\ (q < Medicine.quantity m ->
      In (Medicine.withQuantity m (Medicine.quantity m - q))
         (SalesTable.availableMedicines clock (medicines st'))).
Proof.
  intros Hu Hlisted Hid Hq. cbv zeta.
  apply availableMedicines_not_expired in Hlisted.
  destruct Hlisted as [Hin [Hfresh Hstock]].
  assert (Hf : findMedicine (SaleForm.medicineId f) (medicines st) = Some m).
  { rewrite Hid. apply findMedicine_in_unique; assumption. }
  rewrite (submitSale_commit env f st m Hf Hq). cbn [medicines].
  split; [exact Hstock |]. split; [reflexivity |]. split.
  - intros Hall clock' med Hmed Hsame.
    apply availableMedicines_not_expired in Hmed.
    destruct Hmed as [Hmed [_ Hpos]].
    rewrite <- Hid in Hsame.
    rewrite (in_decrementStock_sold _ _ _ m med Hu Hf Hmed Hsame) in Hpos.
    cbn [Medicine.withQuantity Medicine.quantity] in Hpos. lia.
  - intros Hless. apply availableMedicines_not_expired.
    split; [| split].
    + unfold App.decrementStock. apply in_map_iff. exists m.
      split; [| exact Hin].
      rewrite Hid, String.eqb_refl. reflexivity.
    + exact Hfresh.
    + cbn [Medicine.withQuantity Medicine.quantity]. lia.
Qed.

End SelectionList.

(** ** Searching and sorting *)

Section Search.
Context `{LocaleBuiltins}.

Lemma prefix_spec (t s : string) :
  String.prefix t s = true <-> exists post, s = (t ++ post)%string.
Proof.
  revert s. induction t as [| a t IH]; intros s; simpl.
  - destruct s; (split; [intros _; eexists; reflexivity | reflexivity]).
  - destruct s as [| b s]; simpl.
    + split; [discriminate | intros [post E]; discriminate E].
    + destruct (ascii_dec a b) as [-> | Hne].
      * rewrite IH. split; intros [post E]; exists post; congruence.
      * split; [discriminate | intros [post E]; congruence].
Qed.

Lemma includes_spec (s t : string) :
  Js.includes s t = true <-> containsString s t.
Proof.
  unfold containsString. induction s as [| c s IH]; cbn [Js.includes].
  - destruct (String.prefix t "") eqn:E.
    + split; [intros _ | reflexivity].
      apply prefix_spec in E. destruct E as [post E]. exists ""%string, post. exact E.
    + split; [discriminate |]. intros [pre [post E']].
      destruct pre; [| discriminate E'].
      assert (String.prefix t "" = true) as Hp
          by (apply prefix_spec; exists post; exact E').
      congruence.
  - destruct (String.prefix t (String c s)) eqn:E.
    + split; [intros _ | reflexivity].
      apply prefix_spec in E. destruct E as [post E]. exists ""%string, post. exact E.
    + rewrite IH. split.
      * intros [pre [post E']]. exists (String c pre), post. simpl. congruence.
      * intros [pre [post E']]. destruct pre as [| c' pre].
        -- assert (String.prefix t (String c s) = true) as Hp
               by (apply prefix_spec; exists post; exact E').
           congruence.
        -- simpl in E'. injection E' as _ E'. exists pre, post. exact E'.
Qed.

Lemma includes_refl (s : string) : Js.includes s s = true.
Proof.
  apply includes_spec. exists ""%string, ""%string. simpl.
  symmetry. induction s as [| c s IH]; simpl; congruence.
Qed.

Lemma truthy_iff (s : string) : Js.truthy s = true <-> s <> ""%string.
Proof. unfold Js.truthy. rewrite negb_true_iff. apply String.eqb_neq. Qed.

Lemma truthy_false_iff (s : string) : Js.truthy s = false <-> s = ""%string.
Proof. unfold Js.truthy. rewrite negb_false_iff. apply String.eqb_eq. Qed.

(** X9. The search of the sales history returns the whole history for an
    empty term; otherwise it returns, in their order, exactly the sales
    whose customer name or medicine name contains the term, both taken in
    lower case.  So a sale is always found by its own customer name and by
    its own medicine name, and two terms with the same lower case find the
    same sales. *)
Theorem filteredSales_search (sales : list Sale.t) (term : string) :
  SalesTable.filteredSales sales "" = sales
  /\ (forall sale,
        In sale (SalesTable.filteredSales sales term) <->
        In sale sales
        /\ (term = ""%string
            \/ containsString (toLowerCase (Sale.customerName sale)) (toLowerCase term)
            \/ containsString (toLowerCase (Sale.medicineName sale)) (toLowerCase term)))
  /\ (exists keep, SalesTable.filteredSales sales term = filter keep sales)
  /\ (forall sale, In sale sales ->
        In sale (SalesTable.filteredSales sales (Sale.customerName sale))
        /\ In sale (SalesTable.filteredSales sales (Sale.medicineName sale)))
  /\ (forall term', term <> ""%string -> term' <> ""%string ->
        toLowerCase term' = toLowerCase term ->
        SalesTable.filteredSales sales term' = SalesTable.filteredSales sales term).
Proof.
  assert (Hchar : forall t sale,
             In sale (SalesTable.filteredSales sales t) <->
             In sale sales
             /\ (t = ""%string
                 \/ containsString (toLowerCase (Sale.customerName sale)) (toLowerCase t)
                 \/ containsString (toLowerCase (Sale.medicineName sale)) (toLowerCase t))).
  { intros t sale. unfold SalesTable.filteredSales.
    destruct (Js.truthy t) eqn:Ht; cbn [negb].
    - apply truthy_iff in Ht.
      rewrite filter_In, orb_true_iff, !includes_spec. tauto.
    - apply truthy_false_iff in Ht. tauto. }
  split; [reflexivity |]. split; [apply Hchar |]. split; [| split].
  - unfold SalesTable.filteredSales. destruct (Js.truthy term); cbn [negb].
    + eexists. reflexivity.
    + exists (fun _ => true). symmetry. apply filter_keeps_all. reflexivity.
  - intros sale Hin. split; apply Hchar; (split; [exact Hin |]).
    + right. left. apply includes_spec, includes_refl.
    + right. right. apply includes_spec, includes_refl.
  - intros term' Ht Ht' Hlow. unfold SalesTable.filteredSales.
    apply truthy_iff in Ht, Ht'. rewrite Ht, Ht', Hlow. reflexivity.
Qed.

End Search.

Section Sorting.

Lemma insert_permutation {A : Type} (cmp : A -> A -> Q) (x : A) (l : list A) :
  Permutation (Js.insert cmp x l) (x :: l).
Proof.
  induction l as [| y l IH]; simpl; [reflexivity |].
  destruct (Qle_bool (cmp x y) 0); [reflexivity |].
  rewrite IH. apply perm_swap.
Qed.

Lemma sort_permutation {A : Type} (cmp : A -> A -> Q) (l : list A) :
  Permutation (Js.sort cmp l) l.
Proof.
  unfold Js.sort. induction l as [| x l IH]; simpl; [reflexivity |].
  rewrite insert_permutation. constructor. exact IH.
Qed.

Lemma insert_sorted {A : Type} (P : A -> Prop) (cmp : A -> A -> Q) (x : A) (l : list A) :
  consistentOn P cmp -> P x -> Forall P l ->
  StronglySorted (fun a b => (cmp a b <= 0)%Q) l ->
  StronglySorted (fun a b => (cmp a b <= 0)%Q) (Js.insert cmp x l).
Proof.
  intros [Htotal Htrans] Px. induction l as [| y l IH]; intros HP Hs; simpl.
  - constructor; constructor.
  - inversion HP as [| ? ? Py HPl]; subst.
    inversion Hs as [| ? ? Hsl Hyl]; subst.
    destruct (Qle_bool (cmp x y) 0) eqn:E.
    + apply Qle_bool_iff in E. constructor; [exact Hs |].
      constructor; [exact E |].
      rewrite Forall_forall in *. intros z Hz.
      apply (Htrans x y z); auto.
    + assert (Hyx : (cmp y x <= 0)%Q).
      { destruct (Htotal x y Px Py) as [Hxy | Hyx]; [| exact Hyx].
        apply Qle_bool_iff in Hxy. congruence. }
      constructor; [apply IH; assumption |].
      rewrite Forall_forall in *. intros z Hz.
      apply (Permutation_in _ (insert_permutation cmp x l)) in Hz.
      destruct Hz as [<- | Hz]; [exact Hyx | auto].
Qed.

Lemma sort_sorted {A : Type} (P : A -> Prop) (cmp : A -> A -> Q) (l : list A) :
  consistentOn P cmp -> Forall P l ->
  StronglySorted (fun a b => (cmp a b <= 0)%Q) (Js.sort cmp l).
Proof.
  intros Hc. unfold Js.sort. induction l as [| x l IH]; intros HP; simpl.
  - constructor.
  - inversion HP as [| ? ? Px HPl]; subst.
    apply (insert_sorted P); auto.
    rewrite Forall_forall in *. intros z Hz. apply HPl.
    apply (Permutation_in _ (sort_permutation cmp l)). exact Hz.
Qed.

Lemma StronglySorted_weaken {A : Type} (R R' : A -> A -> Prop) (l : list A) :
  (forall a b, In a l -> In b l -> R a b -> R' a b) ->
  StronglySorted R l -> StronglySorted R' l.
Proof.
  intros Himp Hs. induction Hs as [| x l Hs IH Hx]; constructor.
  - apply IH. intros a b Ha Hb. apply Himp; right; assumption.
  - rewrite Forall_forall in *. intros z Hz.
    apply Himp; [left; reflexivity | right; exact Hz | auto].
Qed.

(** The kept part of a sorted list comes before the dropped part. *)
Lemma StronglySorted_app {A : Type} (R : A -> A -> Prop) (l1 l2 : list A) :
  StronglySorted R (l1 ++ l2) ->
  StronglySorted R l1 /\ StronglySorted R l2
  /\ (forall a b, In a l1 -> In b l2 -> R a b).
Proof.
  induction l1 as [| x l1 IH]; simpl; intros Hs.
  - split; [constructor |]. split; [exact Hs |]. intros a b [].
  - inversion Hs as [| ? ? Hs' Hx]; subst.
    destruct (IH Hs') as [H1 [H2 H12]].
    rewrite Forall_forall in Hx.
    split; [| split; [exact H2 |]].
    + constructor; [exact H1 |]. rewrite Forall_forall. intros z Hz.
      apply Hx. apply in_or_app. left. exact Hz.
    + intros a b [<- | Ha] Hb.
      * apply Hx. apply in_or_app. right. exact Hb.
      * apply H12; assumption.
Qed.

End Sorting.

(** ** The inventory table *)

Section InventoryRows.
Context `{DateBuiltins} `{LocaleBuiltins}.

Lemma inject_Z_nonpos (z : Z) : (inject_Z z <= 0)%Q <-> z <= 0.
Proof. change 0%Q with (inject_Z 0). rewrite <- Zle_Qle. reflexivity. Qed.

Lemma string_compare_total (lc : string -> string -> Z) (m : Z) (x y : string) :
  consistentCompare lc -> m = 1 \/ m = -1 ->
  (inject_Z (lc x y * m) <= 0)%Q \/ (inject_Z (lc y x * m) <= 0)%Q.
Proof.
  intros [Hsym _] Hm. rewrite !inject_Z_nonpos.
  pose proof (Hsym x y). pose proof (Hsym y x). destruct Hm; subst m; lia.
Qed.

Lemma string_compare_trans (lc : string -> string -> Z) (m : Z) (x y z : string) :
  consistentCompare lc -> m = 1 \/ m = -1 ->
  (inject_Z (lc x y * m) <= 0)%Q -> (inject_Z (lc y z * m) <= 0)%Q ->
  (inject_Z (lc x z * m) <= 0)%Q.
Proof.
  intros [Hsym Htrans] Hm. rewrite !inject_Z_nonpos.
  pose proof (Hsym x y). pose proof (Hsym y x). pose proof (Hsym y z).
  pose proof (Hsym z y). pose proof (Hsym x z). pose proof (Hsym z x).
  pose proof (Htrans x y z). pose proof (Htrans z y x).
  destruct Hm; subst m; lia.
Qed.

Lemma number_compare_total (m : Z) (x y : Q) :
  m = 1 \/ m = -1 ->
  ((x - y) * inject_Z m <= 0)%Q \/ ((y - x) * inject_Z m <= 0)%Q.
Proof.
  intros [-> | ->]; [change (inject_Z 1) with 1%Q | change (inject_Z (-1)) with (-1)%Q];
    destruct (Qlt_le_dec x y); [left | right | right | left]; lra.
Qed.

Lemma number_compare_trans (m : Z) (x y z : Q) :
  m = 1 \/ m = -1 ->
  ((x - y) * inject_Z m <= 0)%Q -> ((y - z) * inject_Z m <= 0)%Q ->
  ((x - z) * inject_Z m <= 0)%Q.
Proof.
  intros [-> | ->]; [change (inject_Z 1) with 1%Q | change (inject_Z (-1)) with (-1)%Q];
    intros; lra.
Qed.

Lemma compareRows_consistent (f : InventoryTable.SortField)
    (dir : InventoryTable.SortDirection) :
  fieldConsistent f ->
  consistentOn (fun _ => True) (InventoryTable.compareRows f dir).
Proof.
  intros Hf.
  assert (Hm : (match dir with InventoryTable.asc => 1 | InventoryTable.desc => -1 end) = 1
               \/ (match dir with InventoryTable.asc => 1 | InventoryTable.desc => -1 end) = -1)
    by (destruct dir; auto).
  split.
  - intros a b _ _. unfold InventoryTable.compareRows.
    destruct f; cbn [InventoryTable.fieldOf fieldConsistent] in *;
      first [ apply string_compare_total; assumption
            | apply number_compare_total; assumption ].
  - intros a b c _ _ _. unfold InventoryTable.compareRows.
    destruct f; cbn [InventoryTable.fieldOf fieldConsistent] in *;
      first [ apply string_compare_trans; assumption
            | apply number_compare_trans; assumption ].
Qed.

(** The filter of the rows, in one test. *)
Lemma filteredMedicines_rows (env : Env) (ms : list Medicine.t) (term : string)
    (f : InventoryTable.SortField) (dir : InventoryTable.SortDirection)
    (expiredOnly : bool) :
  fst (InventoryTable.filteredMedicines env ms term f dir expiredOnly)
  = Js.sort (InventoryTable.compareRows f dir)
      (filter (fun med =>
                 (negb expiredOnly || Utils.isExpired env (Medicine.expiryDate med))
                 && (negb (Js.truthy term) || InventoryTable.matchesSearch term med))
              ms).
Proof.
  unfold InventoryTable.filteredMedicines. cbn [fst]. f_equal.
  destruct expiredOnly, (Js.truthy term); cbn [negb orb].
  - induction ms as [| x l IH]; simpl; [reflexivity |].
    destruct (Utils.isExpired env (Medicine.expiryDate x)); simpl;
      [destruct (InventoryTable.matchesSearch term x) |]; rewrite IH; reflexivity.
  - apply filter_ext. intros x. rewrite andb_true_r. reflexivity.
  - reflexivity.
  - symmetry. apply filter_keeps_all. reflexivity.
Qed.

(** X10. The rows of the inventory table are the medicines of the catalog
    that pass the filters, each one once: with [showExpiredOnly] only
    expired medicines, with a search term only medicines whose name,
    supplier, PLU or category contains the term in lower case; without any
    filter the rows are the whole catalog in another order. *)
Theorem inventory_rows_complete (env : Env) (ms : list Medicine.t) (term : string)
    (f : InventoryTable.SortField) (dir : InventoryTable.SortDirection)
    (expiredOnly : bool) :
  let rows := fst (InventoryTable.filteredMedicines env ms term f dir expiredOnly) in
  Permutation rows
    (filter (fun med =>
               (negb expiredOnly || Utils.isExpired env (Medicine.expiryDate med))
               && (negb (Js.truthy term) || InventoryTable.matchesSearch term med))
            ms)
  /\ (forall med,
        In med rows <->
        In med ms
        /\ (expiredOnly = true -> Utils.isExpired env (Medicine.expiryDate med) = true)
        /\ (term <> ""%string ->
            containsString (toLowerCase (Medicine.name med)) (toLowerCase term)
            \/ containsString (toLowerCase (Medicine.supplier med)) (toLowerCase term)
            \/ containsString (toLowerCase (Medicine.plu med)) (toLowerCase term)
            \/ containsString (toLowerCase (Medicine.category med)) (toLowerCase term)))
  /\ (expiredOnly = false -> term = ""%string -> Permutation rows ms).
Proof.
  cbv zeta. rewrite filteredMedicines_rows.
  split; [apply sort_permutation |]. split.
  - intros med. split.
    + intros Hin. apply (Permutation_in _ (sort_permutation _ _)) in Hin.
      apply filter_In in Hin. destruct Hin as [Hin Htest].
      apply andb_true_iff in Htest. destruct Htest as [He Hs].
      split; [exact Hin |]. split.
      * intros ->. exact He.
      * intros Ht. apply truthy_iff in Ht. rewrite Ht in Hs. cbn [negb orb] in Hs.
        unfold InventoryTable.matchesSearch in Hs.
        rewrite !orb_true_iff, !includes_spec in Hs. tauto.
    + intros [Hin [He Hs]].
      apply (Permutation_in _ (Permutation_sym (sort_permutation _ _))).
      apply filter_In. split; [exact Hin |]. apply andb_true_iff. split.
      * destruct expiredOnly; [apply He; reflexivity | reflexivity].
      * destruct (Js.truthy term) eqn:Ht; [| reflexivity].
        apply truthy_iff in Ht. cbn [negb orb].
        unfold InventoryTable.matchesSearch.
        rewrite !orb_true_iff, !includes_spec. specialize (Hs Ht). tauto.
  - intros -> ->. rewrite sort_permutation.
    rewrite filter_keeps_all; [reflexivity | reflexivity].
Qed.

(** X11. The rows of the inventory table are sorted by the chosen field in
    the chosen direction, for a field of numbers on every platform and for a
    field of strings on a platform whose [localeCompare] is consistent: no
    row comes before a row that the comparison function puts before it.  By
    quantity, the stock rises along the rows when ascending and falls when
    descending. *)
Theorem inventory_rows_sorted (env : Env) (ms : list Medicine.t) (term : string)
    (f : InventoryTable.SortField) (dir : InventoryTable.SortDirection)
    (expiredOnly : bool) :
  fieldConsistent f ->
  let rows := fst (InventoryTable.filteredMedicines env ms term f dir expiredOnly) in
  StronglySorted (fun a b => (InventoryTable.compareRows f dir a b <= 0)%Q) rows
  /\ (f = InventoryTable.by_quantity -> dir = InventoryTable.asc ->
      StronglySorted (fun a b => Medicine.quantity a <= Medicine.quantity b) rows)
  /\ (f = InventoryTable.by_quantity -> dir = InventoryTable.desc ->
      StronglySorted (fun a b => Medicine.quantity b <= Medicine.quantity a) rows).
Proof.
  intros Hf. cbv zeta. rewrite filteredMedicines_rows.
  assert (Hs : StronglySorted
                 (fun a b => (InventoryTable.compareRows f dir a b <= 0)%Q)
                 (Js.sort (InventoryTable.compareRows f dir)
                    (filter (fun med =>
                       (negb expiredOnly || Utils.isExpired env (Medicine.expiryDate med))
                       && (negb (Js.truthy term) || InventoryTable.matchesSearch term med))
                       ms))).
  { apply (sort_sorted (fun _ => True)).
    - apply compareRows_consistent. exact Hf.
    - apply Forall_forall. intros; exact I. }
  split; [exact Hs |]. split; intros -> ->; revert Hs;
    apply StronglySorted_weaken; intros a b _ _;
    unfold InventoryTable.compareRows; cbn [InventoryTable.fieldOf];
    [change (inject_Z 1) with 1%Q | change (inject_Z (-1)) with (-1)%Q];
    intros Hle.
  - rewrite Zle_Qle. lra.
  - rewrite Zle_Qle. lra.
Qed.

End InventoryRows.

Section InventoryView.
Context `{DateBuiltins} `{LocaleBuiltins}.

Lemma findMedicine_permutation (id : string) (ms ms' : list Medicine.t) :
  NoDup (map Medicine.id ms) -> Permutation ms ms' ->
  findMedicine id ms' = findMedicine id ms.
Proof.
  intros Hnd Hperm.
  assert (Hnd' : NoDup (map Medicine.id ms'))
    by (apply (Permutation_NoDup (Permutation_map Medicine.id Hperm)); exact Hnd).
  destruct (findMedicine id ms) as [m|] eqn:Hf.
  - destruct (findMedicine_some _ _ _ Hf) as [Hin <-].
    apply findMedicine_in_unique; [exact Hnd' |].
    apply (Permutation_in _ Hperm). exact Hin.
  - apply findMedicine_none. intros med Hin.
    apply (proj1 (findMedicine_none id ms) Hf).
    apply (Permutation_in _ (Permutation_sym Hperm)). exact Hin.
Qed.

(** X12. Rendering the inventory table without a filter sorts the catalog
    array of the page itself, which then holds the rows; with
    [showExpiredOnly] or a search term the page state is left as it is.  In
    both cases the catalog keeps the same medicines, the sales history is
    untouched, the two counts of the metrics are the same, and with pairwise
    distinct ids every id resolves as before.  (The sum of the inventory
    value is left out: the code adds it up in floating point, in the order
    of the array.) *)
Theorem inventory_view_sorts_catalog (env clock : Env) (term : string)
    (f : InventoryTable.SortField) (dir : InventoryTable.SortDirection)
    (expiredOnly : bool) (st : AppState) :
  let rows := fst (App.renderInventory env term f dir expiredOnly st) in
  let st' := snd (App.renderInventory env term f dir expiredOnly st) in
  Permutation (medicines st') (medicines st)
  /\ sales st' = sales st
  /\ (expiredOnly = true \/ term <> ""%string -> st' = st)
  /\ (expiredOnly = false -> term = ""%string -> medicines st' = rows)
  /\ (catalogInvariant st -> catalogInvariant st')
  /\ (uniqueIds st ->
      uniqueIds st'
      /\ forall id, findMedicine id (medicines st') = findMedicine id (medicines st))
  /\ (let a := Utils.calculateMetrics clock (medicines st') (sales st') in
      let b := Utils.calculateMetrics clock (medicines st) (sales st) in
      DashboardMetrics.lowStockItems a = DashboardMetrics.lowStockItems b
      /\ DashboardMetrics.expiredItems a = DashboardMetrics.expiredItems b).
Proof.
  cbv zeta. unfold App.renderInventory, InventoryTable.filteredMedicines.
  cbn [fst snd setMedicines medicines sales alerts].
  assert (Hperm : Permutation
            (if expiredOnly || Js.truthy term then medicines st
             else Js.sort (InventoryTable.compareRows f dir)
                    (if Js.truthy term
                     then filter (InventoryTable.matchesSearch term)
                            (if expiredOnly
                             then filter (fun med =>
                                            Utils.isExpired env (Medicine.expiryDate med))
                                    (medicines st)
                             else medicines st)
                     else if expiredOnly
                          then filter (fun med =>
                                         Utils.isExpired env (Medicine.expiryDate med))
                                 (medicines st)
                          else medicines st))
            (medicines st)).
  { destruct expiredOnly, (Js.truthy term); cbn [orb]; try reflexivity.
    apply sort_permutation. }
  split; [exact Hperm |]. split; [reflexivity |]. split; [| split; [| split; [| split]]].
  - intros [-> | Ht].
    + cbn [orb]. apply appState_eta.
    + apply truthy_iff in Ht. rewrite Ht, orb_true_r. apply appState_eta.
  - intros -> ->. reflexivity.
  - unfold catalogInvariant. cbn [medicines]. intros Hinv.
    rewrite Forall_forall in *. intros x Hx. apply Hinv.
    apply (Permutation_in _ Hperm). exact Hx.
  - unfold uniqueIds. cbn [medicines]. intros Hu. split.
    + apply (Permutation_NoDup
               (Permutation_map Medicine.id (Permutation_sym Hperm))). exact Hu.
    + intros id. apply findMedicine_permutation; [exact Hu |].
      apply Permutation_sym. exact Hperm.
  - apply counts_permutation. exact Hperm.
Qed.

(** X13. A click on a column header always leaves that column as the sort
    field.  On the current column it turns the direction round, so that two
    clicks give back the state; on another column it starts ascending,
    whatever the direction was, and a second click makes it descending. *)
Theorem handleSort_toggles (field : InventoryTable.SortField)
    (state : InventoryTable.SortField * InventoryTable.SortDirection) :
  fst (InventoryTable.handleSort field state) = field
  /\ (fst state = field ->
      snd (InventoryTable.handleSort field state) <> snd state
      /\ InventoryTable.handleSort field (InventoryTable.handleSort field state) = state)
  /\ (fst state <> field ->
      InventoryTable.handleSort field state = (field, InventoryTable.asc)
      /\ InventoryTable.handleSort field (InventoryTable.handleSort field state)
         = (field, InventoryTable.desc)).
Proof.
  destruct state as [f d].
  destruct f, field, d; cbn; repeat split; try congruence; try discriminate.
Qed.

(** X14. The colour of the status of a row follows the priority of the
    status: red exactly for an expired medicine, amber exactly for a
    medicine that is not expired and has fewer than 5 units, green exactly
    for the others. *)
Theorem status_colour (env : Env) (m : Medicine.t) :
  let colour := InventoryTable.getStatusColor (Utils.getMedicineStatus env m) in
  let expired := Utils.isExpired env (Medicine.expiryDate m) in
  (colour = "bg-red-100 text-red-700 border-red-200"%string <-> expired = true)
  /\ (colour = "bg-amber-100 text-amber-700 border-amber-200"%string <->
      expired = false /\ Medicine.quantity m < 5)
  /\ (colour = "bg-green-100 text-green-700 border-green-200"%string <->
      expired = false /\ 5 <= Medicine.quantity m).
Proof.
  cbv zeta. unfold Utils.getMedicineStatus, Utils.isLowStock.
  destruct (Utils.isExpired env (Medicine.expiryDate m)).
  - cbn. repeat split; try discriminate; intros [? ?]; discriminate.
  - destruct (Z.ltb_spec (Medicine.quantity m) 5); cbn;
      repeat split; try discriminate; try lia; intros [? ?]; lia.
Qed.

End InventoryView.

(** ** The charts *)

Section GroupedCharts.

Lemma orZero_some (x : Q) : (Js.orZero (Some x) == x)%Q.
Proof.
  unfold Js.orZero. destruct (Qeq_bool x 0) eqn:E; [| reflexivity].
  apply Qeq_bool_iff in E. symmetry. exact E.
Qed.

Lemma mapGet_mapSet (m : Js.Map) (k k' : string) (v : Q) :
  Js.mapGet (Js.mapSet m k v) k'
  = if String.eqb k k' then Some v else Js.mapGet m k'.
Proof.
  induction m as [| [k0 v0] m IH]; simpl.
  - reflexivity.
  - destruct (String.eqb k0 k) eqn:E; simpl.
    + apply String.eqb_eq in E. subst k0.
      destruct (String.eqb k k'); reflexivity.
    + destruct (String.eqb k0 k') eqn:E'.
      * apply String.eqb_eq in E'. subst k0.
        rewrite String.eqb_sym, E. reflexivity.
      * exact IH.
Qed.

Lemma mapSet_keys (m : Js.Map) (k k' : string) (v : Q) :
  In k' (map fst (Js.mapSet m k v)) <-> k' = k \/ In k' (map fst m).
Proof.
  induction m as [| [k0 v0] m IH]; simpl.
  - intuition.
  - destruct (String.eqb k0 k) eqn:E; simpl.
    + apply String.eqb_eq in E. subst k0. intuition.
    + rewrite IH. intuition.
Qed.

Lemma mapSet_nodup (m : Js.Map) (k : string) (v : Q) :
  NoDup (map fst m) -> NoDup (map fst (Js.mapSet m k v)).
Proof.
  induction m as [| [k0 v0] m IH]; simpl; intros Hnd.
  - constructor; [intros [] | constructor].
  - inversion Hnd as [| ? ? Hnotin Hnd']; subst.
    destruct (String.eqb k0 k) eqn:E; simpl.
    + apply String.eqb_eq in E. subst k0. constructor; assumption.
    + constructor; [| auto].
      rewrite mapSet_keys. intros [-> | Hin]; [| contradiction].
      rewrite String.eqb_refl in E. discriminate.
Qed.

Lemma mapGet_in (m : Js.Map) (k : string) (v : Q) :
  NoDup (map fst m) -> In (k, v) m -> Js.mapGet m k = Some v.
Proof.
  induction m as [| [k0 v0] m IH]; simpl; intros Hnd Hin; [contradiction |].
  inversion Hnd as [| ? ? Hnotin Hnd']; subst.
  destruct Hin as [E | Hin].
  - injection E as -> ->. rewrite String.eqb_refl. reflexivity.
  - destruct (String.eqb k0 k) eqn:E.
    + apply String.eqb_eq in E. subst k0. exfalso. apply Hnotin.
      apply (in_map fst) in Hin. exact Hin.
    + auto.
Qed.

Variable A : Type.
Variable key : A -> string.
Variable value : A -> Q.

Lemma accumulate_nodup (l : list A) (m : Js.Map) :
  NoDup (map fst m) -> NoDup (map fst (accumulate key value l m)).
Proof.
  unfold accumulate. revert m. induction l as [| x l IH]; intros m Hnd; simpl.
  - exact Hnd.
  - apply IH. apply mapSet_nodup. exact Hnd.
Qed.

Lemma accumulate_keys (l : list A) (m : Js.Map) (k : string) :
  In k (map fst (accumulate key value l m)) <->
  In k (map fst m) \/ In k (map key l).
Proof.
  unfold accumulate. revert m. induction l as [| x l IH]; intros m; simpl.
  - intuition.
  - rewrite IH, mapSet_keys. intuition.
Qed.

Lemma accumulate_get (l : list A) (m : Js.Map) (k : string) :
  (Js.orZero (Js.mapGet (accumulate key value l m) k)
   == Js.orZero (Js.mapGet m k) + sumQ (map value (withKey key k l)))%Q.
Proof.
  unfold accumulate, withKey. revert m.
  induction l as [| x l IH]; intros m; cbn [fold_left filter map sumQ].
  - ring.
  - rewrite IH, mapGet_mapSet.
    destruct (String.eqb (key x) k) eqn:E; cbn [map sumQ].
    + apply String.eqb_eq in E. rewrite E.
      pose proof (orZero_some (Js.orZero (Js.mapGet m k) + value x)). lra.
    + reflexivity.
Qed.

(** The map built from nothing: its keys are the keys of the elements,
    each once, and the value under a key is the sum, taken from left to
    right, of the values of the elements filed under it. *)
Lemma accumulate_from_empty (l : list A) :
  let m := accumulate key value l [] in
  NoDup (map fst m)
  /\ (forall k, In k (map fst m) <-> exists x, In x l /\ key x = k)
  /\ (forall k v, In (k, v) m ->
        (v == fold_left (fun sum x => sum + value x) (withKey key k l) 0)%Q).
Proof.
  cbv zeta.
  assert (Hnd : NoDup (map fst (accumulate key value l [])))
    by (apply accumulate_nodup; constructor).
  split; [exact Hnd |]. split.
  - intros k. rewrite accumulate_keys. cbn [map In]. split.
    + intros [[] | Hin]. apply in_map_iff in Hin.
      destruct Hin as [x [E Hx]]. exists x. auto.
    + intros [x [Hx E]]. right. apply in_map_iff. exists x. auto.
  - intros k v Hin.
    pose proof (accumulate_get l [] k) as Hg.
    rewrite (mapGet_in _ k v Hnd Hin) in Hg.
    pose proof (orZero_some v). cbn [Js.mapGet] in Hg.
    change (Js.orZero None) with 0%Q in Hg.
    rewrite (fold_left_sumQ value). lra.
Qed.

End GroupedCharts.

Section ChartTheorems.
Context `{DateBuiltins} `{LocaleBuiltins}.

Lemma firstn_incl {A : Type} (n : nat) (l : list A) : incl (firstn n l) l.
Proof.
  intros x Hx. rewrite <- (firstn_skipn n l). apply in_or_app. left. exact Hx.
Qed.

Lemma skipn_incl {A : Type} (n : nat) (l : list A) : incl (skipn n l) l.
Proof.
  intros x Hx. rewrite <- (firstn_skipn n l). apply in_or_app. right. exact Hx.
Qed.

Lemma NoDup_app_l {A : Type} (l1 l2 : list A) : NoDup (l1 ++ l2) -> NoDup l1.
Proof.
  induction l1 as [| x l1 IH]; simpl; intros Hnd; [constructor |].
  inversion Hnd as [| ? ? Hnotin Hnd']; subst.
  constructor; [| auto]. intros Hin. apply Hnotin. apply in_or_app. left. exact Hin.
Qed.

Lemma NoDup_app_r {A : Type} (l1 l2 : list A) : NoDup (l1 ++ l2) -> NoDup l2.
Proof.
  induction l1 as [| x l1 IH]; simpl; intros Hnd; [exact Hnd |].
  inversion Hnd; subst. auto.
Qed.

Lemma NoDup_keys_sorted_part (cmp : string * Q -> string * Q -> Q) (m : Js.Map)
    (part rest : list (string * Q)) :
  NoDup (map fst m) -> Js.sort cmp m = part ++ rest \/ Js.sort cmp m = rest ++ part ->
  NoDup (map fst part).
Proof.
  intros Hnd Hsplit.
  assert (Hs : NoDup (map fst (Js.sort cmp m))).
  { apply (Permutation_NoDup
             (Permutation_map fst (Permutation_sym (sort_permutation cmp m)))).
    exact Hnd. }
  destruct Hsplit as [E | E]; rewrite E, map_app in Hs.
  - exact (NoDup_app_l _ _ Hs).
  - exact (NoDup_app_r _ _ Hs).
Qed.

Lemma categoryMap_keys_nodup (ms : list Medicine.t) :
  NoDup (map fst (Charts.categoryMap ms)).
Proof.
  change (Charts.categoryMap ms) with (accumulate Medicine.category stockValue ms []).
  apply accumulate_nodup. constructor.
Qed.

(** X15. The chart of the inventory by category files every medicine under
    its category: before the cut to eight bars, the categories of the map
    are the categories of the catalog, each once, and the value of a
    category is the sum of price x quantity over its medicines, added up
    from left to right in the order of the catalog. *)
Theorem categoryMap_totals (ms : list Medicine.t) :
  let m := Charts.categoryMap ms in
  NoDup (map fst m)
  /\ (forall c, In c (map fst m) <-> exists med, In med ms /\ Medicine.category med = c)
  /\ (forall c v, In (c, v) m ->
        (v == fold_left (fun sum med => sum + stockValue med)
                (withKey Medicine.category c ms) 0)%Q).
Proof.
  cbv zeta.
  change (Charts.categoryMap ms) with (accumulate Medicine.category stockValue ms []).
  destruct (accumulate_from_empty _ Medicine.category stockValue ms)
    as [Hnd [Hkeys Hval]].
  split; [exact Hnd |]. split; [exact Hkeys | exact Hval].
Qed.

(** X16. The chart shows at most eight categories, each once, in falling
    order of value, and no category left out is worth more than one that is
    shown; with at most eight categories in the catalog all of them are
    shown. *)
Theorem inventoryByCategory_top_eight (ms : list Medicine.t) :
  let bars := Charts.inventoryByCategory ms in
  (List.length bars <= 8)%nat
  /\ incl bars (Charts.categoryMap ms)
  /\ NoDup (map fst bars)
  /\ StronglySorted (fun a b => (snd b <= snd a)%Q) bars
  /\ (forall e b, In e (Charts.categoryMap ms) -> ~ In e bars -> In b bars ->
                  (snd e <= snd b)%Q)
  /\ ((List.length (Charts.categoryMap ms) <= 8)%nat ->
      Permutation bars (Charts.categoryMap ms)).
Proof.
  cbv zeta. unfold Charts.inventoryByCategory, Js.sliceFirst.
  set (cmp := fun a b : string * Q => (snd b - snd a)%Q).
  set (m := Charts.categoryMap ms).
  pose proof (sort_permutation cmp m) as Hperm.
  assert (Hsorted : StronglySorted (fun a b => (cmp a b <= 0)%Q) (Js.sort cmp m)).
  { apply (sort_sorted (fun _ => True)).
    - split; unfold cmp.
      + intros a b _ _. destruct (Qlt_le_dec (snd a) (snd b)); [right | left]; lra.
      + intros a b c _ _ _. lra.
    - apply Forall_forall. intros; exact I. }
  rewrite <- (firstn_skipn 8 (Js.sort cmp m)) in Hsorted.
  apply StronglySorted_app in Hsorted. destruct Hsorted as [Hkept [_ Hcut]].
  pose proof (categoryMap_keys_nodup ms) as Hnd.
  split; [apply firstn_le_length |].
  split; [intros x Hx; apply (Permutation_in _ Hperm), (firstn_incl 8); exact Hx |].
  split.
  { apply (NoDup_keys_sorted_part cmp m _ (skipn 8 (Js.sort cmp m)) Hnd).
    left. symmetry. apply firstn_skipn. }
  split.
  { revert Hkept. apply StronglySorted_weaken. unfold cmp. intros a b _ _ Hle. lra. }
  split.
  { intros e b He Hnot Hb.
    assert (Hdropped : In e (skipn 8 (Js.sort cmp m))).
    { apply (Permutation_in _ (Permutation_sym Hperm)) in He.
      rewrite <- (firstn_skipn 8 (Js.sort cmp m)) in He.
      apply in_app_or in He. destruct He; [contradiction | assumption]. }
    pose proof (Hcut b e Hb Hdropped) as Hle. unfold cmp in Hle. lra. }
  intros Hlen.
  assert (Hall : firstn 8 (Js.sort cmp m) = Js.sort cmp m).
  { apply firstn_all2. rewrite (Permutation_length Hperm). exact Hlen. }
  rewrite Hall. exact Hperm.
Qed.

End ChartTheorems.

Section DatedCharts.
Context `{DateBuiltins} `{LocaleBuiltins}.

Lemma byDate_notAfter (a b : string) :
  validDate a -> validDate b ->
  ((Charts.byDate a b <= 0)%Q <-> notAfter a b).
Proof.
  intros [x Hx] [y Hy]. unfold Charts.byDate, notAfter. rewrite Hx, Hy.
  rewrite inject_Z_nonpos. split.
  - intros Hle. exists x, y. repeat split; [lia].
  - intros [x' [y' [Ex [Ey Hle]]]]. injection Ex as <-. injection Ey as <-. lia.
Qed.

Lemma byDate_consistent {A : Type} (date : A -> string) :
  consistentOn (fun e => validDate (date e))
    (fun a b => Charts.byDate (date a) (date b)).
Proof.
  split.
  - intros a b [x Hx] [y Hy]. unfold Charts.byDate. rewrite Hx, Hy.
    rewrite !inject_Z_nonpos. lia.
  - intros a b c [x Hx] [y Hy] [z Hz]. unfold Charts.byDate. rewrite Hx, Hy, Hz.
    rewrite !inject_Z_nonpos. lia.
Qed.

Lemma salesMap_accumulate (sales : list Sale.t) :
  Charts.salesMap sales = accumulate dayOf Sale.totalAmount sales [].
Proof. reflexivity. Qed.

(** X17. The sales chart files every sale under its day: before the cut to
    seven days, the days of the map are the days of the sales, each once,
    and the amount of a day is the sum of [totalAmount] over its sales,
    added up from left to right in the order of the history. *)
Theorem salesMap_totals (sales : list Sale.t) :
  let m := Charts.salesMap sales in
  NoDup (map fst m)
  /\ (forall d, In d (map fst m) <-> exists sale, In sale sales /\ dayOf sale = d)
  /\ (forall d v, In (d, v) m ->
        (v == fold_left (fun sum sale => sum + Sale.totalAmount sale)
                (withKey dayOf d sales) 0)%Q).
Proof.
  cbv zeta. rewrite salesMap_accumulate.
  destruct (accumulate_from_empty _ dayOf Sale.totalAmount sales)
    as [Hnd [Hkeys Hval]].
  split; [exact Hnd |]. split; [exact Hkeys | exact Hval].
Qed.

(** X18. When the day of every sale is a date the platform can read back,
    the sales chart shows at most seven days, each once, from the earliest
    to the latest, and no day left out is later than a day shown; with at
    most seven days of sales all of them are shown. *)
Theorem salesByDay_last_seven (sales : list Sale.t) :
  Forall (fun sale => validDate (dayOf sale)) sales ->
  let days := Charts.salesByDay sales in
  (List.length days <= 7)%nat
  /\ incl days (Charts.salesMap sales)
  /\ NoDup (map fst days)
  /\ StronglySorted (fun a b => notAfter (fst a) (fst b)) days
  /\ (forall e b, In e (Charts.salesMap sales) -> ~ In e days -> In b days ->
                  notAfter (fst e) (fst b))
  /\ ((List.length (Charts.salesMap sales) <= 7)%nat ->
      Permutation days (Charts.salesMap sales)).
Proof.
  intros Hvalid. cbv zeta. unfold Charts.salesByDay, Js.sliceLast.
  set (cmp := fun a b : string * Q => Charts.byDate (fst a) (fst b)).
  set (m := Charts.salesMap sales).
  set (n := (List.length (Js.sort cmp m) - 7)%nat).
  pose proof (sort_permutation cmp m) as Hperm.
  destruct (accumulate_from_empty _ dayOf Sale.totalAmount sales)
    as [Hnd [Hkeys _]].
  rewrite <- salesMap_accumulate in Hnd, Hkeys. fold m in Hnd, Hkeys.
  assert (HP : forall e, In e m -> validDate (fst e)).
  { intros e He. apply (in_map fst) in He. apply Hkeys in He.
    destruct He as [sale [Hs <-]].
    rewrite Forall_forall in Hvalid. apply Hvalid. exact Hs. }
  assert (HPs : forall e, In e (Js.sort cmp m) -> validDate (fst e)).
  { intros e He. apply HP. apply (Permutation_in _ Hperm). exact He. }
  assert (Hsorted : StronglySorted (fun a b => (cmp a b <= 0)%Q) (Js.sort cmp m)).
  { apply (sort_sorted (fun e => validDate (fst e))).
    - apply (byDate_consistent fst).
    - apply Forall_forall. exact HP. }
  assert (Hsorted' : StronglySorted (fun a b => notAfter (fst a) (fst b))
                       (Js.sort cmp m)).
  { revert Hsorted. apply StronglySorted_weaken. intros a b Ha Hb.
    unfold cmp. apply byDate_notAfter; auto. }
  rewrite <- (firstn_skipn n (Js.sort cmp m)) in Hsorted'.
  apply StronglySorted_app in Hsorted'. destruct Hsorted' as [_ [Hkept Hcut]].
  split; [rewrite length_skipn; unfold n; lia |].
  split; [intros x Hx; apply (Permutation_in _ Hperm), (skipn_incl n); exact Hx |].
  split.
  { apply (NoDup_keys_sorted_part cmp m _ (firstn n (Js.sort cmp m)) Hnd).
    right. symmetry. apply firstn_skipn. }
  split; [exact Hkept |].
  split.
  { intros e b He Hnot Hb.
    assert (Hdropped : In e (firstn n (Js.sort cmp m))).
    { apply (Permutation_in _ (Permutation_sym Hperm)) in He.
      rewrite <- (firstn_skipn n (Js.sort cmp m)) in He.
      apply in_app_or in He. destruct He; [assumption | contradiction]. }
    exact (Hcut e b Hdropped Hb). }
  intros Hlen.
  assert (Hn : n = O).
  { unfold n. rewrite (Permutation_length Hperm). fold m in Hlen. lia. }
  rewrite Hn. cbn [skipn]. exact Hperm.
Qed.

Lemma nearAndInStock_valid (env : Env) (med : Medicine.t) :
  nearAndInStock env med = true -> validDate (Medicine.expiryDate med).
Proof.
  unfold nearAndInStock, Utils.isNearExpiry, Utils.diffDays, validDate.
  destruct (Date_parse (Medicine.expiryDate med)) as [x|]; [| discriminate].
  intros _. exists x. reflexivity.
Qed.

(** X19. The chart of the products near expiry shows at most ten
    medicines, all of them from the catalog, near expiry for the 90-day
    window and in stock, from the earliest expiry date to the latest; a
    medicine that qualifies and is left out expires no earlier than any
    medicine shown; with at most ten that qualify, all of them are shown. *)
Theorem nearExpiryProducts_soonest_ten (env : Env) (ms : list Medicine.t) :
  let shown := Charts.nearExpiryProducts env ms in
  (List.length shown <= 10)%nat
  /\ (forall med, In med shown ->
        In med ms
        /\ Utils.isNearExpiry env (Medicine.expiryDate med) 90 = true
        /\ 0 < Medicine.quantity med)
  /\ StronglySorted
       (fun a b => notAfter (Medicine.expiryDate a) (Medicine.expiryDate b)) shown
  /\ (forall med s, In med ms -> nearAndInStock env med = true ->
                    ~ In med shown -> In s shown ->
                    notAfter (Medicine.expiryDate s) (Medicine.expiryDate med))
  /\ ((countIf (nearAndInStock env) ms <= 10)%nat ->
      Permutation shown (filter (nearAndInStock env) ms)).
Proof.
  cbv zeta. unfold Charts.nearExpiryProducts, Js.sliceFirst.
  fold (nearAndInStock env).
  set (cmp := fun a b : Medicine.t =>
                Charts.byDate (Medicine.expiryDate a) (Medicine.expiryDate b)).
  set (l := filter (nearAndInStock env) ms).
  pose proof (sort_permutation cmp l) as Hperm.
  assert (HP : forall e, In e l -> validDate (Medicine.expiryDate e)).
  { intros e He. apply filter_In in He. apply (nearAndInStock_valid env). apply He. }
  assert (Hsorted : StronglySorted (fun a b => (cmp a b <= 0)%Q) (Js.sort cmp l)).
  { apply (sort_sorted (fun e => validDate (Medicine.expiryDate e))).
    - apply (byDate_consistent Medicine.expiryDate).
    - apply Forall_forall. exact HP. }
  assert (Hsorted' : StronglySorted
                       (fun a b => notAfter (Medicine.expiryDate a)
                                            (Medicine.expiryDate b))
                       (Js.sort cmp l)).
  { revert Hsorted. apply StronglySorted_weaken. intros a b Ha Hb.
    unfold cmp. apply byDate_notAfter; apply HP;
      apply (Permutation_in _ Hperm); assumption. }
  rewrite <- (firstn_skipn 10 (Js.sort cmp l)) in Hsorted'.
  apply StronglySorted_app in Hsorted'. destruct Hsorted' as [Hkept [_ Hcut]].
  split; [apply firstn_le_length |].
  split.
  { intros med Hmed. apply (firstn_incl 10) in Hmed.
    apply (Permutation_in _ Hperm) in Hmed. apply filter_In in Hmed.
    destruct Hmed as [Hin Htest]. unfold nearAndInStock in Htest.
    apply andb_true_iff in Htest. destruct Htest as [Hnear Hq].
    apply Z.ltb_lt in Hq. auto. }
  split; [exact Hkept |].
  split.
  { intros med s Hin Htest Hnot Hs.
    assert (Hdropped : In med (skipn 10 (Js.sort cmp l))).
    { assert (Hl : In med (Js.sort cmp l)).
      { apply (Permutation_in _ (Permutation_sym Hperm)). apply filter_In. auto. }
      rewrite <- (firstn_skipn 10 (Js.sort cmp l)) in Hl.
      apply in_app_or in Hl. destruct Hl; [contradiction | assumption]. }
    exact (Hcut s med Hs Hdropped). }
  intros Hcount. rewrite firstn_all2; [exact Hperm |].
  rewrite (Permutation_length Hperm). unfold l.
  rewrite length_filter_countIf. exact Hcount.
Qed.

Lemma maxWithOne_bounds (values : list Q) :
  (1 <= Js.maxWithOne values)%Q
  /\ forall x, In x values -> (x <= Js.maxWithOne values)%Q.
Proof.
  unfold Js.maxWithOne. induction values as [| v l [IH1 IHall]]; simpl.
  - split; [apply Qle_refl | intros x []].
  - split.
    + apply (Qle_trans _ _ _ IH1). apply Q.le_max_r.
    + intros x [<- | Hx]; [apply Q.le_max_l |].
      apply (Qle_trans _ _ _ (IHall x Hx)). apply Q.le_max_r.
Qed.

Lemma barWidth_bounds (amount max : Q) :
  (1 <= max)%Q -> (amount <= max)%Q ->
  (Charts.barWidth amount max <= 100)%Q
  /\ ((0 <= amount)%Q -> (0 <= Charts.barWidth amount max)%Q).
Proof.
  intros Hmax Hle. unfold Charts.barWidth.
  assert (Hpos : (0 < max)%Q) by lra.
  assert (Hone : (amount / max <= 1)%Q).
  { apply Qle_shift_div_r; [exact Hpos | lra]. }
  split; [lra |].
  intros Hnonneg.
  assert (Hzero : (0 <= amount / max)%Q).
  { apply Qle_shift_div_l; [exact Hpos | lra]. }
  lra.
Qed.

(** X20. The longest bar of a chart is measured against the largest amount
    shown or 1, whichever is greater: the divisor is never below 1, so no
    width is a division by zero, no bar is wider than 100 per cent, and the
    bar of a non-negative amount has a non-negative width. *)
Theorem bar_widths_bounded (ms : list Medicine.t) (sales : list Sale.t) :
  (1 <= Charts.maxInventory ms)%Q
  /\ (1 <= Charts.maxSales sales)%Q
  /\ (forall category value, In (category, value) (Charts.inventoryByCategory ms) ->
        (Charts.barWidth value (Charts.maxInventory ms) <= 100)%Q
        /\ ((0 <= value)%Q -> (0 <= Charts.barWidth value (Charts.maxInventory ms))%Q))
  /\ (forall date amount, In (date, amount) (Charts.salesByDay sales) ->
        (Charts.barWidth amount (Charts.maxSales sales) <= 100)%Q
        /\ ((0 <= amount)%Q -> (0 <= Charts.barWidth amount (Charts.maxSales sales))%Q)).
Proof.
  unfold Charts.maxInventory, Charts.maxSales.
  destruct (maxWithOne_bounds (map snd (Charts.inventoryByCategory ms))) as [Hi Hiall].
  destruct (maxWithOne_bounds (map snd (Charts.salesByDay sales))) as [Hs Hsall].
  split; [exact Hi |]. split; [exact Hs |]. split.
  - intros c v Hin. apply barWidth_bounds; [exact Hi |].
    apply Hiall. apply (in_map snd) in Hin. exact Hin.
  - intros d v Hin. apply barWidth_bounds; [exact Hs |].
    apply Hsall. apply (in_map snd) in Hin. exact Hin.
Qed.

End DatedCharts.

(** ** The page: opening alert and history *)

Section Page.
Context `{DateBuiltins}.

(** X21. The alert at the opening of the page is shown exactly when
    [showAlert] is set and one of the two counts of [calculateMetrics], the
    ones of the header badges, is positive.  It then lists the low-stock
    count, if positive, before the expired count, if positive, so it is
    never empty, and it clears [showAlert], so that the effect run again
    shows nothing; when no alert is shown [showAlert] is left as it is. *)
Theorem startup_alert (env : Env) (showAlert : bool) (st : AppState) :
  let metrics := Utils.calculateMetrics env (medicines st) (sales st) in
  let low := DashboardMetrics.lowStockItems metrics in
  let expired := DashboardMetrics.expiredItems metrics in
  let result := App.startupEffect env showAlert st in
  (fst result <> None <-> showAlert = true /\ (0 < low \/ 0 < expired)%nat)
  /\ (forall messages, fst result = Some messages ->
        messages = (if (0 <? low)%nat then [App.LowInStock low] else [])
                   ++ (if (0 <? expired)%nat then [App.HaveExpired expired] else [])
        /\ messages <> []
        /\ snd result = false
        /\ fst (App.startupEffect env (snd result) st) = None)
  /\ (fst result = None -> snd result = showAlert).
Proof.
  cbv zeta. unfold App.startupEffect, App.lowStockItems, App.expiredItems,
    Utils.calculateMetrics.
  cbn [DashboardMetrics.lowStockItems DashboardMetrics.expiredItems].
  set (low := List.length (filter _ (medicines st))).
  set (expired := List.length (filter (fun med => Utils.isExpired env _) (medicines st))).
  destruct showAlert; cbn [andb].
  - destruct (Nat.ltb_spec 0 low) as [Hl | Hl];
      destruct (Nat.ltb_spec 0 expired) as [He | He]; cbn [orb fst snd app].
    + split; [split; [intros _; split; [reflexivity | lia] | discriminate] |].
      split; [| discriminate].
      intros messages [= <-]. repeat split; discriminate.
    + split; [split; [intros _; split; [reflexivity | lia] | discriminate] |].
      split; [| discriminate].
      intros messages [= <-]. repeat split; discriminate.
    + split; [split; [intros _; split; [reflexivity | lia] | discriminate] |].
      split; [| discriminate].
      intros messages [= <-]. repeat split; discriminate.
    + split; [split; [intros Hno; exfalso; apply Hno; reflexivity | intros [_ Hpos]; lia] |].
      split; [discriminate | reflexivity].
  - cbn [fst snd].
    split; [split; [intros Hno; exfalso; apply Hno; reflexivity
                   | intros [Hno _]; discriminate] |].
    split; [discriminate | reflexivity].
Qed.

Lemma sales_page_step (env : Env) (a : App.Action) (st : AppState) :
  isPageAction a = true ->
  sales (App.step env a st) = sales st
  \/ exists newSale, sales (App.step env a st) = newSale :: sales st /\ saleOk newSale.
Proof.
  intros Ha. destruct a as [d | id d | id | sd | f]; try discriminate Ha;
    cbn [App.step]; try (left; reflexivity).
  unfold App.submitSale, SalesTable.handleSubmit.
  destruct (findMedicine (SaleForm.medicineId f) (medicines st)) as [m|];
    [| left; reflexivity].
  cbv zeta.
  destruct (Medicine.quantity m <? SaleForm.quantity f); [left; reflexivity |].
  destruct (Z.leb_spec (SaleForm.quantity f) 0) as [Hle | Hpos]; [left; reflexivity |].
  unfold App.handleSell. cbn [SaleData.medicineId SaleData.quantity].
  destruct (findMedicine (Medicine.id m) (medicines st)) as [m'|];
    [| left; reflexivity].
  destruct (Medicine.quantity m' <? SaleForm.quantity f); [left; reflexivity |].
  right. eexists. split; [reflexivity |].
  split; [reflexivity | exact Hpos].
Qed.

(** X22. Along any session of page actions (adding, editing and deleting
    medicines, and sales made through the sale dialog) every record of the
    sales history keeps [totalAmount] equal to its price times its quantity
    and a positive quantity, provided the history started so. *)
Theorem sales_history_invariant (turns : list (Env * App.Action)) (st : AppState) :
  Forall (fun turn => isPageAction (snd turn) = true) turns ->
  Forall saleOk (sales st) ->
  Forall saleOk (sales (App.run turns st)).
Proof.
  intros Hturns. revert st.
  induction Hturns as [| [env a] turns Ha _ IH]; intros st Hok; cbn [App.run].
  - exact Hok.
  - apply IH. cbn [snd] in Ha.
    destruct (sales_page_step env a st Ha) as [-> | [newSale [-> HnewOk]]].
    + exact Hok.
    + constructor; assumption.
Qed.

End Page.

(** ** Identifiers *)

Section Identifiers.

Lemma N_of_ascii_of_N_small (n : N) : (n < 256)%N -> N_of_ascii (ascii_of_N n) = n.
Proof. apply N_ascii_embedding. Qed.

Lemma digitValue36_digit36 (d : N) : (d < 36)%N -> digitValue36 (Utils.digit36 d) = d.
Proof.
  intros Hd. unfold digitValue36, Utils.digit36.
  destruct (N.ltb_spec d 10).
  - rewrite N_of_ascii_of_N_small by lia.
    destruct (N.ltb_spec (48 + d) 58); lia.
  - rewrite N_of_ascii_of_N_small by lia.
    destruct (N.ltb_spec (97 + (d - 10)) 58); lia.
Qed.

Lemma isDigit36_digit36 (d : N) : (d < 36)%N -> isDigit36 (Utils.digit36 d) = true.
Proof.
  intros Hd. unfold isDigit36, Utils.digit36.
  destruct (N.ltb_spec d 10); rewrite N_of_ascii_of_N_small by lia.
  - apply orb_true_iff. left. apply andb_true_iff. split; apply N.leb_le; lia.
  - apply orb_true_iff. right. apply andb_true_iff. split; apply N.leb_le; lia.
Qed.

Lemma mod36_lt (n : N) : (n mod 36 < 36)%N.
Proof. apply N.mod_lt. discriminate. Qed.

(** With enough fuel the digits written in front of [acc] spell [n]. *)
Lemma toString36_aux_decode (fuel : nat) (n : N) (acc : string) :
  (n < 36 ^ N.of_nat fuel)%N ->
  decode36_from 0 (Utils.toString36_aux fuel n acc) = decode36_from n acc.
Proof.
  revert n acc. induction fuel as [| fuel IH]; intros n acc Hn.
  - cbn in Hn. assert (n = 0%N) as -> by lia. reflexivity.
  - cbn [Utils.toString36_aux]. cbv zeta.
    pose proof (N.div_mod n 36 ltac:(discriminate)) as Hdm.
    destruct (N.eqb_spec (n / 36) 0) as [Hz | Hnz].
    + cbn [decode36_from]. rewrite digitValue36_digit36 by apply mod36_lt.
      f_equal. lia.
    + rewrite IH.
      * cbn [decode36_from]. rewrite digitValue36_digit36 by apply mod36_lt.
        f_equal. lia.
      * rewrite Nat2N.inj_succ, N.pow_succ_r' in Hn.
        apply N.Div0.div_lt_upper_bound. exact Hn.
Qed.

Lemma toString36_aux_digits (fuel : nat) (n : N) (acc : string) :
  allDigits36 acc = true -> allDigits36 (Utils.toString36_aux fuel n acc) = true.
Proof.
  revert n acc. induction fuel as [| fuel IH]; intros n acc Hacc; [exact Hacc |].
  cbn [Utils.toString36_aux]. cbv zeta.
  assert (Hacc' : allDigits36 (String (Utils.digit36 (n mod 36)) acc) = true).
  { cbn [allDigits36]. rewrite isDigit36_digit36 by apply mod36_lt. exact Hacc. }
  destruct (n / 36 =? 0)%N; [exact Hacc' | apply IH; exact Hacc'].
Qed.

Lemma fuel_suffices (m : N) : (m < 36 ^ N.of_nat (S (N.to_nat (N.log2 m))))%N.
Proof.
  rewrite Nat2N.inj_succ, N2Nat.id.
  destruct (N.eq_dec m 0) as [-> | Hm]; [reflexivity |].
  pose proof (N.log2_spec m ltac:(lia)) as [_ Hlt].
  apply (N.lt_le_trans _ _ _ Hlt).
  apply N.pow_le_mono_l. lia.
Qed.

Lemma toString36_decode (n : Z) : decode36 (Utils.toString36 n) = Z.to_N n.
Proof.
  unfold decode36, Utils.toString36. cbv zeta.
  rewrite toString36_aux_decode by apply fuel_suffices. reflexivity.
Qed.

Lemma toString36_aux_nonempty (fuel : nat) (m : N) (acc : string) :
  acc <> ""%string -> Utils.toString36_aux fuel m acc <> ""%string.
Proof.
  revert m acc. induction fuel as [| fuel IH]; intros m acc Hacc; [exact Hacc |].
  cbn [Utils.toString36_aux]. cbv zeta.
  destruct (m / 36 =? 0)%N; [discriminate | apply IH; discriminate].
Qed.

(** X23. [toString36] writes a non-negative integer with the digits 0-9 and
    a-z only, with at least one digit, and the digits read in base 36 give
    the integer back; so two different non-negative integers are never
    written alike. *)
Theorem toString36_round_trip (n : Z) :
  0 <= n ->
  Z.of_N (decode36 (Utils.toString36 n)) = n
  /\ allDigits36 (Utils.toString36 n) = true
  /\ Utils.toString36 n <> ""%string
  /\ (forall n', 0 <= n' -> Utils.toString36 n' = Utils.toString36 n -> n' = n).
Proof.
  intros Hn. split; [| split; [| split]].
  - rewrite toString36_decode. apply Z2N.id. exact Hn.
  - unfold Utils.toString36. cbv zeta. apply toString36_aux_digits. reflexivity.
  - unfold Utils.toString36. cbv zeta. cbn [Utils.toString36_aux]. cbv zeta.
    destruct (Z.to_N n / 36 =? 0)%N; [discriminate |].
    apply toString36_aux_nonempty. discriminate.
  - intros n' Hn' Heq.
    pose proof (toString36_decode n) as Hd. pose proof (toString36_decode n') as Hd'.
    rewrite Heq in Hd'. rewrite Hd in Hd'. lia.
Qed.

End Identifiers.

Section IdentifierClash.

Lemma toString36_aux_length (k : nat) :
  forall (fuel : nat) (n : N) (acc : string),
    (k < fuel)%nat ->
    (n < 36 ^ N.of_nat (S k))%N ->
    k = O \/ (36 ^ N.of_nat k <= n)%N ->
    String.length (Utils.toString36_aux fuel n acc) = (S k + String.length acc)%nat.
Proof.
  induction k as [| k IH]; intros fuel n acc Hfuel Hup Hlow;
    (destruct fuel as [| fuel]; [lia |]); cbn [Utils.toString36_aux]; cbv zeta.
  - change (36 ^ N.of_nat 1)%N with 36%N in Hup.
    rewrite (N.div_small n 36 Hup). reflexivity.
  - destruct Hlow as [Hk | Hlow]; [discriminate Hk |].
    rewrite Nat2N.inj_succ, N.pow_succ_r' in Hlow.
    rewrite (Nat2N.inj_succ (S k)), N.pow_succ_r' in Hup.
    assert (Hq : (36 ^ N.of_nat k <= n / 36)%N)
      by (apply N.div_le_lower_bound; [discriminate | exact Hlow]).
    assert (Hq' : (n / 36 < 36 ^ N.of_nat (S k))%N)
      by (apply N.Div0.div_lt_upper_bound; exact Hup).
    assert (Hpos : (0 < 36 ^ N.of_nat k)%N)
      by (apply N.neq_0_lt_0, N.pow_nonzero; discriminate).
    destruct (N.eqb_spec (n / 36) 0) as [Hz | _]; [lia |].
    rewrite (IH fuel (n / 36)%N _ ltac:(lia) Hq' (or_intror Hq)).
    cbn [String.length]. lia.
Qed.

Lemma toString36_length_eight (n : Z) :
  36 ^ 7 <= n < 36 ^ 8 -> String.length (Utils.toString36 n) = 8%nat.
Proof.
  intros [Hlow Hup]. unfold Utils.toString36. cbv zeta.
  change (36 ^ 7) with 78364164096 in Hlow. change (36 ^ 8) with 2821109907456 in Hup.
  assert (Hlow' : (36 ^ N.of_nat 7 <= Z.to_N n)%N).
  { replace (36 ^ N.of_nat 7)%N with 78364164096%N by reflexivity. lia. }
  assert (Hup' : (Z.to_N n < 36 ^ N.of_nat 8)%N).
  { replace (36 ^ N.of_nat 8)%N with 2821109907456%N by reflexivity. lia. }
  assert (Hlog : (7 <= N.log2 (Z.to_N n))%N).
  { change 7%N with (N.log2 (2 ^ 7)). apply N.log2_le_mono.
    replace (36 ^ N.of_nat 7)%N with 78364164096%N in Hlow' by reflexivity.
    change (2 ^ 7)%N with 128%N. lia. }
  assert (Hfuel : (7 < S (N.to_nat (N.log2 (Z.to_N n))))%nat) by lia.
  rewrite (toString36_aux_length 7 _ _ _ Hfuel Hup' (or_intror Hlow')).
  reflexivity.
Qed.

Lemma string_app_inj_length (s1 s2 t1 t2 : string) :
  String.length s1 = String.length s2 ->
  (s1 ++ t1 = s2 ++ t2)%string -> s1 = s2 /\ t1 = t2.
Proof.
  revert s2. induction s1 as [| c s1 IH]; intros [| c' s2] Hlen Heq;
    try discriminate Hlen.
  - auto.
  - simpl in Heq. injection Heq as -> Heq. injection Hlen as Hlen.
    destruct (IH s2 Hlen Heq) as [-> ->]. auto.
Qed.

(** X24. Between 25 June 1972 and 25 May 2059 (a clock from 36^7 up to
    36^8 milliseconds, written with eight digits of base 36), two ids drawn
    by [generateId] are equal only when the clock is the same and the
    random part is the same: ids drawn at different instants differ. *)
Theorem generateId_distinct (env env' : Env) :
  36 ^ 7 <= now env < 36 ^ 8 ->
  36 ^ 7 <= now env' < 36 ^ 8 ->
  Utils.generateId env = Utils.generateId env' ->
  now env = now env'
  /\ Utils.substr2 (random36 env) = Utils.substr2 (random36 env').
Proof.
  intros Hn Hn' Heq. unfold Utils.generateId in Heq.
  apply string_app_inj_length in Heq.
  - destruct Heq as [Hclock Htail]. split; [| exact Htail].
    pose proof (toString36_decode (now env)) as Hd.
    pose proof (toString36_decode (now env')) as Hd'.
    rewrite Hclock in Hd. rewrite Hd in Hd'.
    change (36 ^ 7) with 78364164096 in Hn, Hn'. lia.
  - rewrite !toString36_length_eight; auto.
Qed.

End IdentifierClash.

(** ** The id of a sale record *)

Section SaleRecordIdentity.
Context `{DateBuiltins}.

(** Within the eight-digit clock, two draws of [generateId] at different
    milliseconds or with different random parts give different ids. *)
Lemma generateId_differs (env env' : Env) :
  eightDigitClock env -> eightDigitClock env' ->
  now env' <> now env
  \/ Utils.substr2 (random36 env') <> Utils.substr2 (random36 env) ->
  Utils.generateId env <> Utils.generateId env'.
Proof.
  unfold eightDigitClock. intros Hn Hn' Hdiff Heq. unfold Utils.generateId in Heq.
  apply string_app_inj_length in Heq;
    [| rewrite !toString36_length_eight; auto].
  destruct Heq as [Hclock Htail].
  pose proof (toString36_decode (now env)) as Hd.
  pose proof (toString36_decode (now env')) as Hd'.
  rewrite Hclock in Hd. rewrite Hd in Hd'.
  change (36 ^ 7) with 78364164096 in Hn, Hn'.
  destruct Hdiff as [Hne | Hne]; [apply Hne; lia | apply Hne; congruence].
Qed.

(** C5 (amended). When a sale succeeds, the record put at the front of the
    history carries the name, the price and the id of the medicine resolved
    in the catalog of that instant, a positive quantity, [totalAmount] equal
    to its price times its quantity and the current time as [dateTime];
    whatever catalog edits follow leave the history as it is, and whatever
    actions follow keep the record in it.  Its id is the one drawn by
    [generateId], the clock in base 36 followed by random digits, and is not
    checked against the ids in use: within the eight-digit clock it differs
    from every id drawn at another millisecond or with another random part,
    and the ids of the history stay pairwise distinct exactly when the drawn
    id is not among them already. *)
Theorem sale_record_snapshot_drawn_id (env : Env) (f : SaleForm.t) (st : AppState)
    (total : Q) :
  raised (SaleCompleted total) st (App.submitSale env f st) ->
  let st' := App.submitSale env f st in
  exists m newSale,
    findMedicine (SaleForm.medicineId f) (medicines st) = Some m
    /\ sales st' = newSale :: sales st
    /\ Sale.medicineName newSale = Medicine.name m
    /\ Sale.price newSale = Medicine.price m
    /\ Sale.medicineId newSale = Medicine.id m
    /\ Sale.quantity newSale = SaleForm.quantity f
    /\ 0 < Sale.quantity newSale
    /\ Sale.totalAmount newSale
       = (Sale.price newSale * inject_Z (Sale.quantity newSale))%Q
    /\ total = Sale.totalAmount newSale
    /\ Sale.id newSale = Utils.generateId env
    /\ Sale.dateTime newSale = Date_toISOString (now env)
    /\ (forall turns,
          Forall (fun t => isCatalogEdit (snd t) = true) turns ->
          sales (App.run turns st') = newSale :: sales st)
    /\ (forall turns, exists newer,
          sales (App.run turns st') = newer ++ newSale :: sales st)
    /\ (forall env',
          eightDigitClock env -> eightDigitClock env' ->
          now env' <> now env
          \/ Utils.substr2 (random36 env') <> Utils.substr2 (random36 env) ->
          Sale.id newSale <> Utils.generateId env')
    /\ (NoDup (map Sale.id (sales st)) ->
        (NoDup (map Sale.id (sales st')) <->
         ~ In (Sale.id newSale) (map Sale.id (sales st)))).
Proof.
  intros Hraised. cbv zeta.
  destruct (sale_record_snapshot env f st total Hraised)
    as (m & newSale & Hf & Hsales & Hname & Hprice & Hmid & Hq & Hpos & Htotal
        & Halert & Hid & Htime & Hedits & Hkept).
  exists m, newSale.
  repeat (split; [assumption |]).
  split.
  - intros env' Hn Hn' Hdiff. rewrite Hid. apply generateId_differs; assumption.
  - intros Hnd. rewrite Hsales. cbn [map]. split.
    + intros Hnd'. inversion Hnd'. assumption.
    + intros Hfresh. constructor; assumption.
Qed.

End SaleRecordIdentity.

(** C5, on the scenario: the record of the three units of aspirin, sold in
    November 2023, and an id drawn one millisecond later. *)
Lemma sale_record_snapshot_drawn_id_witness :
  raised (SaleCompleted 30) sampleState (App.submitSale envToday sellThree sampleState)
  /\ exists m newSale,
       findMedicine "m1" (medicines sampleState) = Some m
       /\ sales (App.submitSale envToday sellThree sampleState) = [newSale]
       /\ Sale.medicineName newSale = Medicine.name m
       /\ Sale.price newSale = Medicine.price m
       /\ Sale.id newSale = Utils.generateId envToday
       /\ Sale.id newSale
          <> Utils.generateId {| now := 1700000000001; random36 := "0.4fzyo82mvyr" |}.
Proof.
  assert (Hr : raised (SaleCompleted 30) sampleState
                 (App.submitSale envToday sellThree sampleState)) by reflexivity.
  split; [exact Hr |].
  destruct (sale_record_snapshot_drawn_id envToday sellThree sampleState 30 Hr)
    as (m & newSale & Hf & Hs & Hn & Hp & _ & _ & _ & _ & _ & Hid & _ & _ & _
        & Hfresh & _).
  exists m, newSale. repeat (split; [assumption |]).
  apply Hfresh.
  - unfold eightDigitClock. vm_compute. split; [discriminate | reflexivity].
  - unfold eightDigitClock. vm_compute. split; [discriminate | reflexivity].
  - left. discriminate.
Defined.

(** C5 as stated fails for two sales made in the same millisecond with the
    same random draw: both succeed, and the second record carries the id of
    the first, which is in the history already. *)
Lemma sale_id_reused_counterexample :
  raised (SaleCompleted 10) sampleState
    (App.submitSale envToday sellOne sampleState)
  /\ raised (SaleCompleted 10)
       (App.submitSale envToday sellOne sampleState)
       (App.submitSale envTodayAgain sellOne
          (App.submitSale envToday sellOne sampleState))
  /\ map Sale.id
       (sales (App.submitSale envTodayAgain sellOne
                 (App.submitSale envToday sellOne sampleState)))
     = ["loyw3v284fzyo82mvyr"; "loyw3v284fzyo82mvyr"]%string
  /\ ~ NoDup
        (map Sale.id
           (sales (App.submitSale envTodayAgain sellOne
                     (App.submitSale envToday sellOne sampleState)))).
Proof.
  split; [reflexivity |]. split; [reflexivity |]. split; [reflexivity |].
  intros Hnd. inversion Hnd as [| ? ? Hnotin _]; subst.
  apply Hnotin. left. reflexivity.
Qed.

(** ** The added properties, run on the samples *)

Lemma sampleState_uniqueIds : uniqueIds sampleState.
Proof.
  unfold uniqueIds. cbn. repeat constructor; cbn; intuition discriminate.
Qed.

(** X5, on the samples: a medicine added to the sample catalog and deleted
    again. *)
Lemma add_then_delete_round_trip_witness :
  findMedicine (Utils.generateId envEpoch) (medicines sampleState) = None
  /\ App.handleDeleteMedicine (Utils.generateId envEpoch)
       (App.handleAddMedicine envEpoch negativeStock sampleState) = sampleState.
Proof.
  split; [reflexivity |].
  exact (add_then_delete_round_trip envEpoch negativeStock sampleState eq_refl).
Defined.

(** X6, on the samples: the two medicines in either order. *)
Lemma calculateMetrics_counts_order_independent_witness :
  Permutation [aspirin; expiredSyrup] [expiredSyrup; aspirin]
  /\ DashboardMetrics.expiredItems
       (Utils.calculateMetrics envLater [aspirin; expiredSyrup] [])
     = DashboardMetrics.expiredItems
         (Utils.calculateMetrics envLater [expiredSyrup; aspirin] sampleSales).
Proof.
  split; [apply perm_swap |].
  exact (proj2 (calculateMetrics_counts_order_independent envLater
                  [aspirin; expiredSyrup] [expiredSyrup; aspirin] [] sampleSales
                  (perm_swap _ _ _))).
Defined.

(** X7, on the scenario: the three units of aspirin. *)
Lemma sale_conserves_units_witness :
  uniqueIds sampleState
  /\ findMedicine (SaleForm.medicineId sellThree) (medicines sampleState) = Some aspirin
  /\ 0 < SaleForm.quantity sellThree <= Medicine.quantity aspirin
  /\ unitsInStock (medicines (App.submitSale envEpoch sellThree sampleState))
     = unitsInStock (medicines sampleState) - SaleForm.quantity sellThree.
Proof.
  assert (Hq : 0 < SaleForm.quantity sellThree <= Medicine.quantity aspirin)
    by (vm_compute; split; [reflexivity | discriminate]).
  split; [exact sampleState_uniqueIds |]. split; [reflexivity |]. split; [exact Hq |].
  exact (proj1
           (sale_conserves_units envEpoch envEpoch sellThree sampleState aspirin
              sampleState_uniqueIds eq_refl Hq)).
Defined.

(** X8, on the samples: the aspirin is offered and sold. *)
Lemma listed_medicine_sellable_witness :
  In aspirin (SalesTable.availableMedicines envEpoch (medicines sampleState))
  /\ raised (SaleCompleted (Medicine.price aspirin * inject_Z (SaleForm.quantity sellThree)))
       sampleState (App.submitSale envEpoch sellThree sampleState).
Proof.
  assert (Hin : In aspirin (SalesTable.availableMedicines envEpoch (medicines sampleState)))
    by (left; reflexivity).
  assert (Hq : 0 < SaleForm.quantity sellThree <= Medicine.quantity aspirin)
    by (vm_compute; split; [reflexivity | discriminate]).
  split; [exact Hin |].
  exact (proj1 (proj2
           (listed_medicine_sellable envEpoch envEpoch sellThree sampleState aspirin
              sampleState_uniqueIds Hin eq_refl Hq))).
Defined.

(** X11, on the samples: the rows by rising quantity. *)
Lemma inventory_rows_sorted_witness :
  fieldConsistent InventoryTable.by_quantity
  /\ StronglySorted (fun a b => Medicine.quantity a <= Medicine.quantity b)
       (fst (InventoryTable.filteredMedicines envEpoch [aspirin; expiredSyrup; bandage]
               "" InventoryTable.by_quantity InventoryTable.asc false)).
Proof.
  split; [exact I |].
  exact (proj1 (proj2
           (inventory_rows_sorted envEpoch [aspirin; expiredSyrup; bandage] ""
              InventoryTable.by_quantity InventoryTable.asc false I))
           eq_refl eq_refl).
Defined.

Lemma sampleSales_validDays : Forall (fun sale => validDate (dayOf sale)) sampleSales.
Proof.
  repeat constructor; eexists; reflexivity.
Qed.

(** X18, on the samples: three sales on two days. *)
Lemma salesByDay_last_seven_witness :
  Forall (fun sale => validDate (dayOf sale)) sampleSales
  /\ (List.length (Charts.salesByDay sampleSales) <= 7)%nat
  /\ StronglySorted (fun a b => notAfter (fst a) (fst b)) (Charts.salesByDay sampleSales).
Proof.
  pose (thm := salesByDay_last_seven sampleSales sampleSales_validDays).
  split; [exact sampleSales_validDays |].
  split; [exact (proj1 thm) | exact (proj1 (proj2 (proj2 (proj2 thm))))].
Defined.

(** X22, on the samples: a sale, then the medicine deleted. *)
Lemma sales_history_invariant_witness :
  Forall (fun turn => isPageAction (snd turn) = true)
    [(envEpoch, App.SubmitSale sellThree); (envLater, App.DeleteMedicine "m1")]
  /\ Forall saleOk (sales sampleState)
  /\ Forall saleOk
       (sales (App.run [(envEpoch, App.SubmitSale sellThree);
                        (envLater, App.DeleteMedicine "m1")] sampleState)).
Proof.
  assert (Hturns : Forall (fun turn => isPageAction (snd turn) = true)
                     [(envEpoch, App.SubmitSale sellThree);
                      (envLater, App.DeleteMedicine "m1")])
    by (repeat constructor).
  assert (Hok : Forall saleOk (sales sampleState)) by constructor.
  split; [exact Hturns |]. split; [exact Hok |].
  exact (sales_history_invariant _ sampleState Hturns Hok).
Defined.

(** X23, on a clock of November 2023. *)
Lemma toString36_round_trip_witness :
  0 <= now envToday
  /\ Z.of_N (decode36 (Utils.toString36 (now envToday))) = now envToday.
Proof.
  assert (Hn : 0 <= now envToday) by (vm_compute; discriminate).
  split; [exact Hn |].
  exact (proj1 (toString36_round_trip (now envToday) Hn)).
Defined.

(** X24, on two draws in the same millisecond with the same random part. *)
Lemma generateId_distinct_witness :
  36 ^ 7 <= now envToday < 36 ^ 8
  /\ Utils.generateId envToday = Utils.generateId envTodayAgain
  /\ now envToday = now envTodayAgain.
Proof.
  assert (Hn : 36 ^ 7 <= now envToday < 36 ^ 8)
    by (vm_compute; split; [discriminate | reflexivity]).
  split; [exact Hn |]. split; [reflexivity |].
  exact (proj1 (generateId_distinct envToday envTodayAgain Hn Hn eq_refl)).
Defined.

(** X25, on the samples: a medicine added under a new id. *)
Lemma uniqueIds_step_witness :
  uniqueIds sampleState
  /\ uniqueIds (App.step envEpoch (App.AddMedicine negativeStock) sampleState).
Proof.
  split; [exact sampleState_uniqueIds |].
  apply (uniqueIds_step envEpoch (App.AddMedicine negativeStock) sampleState
           sampleState_uniqueIds).
  intros d _. cbn. intuition discriminate.
Defined.

Example sample_charts :
  Charts.salesMap sampleSales = [("1970-04-01"%string, 0 + 10 * 1); ("1970-01-01"%string, 0 + 10 * 2 + 10 * 3)]%Q
  /\ map fst (Charts.salesByDay sampleSales) = ["1970-01-01"; "1970-04-01"]%string
  /\ map fst (Charts.inventoryByCategory [aspirin; expiredSyrup; bandage])
     = ["Pain"; "Cough"; "Care"]%string
  /\ map Medicine.id (Charts.nearExpiryProducts envLater [bandage; aspirin; expiredSyrup])
     = ["m1"]%string.
Proof. repeat split. Qed.

Example sample_inventory_view :
  map Medicine.id
    (fst (InventoryTable.filteredMedicines envLater [aspirin; expiredSyrup; bandage]
            "" InventoryTable.by_name InventoryTable.asc false))
  = ["m1"; "m3"; "m2"]%string
  /\ map Medicine.id
       (fst (InventoryTable.filteredMedicines envLater [aspirin; expiredSyrup; bandage]
               "ASP" InventoryTable.by_name InventoryTable.asc false))
     = ["m1"]%string
  /\ map Medicine.id
       (medicines (snd (App.renderInventory envLater "" InventoryTable.by_quantity
                          InventoryTable.desc false sampleState)))
     = ["m1"; "m2"]%string
  /\ map Medicine.id
       (medicines (snd (App.renderInventory envLater "" InventoryTable.by_quantity
                          InventoryTable.asc false sampleState)))
     = ["m2"; "m1"]%string.
Proof. repeat split. Qed.
